(** * hook-generator: a shallow embedding of [hook-generator.py]

    The script drives an image-to-video service: it lists the input images,
    uploads each one, submits one generation task per prompt variant, polls
    the task, downloads the video and finally crops every video with FFmpeg.

    The embedding follows the source function by function and keeps its
    names.  Everything the script cannot control (HTTP replies, sub-process
    outcomes, the clock, the directory listing) is read from an environment
    [Env]: the k-th request of a run gets the k-th reply, whatever the
    request was, so an environment is one possible behaviour of the outside
    world and the properties hold for all of them.  Everything the script
    changes (files, the overall progress bar, the requests it sent, the time
    it slept) lives in a [State] that is threaded through a small state and
    exception monad; a raised exception keeps the state reached so far, as in
    Python.

    Left out, because nothing the script computes depends on it: the text
    printed on the console, the descriptions set on progress bars, and the
    three sub-progress bars (polling, download, cropping), which are objects
    of their own next to the overall bar.  Exceptions that do not derive from
    [Exception] (a keyboard interrupt) are not modelled.  *)

From Stdlib Require Import ZArith String Ascii List Lia Bool.
From Stdlib Require QArith.QArith_base.
From stdpp Require Import gmap strings list.
From stdpp Require Import fin_maps.
Import ListNotations.

Local Open Scope string_scope.
Local Open Scope Z_scope.

(** stdpp keeps [simpl] from unfolding string concatenation; the proofs below
    compute with it. *)
#[local] Arguments String.append !_ _ / : simpl nomatch.

(** ** Python strings *)

Module PyStr.

(** [c.lower()] for one character.  Only the ASCII capitals change; the
    bytes of a multi-byte UTF-8 character are all above 127 and are kept. *)
Definition lower_ascii (c : ascii) : ascii :=
  let n := nat_of_ascii c in
  if ((65 <=? n) && (n <=? 90))%nat then ascii_of_nat (n + 32) else c.

(** [s.lower()] *)
Fixpoint lower (s : string) : string :=
  match s with
  | EmptyString => EmptyString
  | String c s' => String (lower_ascii c) (lower s')
  end.

(** [s.startswith(p)], returning what follows the prefix. *)
Fixpoint strip_prefix (p s : string) : option string :=
  match p, s with
  | EmptyString, _ => Some s
  | String a p', String b s' =>
      if Ascii.eqb a b then strip_prefix p' s' else None
  | String _ _, EmptyString => None
  end.

Definition startswith (p s : string) : bool :=
  match strip_prefix p s with Some _ => true | None => false end.

(** [sub in s] *)
Fixpoint contains (sub s : string) : bool :=
  startswith sub s ||
  match s with
  | EmptyString => false
  | String _ s' => contains sub s'
  end.

(** The scan of [s.replace(old, new)] for a non-empty [old]: left to right,
    every occurrence found is replaced and the scan resumes behind it.
    [skip] counts the characters of a matched occurrence still to pass. *)
Fixpoint replace_from (old new : string) (skip : nat) (s : string) : string :=
  match s with
  | EmptyString => EmptyString
  | String c s' =>
      match skip with
      | S k => replace_from old new k s'
      | O =>
          if startswith old s
          then new +:+ replace_from old new (String.length old - 1) s'
          else String c (replace_from old new 0 s')
      end
  end.

(** With an empty [old] Python puts [new] before every character and at
    the end. *)
Fixpoint around_each (new s : string) : string :=
  match s with
  | EmptyString => new
  | String c s' => new +:+ String c (around_each new s')
  end.

(** [s.replace(old, new)] *)
Definition replace (old new s : string) : string :=
  match old with
  | EmptyString => around_each new s
  | String _ _ => replace_from old new 0 s
  end.

(** The number of positions of [s] at which [sub] occurs. *)
Fixpoint occurrences (sub s : string) : nat :=
  ((if startswith sub s then 1 else 0) +
   match s with
   | EmptyString => 0
   | String _ s' => occurrences sub s'
   end)%nat.

(** [name.rfind('.')], as an offset from the start. *)
Fixpoint rfind_dot (s : string) : option nat :=
  match s with
  | EmptyString => None
  | String c s' =>
      match rfind_dot s' with
      | Some i => Some (S i)
      | None => if Ascii.eqb c "."%char then Some O else None
      end
  end.

(** Python truthiness of a string. *)
Definition truthy (s : string) : bool :=
  match s with EmptyString => false | String _ _ => true end.

End PyStr.

(** ** Python values and exceptions *)

(** The exception classes the script can meet.  All of them derive from
    [Exception], so an [except Exception] clause catches every one. *)
Inductive exn : Type :=
| AttributeError
| KeyError
| TypeError
| IndexError
| ValueError
| FileNotFoundError
| CalledProcessError
| OtherException (name : string)
| Exception (msg : string).

(** The outcome of evaluating a Python expression: a value or a raised
    exception. *)
Inductive res (A : Type) : Type :=
| Ret (a : A)
| Raise (e : exn).
Arguments Ret {A} a.
Arguments Raise {A} e.

(** What [response.json()] yields.  Numbers are integers (the script only
    compares a number with [0]). *)
#[warnings="-register-all"] Inductive json : Type :=
| JNull
| JBool (b : bool)
| JNum (n : Z)
| JStr (s : string)
| JArr (l : list json)
| JObj (kv : list (string * json)).

Module Py.

(** Lookup of a key in a dict. *)
Fixpoint assoc (k : string) (kv : list (string * json)) : option json :=
  match kv with
  | [] => None
  | (k', v) :: kv' => if String.eqb k k' then Some v else assoc k kv'
  end.

(** [d.get(k, default)] on a dict. *)
Definition dict_get (kv : list (string * json)) (k : string) (default : json) : json :=
  match assoc k kv with Some v => v | None => default end.

(** [d.get(k, default)]: only a dict has the method. *)
Definition get (d : json) (k : string) (default : json) : res json :=
  match d with
  | JObj kv => Ret (dict_get kv k default)
  | _ => Raise AttributeError
  end.

(** [d[k]] for a string [k]. *)
Definition getitem (d : json) (k : string) : res json :=
  match d with
  | JObj kv => match assoc k kv with Some v => Ret v | None => Raise KeyError end
  | _ => Raise TypeError
  end.

(** [v[0]] *)
Definition getitem0 (v : json) : res json :=
  match v with
  | JArr (x :: _) => Ret x
  | JArr [] => Raise IndexError
  | JStr (String c _) => Ret (JStr (String c EmptyString))
  | JStr EmptyString => Raise IndexError
  | JObj _ => Raise KeyError
  | _ => Raise TypeError
  end.

(** [bool(v)] *)
Definition truthy (v : json) : bool :=
  match v with
  | JNull => false
  | JBool b => b
  | JNum n => negb (n =? 0)
  | JStr s => PyStr.truthy s
  | JArr l => match l with [] => false | _ => true end
  | JObj kv => match kv with [] => false | _ => true end
  end.

(** [v == n] for an integer literal [n]; [False == 0] and [True == 1]
    hold in Python. *)
Definition eq_int (v : json) (n : Z) : bool :=
  match v with
  | JNum m => m =? n
  | JBool b => (if b then 1 else 0) =? n
  | _ => false
  end.

(** [v == s] for a string literal [s]. *)
Definition eq_str (v : json) (s : string) : bool :=
  match v with
  | JStr t => String.eqb t s
  | _ => false
  end.

(** [v.replace(old, new)]: only a string has the method. *)
Definition str_replace (v : json) (old new : string) : res string :=
  match v with
  | JStr s => Ret (PyStr.replace old new s)
  | _ => Raise AttributeError
  end.

End Py.

(** ** The environment *)

(** A [requests.Response], as far as the script reads it. *)
Record response : Type := {
  status_code : Z;
  (** the outcome of [response.json()] *)
  body_json : res json;
  (** the outcome of [int(r.headers.get('content-length', 0))] *)
  content_length : res Z;
  (** the chunks [r.iter_content] yields ... *)
  body_chunks : list (list Byte.byte);
  (** ... and the error that ends the stream early, if any *)
  stream_error : option exn
}.

Inductive http_reply : Type :=
| HttpRaise (e : exn)
| HttpResp (r : response).

(** One run of a sub-process: what it wrote to its output file (if it wrote
    one) and its return code, or the error [subprocess.run] raised. *)
Record proc_reply : Type := {
  proc_output : option (list Byte.byte);
  proc_result : res Z
}.

(** An entry of the input directory. *)
Record dir_entry : Type := {
  entry_name : string;
  entry_is_file : bool
}.

Record Env : Type := {
  (** the reply to the k-th HTTP request of the run *)
  http : nat -> http_reply;
  (** the outcome of the k-th [subprocess.run] *)
  proc : nat -> proc_reply;
  (** the k-th reading of [int(time.time())] *)
  clock : nat -> Z;
  (** the listing of [BASE_IMAGE_DIR]; [None] when it does not exist *)
  base_dir : option (list dir_entry);
  BASE_IMAGE_DIR : string;
  OUTPUT_VIDEOS_DIR : string;
  KLING_ACCESS_KEY : string;
  KLING_SECRET_KEY : string
}.

(** ** Requests and state *)

(** The token [jwt.encode(payload, sk, headers=headers)] builds, kept as its
    fields: the header, the claims and the signing key. *)
Record jwt_token : Type := {
  jwt_alg : string;
  jwt_typ : string;
  jwt_iss : string;
  jwt_exp : Z;
  jwt_nbf : Z;
  jwt_key : string
}.

Record submit_payload : Type := {
  model_name : string;
  mode : string;
  duration : string;
  image : string;
  prompt : string;
  cfg_scale : QArith_base.Q
}.

(** The HTTP requests the script sends.  The generation service's requests
    carry the bearer token of their [Authorization] header. *)
Inductive request : Type :=
| ReqUpload (image_path : string)
| ReqSubmit (authorization : jwt_token) (payload : submit_payload)
| ReqPoll (task_id : json) (api_token : jwt_token)
| ReqDownload (url : json).

Record State : Type := {
  (** the files on disk *)
  fs : gmap string (list Byte.byte);
  (** [overall_progress.n] *)
  overall : Z;
  (** the requests sent so far, oldest first *)
  requests : list request;
  (** how many sub-processes were run *)
  n_proc : nat;
  (** how many times the clock was read *)
  n_clock : nat;
  (** the arguments of the [time.sleep] calls so far, oldest first *)
  slept : list Z
}.

Definition set_fs (f : gmap string (list Byte.byte) -> gmap string (list Byte.byte))
    (st : State) : State :=
  {| fs := f (fs st); overall := overall st; requests := requests st;
     n_proc := n_proc st; n_clock := n_clock st; slept := slept st |}.

Definition set_overall (f : Z -> Z) (st : State) : State :=
  {| fs := fs st; overall := f (overall st); requests := requests st;
     n_proc := n_proc st; n_clock := n_clock st; slept := slept st |}.

Definition add_request (r : request) (st : State) : State :=
  {| fs := fs st; overall := overall st; requests := requests st ++ [r];
     n_proc := n_proc st; n_clock := n_clock st; slept := slept st |}.

Definition tick_proc (st : State) : State :=
  {| fs := fs st; overall := overall st; requests := requests st;
     n_proc := S (n_proc st); n_clock := n_clock st; slept := slept st |}.

Definition tick_clock (st : State) : State :=
  {| fs := fs st; overall := overall st; requests := requests st;
     n_proc := n_proc st; n_clock := S (n_clock st); slept := slept st |}.

Definition add_sleep (d : Z) (st : State) : State :=
  {| fs := fs st; overall := overall st; requests := requests st;
     n_proc := n_proc st; n_clock := n_clock st; slept := slept st ++ [d] |}.

(** ** The monad: state that survives a raised exception *)

Definition M (A : Type) : Type := State -> res A * State.

Definition ret {A} (a : A) : M A := fun st => (Ret a, st).

Definition raise {A} (e : exn) : M A := fun st => (Raise e, st).

Definition bind {A B} (m : M A) (k : A -> M B) : M B :=
  fun st =>
    match m st with
    | (Ret a, st') => k a st'
    | (Raise e, st') => (Raise e, st')
    end.

(** [try: m  except Exception as e: h e] *)
Definition try_except {A} (m : M A) (h : exn -> M A) : M A :=
  fun st =>
    match m st with
    | (Ret a, st') => (Ret a, st')
    | (Raise e, st') => h e st'
    end.

(** An expression that may raise, evaluated in the monad. *)
Definition eval {A} (r : res A) : M A := fun st => (r, st).

Definition modify (f : State -> State) : M unit := fun st => (Ret tt, f st).

Declare Scope py_scope.
Delimit Scope py_scope with py.
Notation "x <- m ;; k" := (bind m (fun x => k))
  (at level 100, m at next level, right associativity) : py_scope.
Notation "m ;;; k" := (bind m (fun _ => k))
  (at level 100, right associativity) : py_scope.
Local Open Scope py_scope.

(** ** The prompt table *)

Definition prompt_surprised : string :=
  "Animate the person in the image reacting with subtle shocked surprise. Their eyes widen, eyebrows lift sharply, and their mouth opens slightly in shock. The motion should feel natural and quick, like they've just seen something unexpected. Maintain the original framing ‚Äî if the person's arm is extended under the camera, keep it consistent as a selfie, otherwise keep it as a front-facing UGC style shot. No changes to the background or setting. Do not remove or change the position of the arm or hand holding the phone underneath the camera ‚Äî preserve it exactly as in the base image. Add very subtle, natural handheld camera sway and pivot, as if the phone is being held in the person's hand, so the framing feels like a real TikTok selfie.".

Definition prompt_sad : string :=
  "Animate the person in the image reacting with subtle sadness. Their eyes soften and grow slightly glassy, eyelids lowering as if weighed down. Their eyebrows angle upward in the middle, creating a vulnerable, sorrowful expression. A small downward tilt of the head or shoulders adds to the feeling of heaviness. The motion should feel natural and tender, like they've just been hit with an emotional thought. Maintain the original framing ‚Äî if the person's arm is extended under the camera, keep it consistent as a selfie, otherwise keep it as a front-facing UGC style shot. Do not remove or change the position of the arm or hand holding the phone underneath the camera ‚Äî preserve it exactly as in the base image. Add very subtle, natural handheld camera sway and pivot, as if the phone is being held in the person's hand, so the framing feels like a real TikTok selfie.".

Definition prompt_confused : string :=
  "Animate the person in the image reacting with visible confusion while keeping their gaze locked directly at the camera. Their eyebrows knit together and raise unevenly, their eyes narrow slightly with puzzlement, and their mouth shifts into a subtle frown or half-open, questioning expression. A small head tilt or slight micro-shake emphasizes the confusion, but their eyes never leave the lens, as if they're baffled by the viewer or what they're seeing on screen. The motion should feel natural, quick, and clearly readable. Maintain the original framing ‚Äî if the person's arm is extended under the camera, keep it consistent as a selfie, otherwise keep it as a front-facing UGC style shot. Do not remove or change the position of the arm or hand holding the phone underneath the camera ‚Äî preserve it exactly as in the base image. Add very subtle, natural handheld camera sway and pivot, as if the phone is being held in the person's hand, so the framing feels like a real TikTok selfie.".

Definition prompt_romantic : string :=
  "Animate the person in the image reacting with a shy, romantic expression, as if they've just felt butterflies in their stomach. Their eyes glance down briefly, then lift back up with a soft, lingering gaze full of affection. A gentle blush appears across their cheeks, and their lips curl into a nervous but sweet smile that wavers slightly, as if they can't hide their feelings. Their head tilts down or to the side in a bashful way, adding to the sense of vulnerability. The motion should feel natural, tender, and slightly flustered, as if they're caught in an unexpected romantic moment. Maintain the original framing ‚Äî if the person's arm is extended under the camera, keep it consistent as a selfie, otherwise keep it as a front-facing UGC style shot. Do not remove or change the position of the arm or hand holding the phone underneath the camera ‚Äî preserve it exactly as in the base image. Add very subtle, natural handheld camera sway and pivot, as if the phone is being held in the person's hand, so the framing feels like a real TikTok selfie.".

Definition prompt_crying : string :=
  "Animate the person in the image beginning to cry with genuine emotion. Their eyes well up with tears that glisten and start to fall down their cheeks. Their eyebrows draw together in anguish, their lower lip trembles slightly, and their breathing becomes shaky and uneven. Their face contorts with raw emotion as they try to hold back sobs. The motion should feel deeply emotional and authentic, like they're experiencing overwhelming sadness or pain. Maintain the original framing ‚Äî if the person's arm is extended under the camera, keep it consistent as a selfie, otherwise keep it as a front-facing UGC style shot. Do not remove or change the position of the arm or hand holding the phone underneath the camera ‚Äî preserve it exactly as in the base image. Add very subtle, natural handheld camera sway and pivot, as if the phone is being held in the person's hand, so the framing feels like a real TikTok selfie.".

(** [PROMPTS]: a dict keeps the order in which its keys were inserted. *)
Definition PROMPTS : list (string * string) :=
  [ ("surprised", prompt_surprised);
    ("sad", prompt_sad);
    ("confused", prompt_confused);
    ("romantic", prompt_romantic);
    ("crying", prompt_crying) ].

(** ** Paths *)

Module Path.

Definition ends_with_slash (s : string) : bool :=
  match String.rev s with
  | String c _ => Ascii.eqb c "/"%char
  | EmptyString => false
  end.

(** [os.path.join(a, b)] on POSIX. *)
Definition join (a b : string) : string :=
  if PyStr.startswith "/" b then b
  else if ends_with_slash a || negb (PyStr.truthy a) then a +:+ b
  else a +:+ "/" +:+ b.

(** Where a file name splits into stem and suffix: at its last dot, unless
    that dot is the first or the last character. *)
Definition split_point (name : string) : option nat :=
  match PyStr.rfind_dot name with
  | Some i =>
      if ((0 <? i) && (i <? String.length name - 1))%nat then Some i else None
  | None => None
  end.

(** [Path(name).suffix] (pathlib of Python 3.12 and before) *)
Definition suffix (name : string) : string :=
  match split_point name with
  | Some i => String.substring i (String.length name - i) name
  | None => EmptyString
  end.

(** [Path(name).stem] *)
Definition stem (name : string) : string :=
  match split_point name with
  | Some i => String.substring 0 i name
  | None => name
  end.

End Path.

(** ** The script *)

(** The values the script leaves to its defaults. *)
Definition default_max_attempts : nat := 60.
Definition default_delay : Z := 5.
Definition default_duration : string := "5".

Definition image_extensions : list string :=
  [".png"; ".jpg"; ".jpeg"; ".webp"; ".bmp"].

(** What [generate_all_videos] prints at the end of a run. *)
Record summary : Type := {
  total_video_steps : Z;
  total_successful : Z;
  total_failed : Z;
  all_successful_video_paths : list string;
  (** [(cropped_count, crop_failed_count)] when the videos were cropped *)
  cropping : option (Z * Z)
}.

Section Script.

Variable env : Env.

(** *** What the script calls *)

(** Any [requests.get] or [requests.post]: the request goes out and the
    environment's next reply comes back. *)
Definition http_request (rq : request) : M response :=
  fun st =>
    let st' := add_request rq st in
    match http env (length (requests st)) with
    | HttpRaise e => (Raise e, st')
    | HttpResp r => (Ret r, st')
    end.

(** [int(time.time())] *)
Definition time_time : M Z :=
  fun st => (Ret (clock env (n_clock st)), tick_clock st).

(** [time.sleep(d)] *)
Definition time_sleep (d : Z) : M unit := modify (add_sleep d).

(** [subprocess.run(cmd, check=check)].  [output_file] names the file the
    command line asks the tool to write: none for [ffmpeg -version], the
    last argument for a crop. *)
Definition subprocess_run (cmd : list string) (check : bool)
    (output_file : option string) : M Z :=
  fun st =>
    let r := proc env (n_proc st) in
    let st1 := tick_proc st in
    let st2 :=
      match output_file, proc_output r with
      | Some p, Some b => set_fs (insert p b) st1
      | _, _ => st1
      end in
    match proc_result r with
    | Ret code =>
        if check && negb (code =? 0) then (Raise CalledProcessError, st2)
        else (Ret code, st2)
    | Raise e => (Raise e, st2)
    end.

(** [os.path.exists(p)] *)
Definition os_path_exists (p : string) : M bool :=
  fun st => (Ret (match fs st !! p with Some _ => true | None => false end), st).

(** [os.remove(p)] *)
Definition os_remove (p : string) : M unit :=
  fun st =>
    match fs st !! p with
    | Some _ => (Ret tt, set_fs (delete p) st)
    | None => (Raise FileNotFoundError, st)
    end.

(** [shutil.move(src, dst)] between two files of one directory: a rename. *)
Definition shutil_move (src dst : string) : M unit :=
  fun st =>
    match fs st !! src with
    | Some b => (Ret tt, set_fs (fun f => <[dst := b]> (delete src f)) st)
    | None => (Raise FileNotFoundError, st)
    end.

(** [open(p, 'wb')]: the file is created, or emptied when it exists. *)
Definition open_wb (p : string) : M unit := modify (set_fs (insert p [])).

(** [f.write(chunk)] on the file opened at [p]. *)
Definition file_write (p : string) (chunk : list Byte.byte) : M unit :=
  modify (set_fs (fun f => <[p := (default [] (f !! p) ++ chunk)%list]> f)).

(** [overall_progress.update(n)] *)
Definition progress_update (n : Z) : M unit :=
  modify (set_overall (fun k => k + n)).

(** *** [check_ffmpeg] *)

Definition check_ffmpeg : M bool :=
  fun st =>
    match subprocess_run ["ffmpeg"; "-version"] true None st with
    | (Ret _, st') => (Ret true, st')
    | (Raise CalledProcessError, st') => (Ret false, st')
    | (Raise FileNotFoundError, st') => (Ret false, st')
    | (Raise e, st') => (Raise e, st')
    end.

(** *** [crop_video_to_9_16]

    [progress_bar] only receives descriptions, which the model leaves
    out, so the parameter is dropped. *)

Definition temp_cropped (input_path : string) : string :=
  PyStr.replace ".mp4" "_temp_cropped.mp4" input_path.

Definition remove_if_exists (p : string) : M unit :=
  e <- os_path_exists p ;;
  if e then os_remove p else ret tt.

Definition crop_video_to_9_16 (input_path : string) : M bool :=
  available <- check_ffmpeg ;;
  if negb available then ret false
  else
    try_except
      (let temp_output := temp_cropped input_path in
       let cmd := ["ffmpeg"; "-i"; input_path; "-vf"; "crop=ih*9/16:ih";
                   "-c:a"; "copy"; "-y"; temp_output] in
       returncode <- subprocess_run cmd false (Some temp_output) ;;
       if returncode =? 0 then
         (shutil_move temp_output input_path ;;;
          ret true)
       else
         (remove_if_exists temp_output ;;;
          ret false))
      (fun _ =>
         let temp_output := temp_cropped input_path in
         remove_if_exists temp_output ;;;
         ret false).

(** *** [crop_all_generated_videos] *)

Fixpoint crop_each (videos : list string) (counts : Z * Z) : M (Z * Z) :=
  match videos with
  | [] => ret counts
  | video_path :: rest =>
      let '(cropped_successfully, crop_failed) := counts in
      ok <- crop_video_to_9_16 video_path ;;
      crop_each rest
        (if ok then (cropped_successfully + 1, crop_failed)
         else (cropped_successfully, crop_failed + 1))
  end.

Definition crop_all_generated_videos (successful_videos : list string) : M (Z * Z) :=
  match successful_videos with
  | [] => ret (0, 0)
  | _ =>
      available <- check_ffmpeg ;;
      if negb available then ret (0, Z.of_nat (length successful_videos))
      else crop_each successful_videos (0, 0)
  end.

(** *** [encode_jwt_token] *)

Definition encode_jwt_token (ak sk : string) : M jwt_token :=
  exp_now <- time_time ;;
  nbf_now <- time_time ;;
  ret {| jwt_alg := "HS256"; jwt_typ := "JWT"; jwt_iss := ak;
         jwt_exp := exp_now + 1800; jwt_nbf := nbf_now - 5; jwt_key := sk |}.

(** *** [upload_image_to_temporary_hosting]

    Opening the image and posting it stand in one [try]; an error of either
    is a raising reply of the environment. *)

Definition upload_image_to_temporary_hosting (image_path : string) : M (option string) :=
  try_except
    (response <- http_request (ReqUpload image_path) ;;
     if status_code response =? 200 then
       data <- eval (body_json response) ;;
       status <- eval (Py.get data "status" JNull) ;;
       if Py.eq_str status "success" then
         d <- eval (Py.getitem data "data") ;;
         u <- eval (Py.getitem d "url") ;;
         url <- eval (Py.str_replace u "tmpfiles.org/" "tmpfiles.org/dl/") ;;
         ret (Some url)
       else ret None
     else ret None)
    (fun _ => ret None).

(** *** [find_all_input_images] *)

Definition is_image (file : dir_entry) : bool :=
  entry_is_file file &&
  existsb (String.eqb (PyStr.lower (Path.suffix (entry_name file)))) image_extensions.

Definition image_tuple (file : dir_entry) : string * bool * string :=
  (Path.join (BASE_IMAGE_DIR env) (entry_name file),
   PyStr.contains "crying" (PyStr.lower (entry_name file)),
   Path.stem (entry_name file)).

Definition find_all_input_images : M (list (string * bool * string)) :=
  match base_dir env with
  | None => raise FileNotFoundError
  | Some entries =>
      let images := map image_tuple (List.filter is_image entries) in
      match images with
      | [] => raise FileNotFoundError
      | _ => ret images
      end
  end.

(** *** [wait_for_video_completion]

    The index of the attempt only feeds the sub-progress bar, so the loop
    counts the attempts that remain. *)

(** The body of the [try] of one polling attempt.  [Some v] stands for
    [return v]; [None] for reaching the end of the body, after the sleep. *)
Definition poll_try (task_id : json) (api_token : jwt_token) (delay : Z)
    : M (option json) :=
  response <- http_request (ReqPoll task_id api_token) ;;
  returned <-
    (if status_code response =? 200 then
       data <- eval (body_json response) ;;
       code <- eval (Py.get data "code" JNull) ;;
       if Py.eq_int code 0 then
         task_data <- eval (Py.get data "data" (JObj [])) ;;
         task_status <- eval (Py.get task_data "task_status" JNull) ;;
         if Py.eq_str task_status "succeed" then
           task_result <- eval (Py.get task_data "task_result" (JObj [])) ;;
           videos <- eval (Py.get task_result "videos" (JArr [])) ;;
           if Py.truthy videos then
             first <- eval (Py.getitem0 videos) ;;
             video_url <- eval (Py.get first "url" JNull) ;;
             ret (Some video_url)
           else ret None
         else if Py.eq_str task_status "failed" then ret (Some JNull)
         else ret None
       else ret None
     else ret None) ;;
  match returned with
  | Some v => ret (Some v)
  | None => time_sleep delay ;;; ret None
  end.

Definition poll_attempt (task_id : json) (api_token : jwt_token) (delay : Z)
    : M (option json) :=
  try_except
    (poll_try task_id api_token delay)
    (fun _ => time_sleep delay ;;; ret None).

(** [for attempt in range(attempts): ...], then [return None]. *)
Fixpoint poll_loop (task_id : json) (api_token : jwt_token) (delay : Z)
    (attempts : nat) : M json :=
  match attempts with
  | O => ret JNull
  | S n =>
      returned <- poll_attempt task_id api_token delay ;;
      match returned with
      | Some v => ret v
      | None => poll_loop task_id api_token delay n
      end
  end.

Definition wait_for_video_completion (task_id : json) (api_token : jwt_token)
    (max_attempts : nat) (delay : Z) : M json :=
  poll_loop task_id api_token delay max_attempts.

(** *** [send_to_kling] *)

Definition send_to_kling (prompt image_url : string) : M json :=
  try_except
    (authorization <- encode_jwt_token (KLING_ACCESS_KEY env) (KLING_SECRET_KEY env) ;;
     let payload :=
       {| model_name := "kling-v2-1"; mode := "std"; duration := default_duration;
          image := image_url; prompt := prompt;
          cfg_scale := QArith_base.Qmake 1 2 |} in
     response <- http_request (ReqSubmit authorization payload) ;;
     if status_code response =? 200 then
       data <- eval (body_json response) ;;
       code <- eval (Py.get data "code" JNull) ;;
       if Py.eq_int code 0 then
         task_data <- eval (Py.get data "data" (JObj [])) ;;
         task_id <- eval (Py.get task_data "task_id" JNull) ;;
         if Py.truthy task_id then
           wait_for_video_completion task_id authorization
             default_max_attempts default_delay
         else ret JNull
       else ret JNull
     else ret JNull)
    (fun _ => ret JNull).

(** *** [download_kling_video] *)

(** [for chunk in r.iter_content(...): f.write(chunk)] *)
Fixpoint write_chunks (save_path : string) (chunks : list (list Byte.byte)) : M unit :=
  match chunks with
  | [] => ret tt
  | chunk :: rest => file_write save_path chunk ;;; write_chunks save_path rest
  end.

(** [progress_bar] is [true] when the overall progress bar is passed (it is
    truthy: its total is positive) and [false] when the argument is left to
    its default [None].  The message of the exception carries the status
    code in the source; nothing reads it. *)
Definition download_kling_video (url : json) (save_path : string)
    (progress_bar : bool) : M (option string) :=
  try_except
    (r <- http_request (ReqDownload url) ;;
     if status_code r =? 200 then
       total_size <- eval (content_length r) ;;
       open_wb save_path ;;;
       write_chunks save_path (body_chunks r) ;;;
       match stream_error r with Some e => raise e | None => ret tt end ;;;
       (if progress_bar then progress_update 1 else ret tt) ;;;
       ret (Some save_path)
     else raise (Exception "Failed to download"))
    (fun _ => ret None).

(** *** [process_single_image] *)

(** The prompts an image gets. *)
Definition prompts_to_use (is_crying_image : bool) : list (string * string) :=
  if is_crying_image then
    match List.find (fun kv => String.eqb (fst kv) "crying") PROMPTS with
    | Some kv => [("crying", snd kv)]
    | None => []
    end
  else List.filter (fun kv => negb (String.eqb (fst kv) "crying")) PROMPTS.

(** One round of the loop over the prompts, on the counters
    [(successful, failed, successful_video_paths)].  No statement that
    follows an update of the counters can raise, so the handler sees them
    as they were when the round began. *)
Definition variant_step (image_basename image_url : string)
    (variant : string * string) (counts : Z * Z * list string)
    : M (Z * Z * list string) :=
  let '(emotion, prompt) := variant in
  let '(successful, failed, successful_video_paths) := counts in
  try_except
    (video_url <- send_to_kling prompt image_url ;;
     progress_update 1 ;;;
     if Py.truthy video_url then
       let output_path :=
         Path.join (OUTPUT_VIDEOS_DIR env)
           (image_basename +:+ "-" +:+ emotion +:+ ".mp4") in
       downloaded <- download_kling_video video_url output_path true ;;
       if match downloaded with Some saved => PyStr.truthy saved | None => false end
       then ret (successful + 1, failed, (successful_video_paths ++ [output_path])%list)
       else ret (successful, failed + 1, successful_video_paths)
     else
       (progress_update 1 ;;;
        ret (successful, failed + 1, successful_video_paths)))
    (fun _ =>
       progress_update 2 ;;;
       ret (successful, failed + 1, successful_video_paths)).

Fixpoint variants_loop (image_basename image_url : string)
    (variants : list (string * string)) (counts : Z * Z * list string)
    : M (Z * Z * list string) :=
  match variants with
  | [] => ret counts
  | variant :: rest =>
      counts' <- variant_step image_basename image_url variant counts ;;
      variants_loop image_basename image_url rest counts'
  end.

Definition process_single_image (image_path : string) (is_crying_image : bool)
    (image_basename : string) : M (Z * Z * list string) :=
  uploaded <- upload_image_to_temporary_hosting image_path ;;
  match uploaded with
  | Some image_url =>
      if PyStr.truthy image_url then
        progress_update 1 ;;;
        variants_loop image_basename image_url
          (prompts_to_use is_crying_image) (0, 0, [])
      else raise (Exception ("Failed to upload image: " +:+ image_basename))
  | None => raise (Exception ("Failed to upload image: " +:+ image_basename))
  end.

(** *** [generate_all_videos] *)

Definition videos_per_image (is_crying : bool) : Z := if is_crying then 1 else 4.

(** The steps the progress bar is created with. *)
Definition count_steps (all_images : list (string * bool * string)) : Z :=
  fold_left
    (fun total img => total + (1 + videos_per_image (snd (fst img)) * 2))
    all_images 0.

(** One round of the loop over the images, on the totals
    [(total_successful, total_failed, all_successful_video_paths)]. *)
Definition image_step (img : string * bool * string) (totals : Z * Z * list string)
    : M (Z * Z * list string) :=
  let '(image_path, is_crying_image, image_basename) := img in
  let '(successful_so_far, failed_so_far, paths_so_far) := totals in
  try_except
    (result <- process_single_image image_path is_crying_image image_basename ;;
     let '(successful, failed, video_paths) := result in
     ret (successful_so_far + successful, failed_so_far + failed,
          (paths_so_far ++ video_paths)%list))
    (fun _ =>
       let steps_to_skip := 1 + videos_per_image is_crying_image * 2 in
       progress_update steps_to_skip ;;;
       ret (successful_so_far, failed_so_far + videos_per_image is_crying_image,
            paths_so_far)).

Fixpoint images_loop (images : list (string * bool * string))
    (totals : Z * Z * list string) : M (Z * Z * list string) :=
  match images with
  | [] => ret totals
  | img :: rest =>
      totals' <- image_step img totals ;;
      images_loop rest totals'
  end.

(** The function prints its summary and returns nothing; the model returns
    what is printed, and [None] when the outer handler reports an error. *)
Definition generate_all_videos : M (option summary) :=
  try_except
    (all_images <- find_all_input_images ;;
     let steps := count_steps all_images in
     modify (set_overall (fun _ => 0)) ;;;
     totals <- images_loop all_images (0, 0, []) ;;
     let '(successful, failed, paths) := totals in
     let report c :=
       {| total_video_steps := steps; total_successful := successful;
          total_failed := failed; all_successful_video_paths := paths;
          cropping := c |} in
     match paths with
     | [] => ret (Some (report None))
     | _ =>
         available <- check_ffmpeg ;;
         if available then
           counts <- crop_all_generated_videos paths ;;
           ret (Some (report (Some counts)))
         else
           (check_ffmpeg ;;;
            ret (Some (report None)))
     end)
    (fun _ => ret None).

End Script.

(** ** Notions the specification uses *)

(** [t] is [s] with [new] put in the place of one occurrence of [old]. *)
Definition substituted_once (old new s t : string) : Prop :=
  exists pre post, s = pre +:+ old +:+ post /\ t = pre +:+ new +:+ post.

(** A file name contains [sub] case-insensitively: some stretch of it spells
    [sub] once capitals are lowered. *)
Definition contains_ignoring_case (sub name : string) : Prop :=
  exists pre mid post,
    name = pre +:+ mid +:+ post /\ PyStr.lower mid = sub.

(** What one reply to a poll means to the polling loop. *)
Inductive poll_verdict : Type :=
| Succeeded (video_url : json)
| Failed
| Pending.

(** The [data] object of a reply the service answered in its envelope:
    status 200 and a JSON object whose [code] is 0. *)
Definition task_data_of (r : http_reply) : option json :=
  match r with
  | HttpResp resp =>
      if status_code resp =? 200 then
        match body_json resp with
        | Ret (JObj d) =>
            if Py.eq_int (Py.dict_get d "code" JNull) 0
            then Some (Py.dict_get d "data" (JObj []))
            else None
        | _ => None
        end
      else None
  | HttpRaise _ => None
  end.

(** The status field a reply is parsed for. *)
Definition task_status_of (r : http_reply) : option json :=
  match task_data_of r with
  | Some (JObj td) => Some (Py.dict_get td "task_status" JNull)
  | _ => None
  end.

(** The meaning of a reply: "succeed" with a list of videos whose first
    entry is an object ends the polling with that entry's [url]; "failed"
    ends it without a result; every other reply, and every error, leaves the
    task pending. *)
Definition verdict (r : http_reply) : poll_verdict :=
  match task_data_of r with
  | Some (JObj td) =>
      let status := Py.dict_get td "task_status" JNull in
      if Py.eq_str status "succeed" then
        match Py.dict_get td "task_result" (JObj []) with
        | JObj tr =>
            match Py.dict_get tr "videos" (JArr []) with
            | JArr (JObj v :: _) => Succeeded (Py.dict_get v "url" JNull)
            | _ => Pending
            end
        | _ => Pending
        end
      else if Py.eq_str status "failed" then Failed
      else Pending
  | _ => Pending
  end.

(** The state after [polls] polls of a task and [sleeps] sleeps of [delay]
    seconds: only the requests sent and the time slept have changed. *)
Definition after_polls (task_id : json) (api_token : jwt_token) (delay : Z)
    (polls sleeps : nat) (st : State) : State :=
  {| fs := fs st; overall := overall st;
     requests := requests st ++ repeat (ReqPoll task_id api_token) polls;
     n_proc := n_proc st; n_clock := n_clock st;
     slept := slept st ++ repeat delay sleeps |}.

(** The number of downloads among the requests sent. *)
Fixpoint downloads_sent (rs : list request) : Z :=
  match rs with
  | [] => 0
  | ReqDownload _ :: rs' => 1 + downloads_sent rs'
  | _ :: rs' => downloads_sent rs'
  end.

(** A computation that leaves the progress bar and the requests alone. *)
Definition quiet {A} (m : M A) : Prop :=
  forall st, overall (snd (m st)) = overall st /\ requests (snd (m st)) = requests st.


(** ** Further notions, for the properties of the single functions *)

(** A computation that can only change the files at [paths]. *)
Definition touches_only {A} (paths : list string) (m : M A) : Prop :=
  forall st p, ~ In p paths -> fs (snd (m st)) !! p = fs st !! p.

(** An error of a sub-process that [check_ffmpeg] does not handle. *)
Definition unhandled (env : Env) (e : exn) : Prop :=
  e <> FileNotFoundError /\ e <> CalledProcessError /\
  exists k, proc_result (proc env k) = Raise e.

(** The path the video of a variant is saved at. *)
Definition output_path (env : Env) (image_basename emotion : string) : string :=
  Path.join (OUTPUT_VIDEOS_DIR env) (image_basename +:+ "-" +:+ emotion +:+ ".mp4").

(** The payload of the submission for a prompt and an image URL. *)
Definition kling_payload (prompt image_url : string) : submit_payload :=
  {| model_name := "kling-v2-1"; mode := "std"; duration := "5";
     image := image_url; prompt := prompt;
     cfg_scale := QArith_base.Qmake 1 2 |}.

(** The payloads of the submissions among the requests, oldest first. *)
Fixpoint submissions (rs : list request) : list submit_payload :=
  match rs with
  | [] => []
  | ReqSubmit _ payload :: rs' => payload :: submissions rs'
  | _ :: rs' => submissions rs'
  end.

(** The task id of a reply that accepts a submission: status 200, a JSON
    object with [code] 0, a [data] object and a truthy [task_id] in it. *)
Definition accepted_task_id (r : http_reply) : option json :=
  match r with
  | HttpResp resp =>
      if status_code resp =? 200 then
        match body_json resp with
        | Ret (JObj d) =>
            if Py.eq_int (Py.dict_get d "code" JNull) 0 then
              match Py.dict_get d "data" (JObj []) with
              | JObj td =>
                  if Py.truthy (Py.dict_get td "task_id" JNull)
                  then Some (Py.dict_get td "task_id" JNull)
                  else None
              | _ => None
              end
            else None
        | _ => None
        end
      else None
  | HttpRaise _ => None
  end.

(** The token issued when the clock is read at the [k]-th and the next
    reading. *)
Definition token_at (env : Env) (k : nat) : jwt_token :=
  {| jwt_alg := "HS256"; jwt_typ := "JWT"; jwt_iss := KLING_ACCESS_KEY env;
     jwt_exp := clock env k + 1800; jwt_nbf := clock env (S k) - 5;
     jwt_key := KLING_SECRET_KEY env |}.

(** The tasks of a list of images: one per selected prompt. *)
Definition count_tasks (images : list (string * bool * string)) : Z :=
  fold_right (fun img total => videos_per_image (snd (fst img)) + total) 0 images.

(** ** Scenarios: scripted environments the properties are tried on *)

Module Scenario.

(** A reply whose body parses as [j]. *)
Definition json_reply (code : Z) (j : json) : http_reply :=
  HttpResp {| status_code := code; body_json := Ret j; content_length := Ret 0;
              body_chunks := []; stream_error := None |}.

(** The upload host accepted the file and answers with its landing URL. *)
Definition upload_ok (u : string) : http_reply :=
  json_reply 200 (JObj [("status", JStr "success"); ("data", JObj [("url", JStr u)])]).

(** The generation service accepted a task. *)
Definition submit_ok (task_id : string) : http_reply :=
  json_reply 200 (JObj [("code", JNum 0); ("data", JObj [("task_id", JStr task_id)])]).

(** A poll answer with a bare status. *)
Definition poll_status (s : string) : http_reply :=
  json_reply 200 (JObj [("code", JNum 0); ("data", JObj [("task_status", JStr s)])]).

(** A poll answer with status "succeed" and the given list of videos. *)
Definition poll_succeed (videos : list json) : http_reply :=
  json_reply 200
    (JObj [("code", JNum 0);
           ("data", JObj [("task_status", JStr "succeed");
                          ("task_result", JObj [("videos", JArr videos)])])]).

Definition poll_done (u : string) : http_reply :=
  poll_succeed [JObj [("url", JStr u)]].

(** The reply to a download: a status and three bytes in two chunks. *)
Definition video_reply (code : Z) : http_reply :=
  HttpResp {| status_code := code; body_json := Raise ValueError;
              content_length := Ret 3;
              body_chunks := [[Byte.x01; Byte.x02]; [Byte.x03]];
              stream_error := None |}.

Definition connection_error : http_reply :=
  HttpRaise (OtherException "ConnectionError").

(** The replies of [l] in order, then connection errors. *)
Definition script (l : list http_reply) (k : nat) : http_reply :=
  nth k l connection_error.

Definition no_ffmpeg : proc_reply :=
  {| proc_output := None; proc_result := Raise FileNotFoundError |}.

Definition proc_exit (code : Z) (out : option (list Byte.byte)) : proc_reply :=
  {| proc_output := out; proc_result := Ret code |}.

Definition proc_script (l : list proc_reply) (k : nat) : proc_reply :=
  nth k l no_ffmpeg.

Definition file (name : string) : dir_entry :=
  {| entry_name := name; entry_is_file := true |}.

(** An environment with the given replies, sub-process outcomes and
    directory; the clock starts at 1000 and gains a second per reading. *)
Definition world (replies : nat -> http_reply) (procs : nat -> proc_reply)
    (entries : list dir_entry) : Env :=
  {| http := replies; proc := procs;
     clock := fun k => 1000 + Z.of_nat k;
     base_dir := Some entries;
     BASE_IMAGE_DIR := "/srv/base-image";
     OUTPUT_VIDEOS_DIR := "/srv/output-videos";
     KLING_ACCESS_KEY := "ak"; KLING_SECRET_KEY := "sk" |}.

(** The state a run starts in, with the given files. *)
Definition start (files : gmap string (list Byte.byte)) : State :=
  {| fs := files; overall := 0; requests := []; n_proc := 0; n_clock := 0;
     slept := [] |}.

(** The replies to a task that goes well: accepted, finished at the first
    poll, downloaded. *)
Definition task_ok : list http_reply :=
  [submit_ok "t"; poll_done "https://v/video.mp4"; video_reply 200].

(** The replies to an image whose upload and [tasks] tasks go well. *)
Definition image_ok (tasks : nat) : list http_reply :=
  upload_ok "https://tmpfiles.org/1/image.png" :: concat (repeat task_ok tasks).

(** A landing URL in which the host name comes twice. *)
Definition url_twice : string := "https://tmpfiles.org/9/tmpfiles.org/a.png".

End Scenario.

(** * Properties *)

(** ** The string and path helpers on examples *)

Example lower_ex : PyStr.lower "My-CRYing_1.PNG" = "my-crying_1.png".
Proof. reflexivity. Qed.

Example replace_ex1 :
  PyStr.replace "tmpfiles.org/" "tmpfiles.org/dl/" "https://tmpfiles.org/123/a.png"
  = "https://tmpfiles.org/dl/123/a.png".
Proof. reflexivity. Qed.

Example replace_ex2 : PyStr.replace "aa" "b" "aaaaa" = "bba".
Proof. reflexivity. Qed.

Example replace_ex3 : PyStr.replace "" "-" "abc" = "-a-b-c-".
Proof. reflexivity. Qed.

Example replace_ex4 :
  PyStr.replace ".mp4" "_temp_cropped.mp4" "out/a-sad.mp4" = "out/a-sad_temp_cropped.mp4".
Proof. reflexivity. Qed.

Example rfind_ex : PyStr.rfind_dot "a.b.png" = Some 3%nat.
Proof. reflexivity. Qed.

Example suffix_ex : Path.suffix "a.b.PNG" = ".PNG" /\ Path.stem "a.b.PNG" = "a.b".
Proof. split; reflexivity. Qed.

Example suffix_hidden : Path.suffix ".png" = "" /\ Path.stem ".png" = ".png".
Proof. split; reflexivity. Qed.

Example join_ex : Path.join "/srv/output-videos" "a-sad.mp4" = "/srv/output-videos/a-sad.mp4".
Proof. reflexivity. Qed.

(** ** Facts about [startswith], [contains] and [replace] *)

Section StringFacts.

Import PyStr.

Lemma strip_prefix_app (p r : string) : strip_prefix p (p +:+ r) = Some r.
Proof.
  induction p as [|a p IH]; simpl; [reflexivity|].
  rewrite Ascii.eqb_refl. exact IH.
Qed.

Lemma strip_prefix_Some (p s r : string) :
  strip_prefix p s = Some r -> s = p +:+ r.
Proof.
  revert s. induction p as [|a p IH]; intros s H; simpl in *.
  - injection H as ->. reflexivity.
  - destruct s as [|b s]; [discriminate|].
    destruct (Ascii.eqb a b) eqn:E; [|discriminate].
    apply Ascii.eqb_eq in E. subst b. f_equal. apply IH, H.
Qed.

Lemma startswith_true (p s : string) :
  startswith p s = true <-> exists r, s = p +:+ r.
Proof.
  unfold startswith. split.
  - destruct (strip_prefix p s) as [r|] eqn:E; [|discriminate].
    intros _. exists r. apply strip_prefix_Some, E.
  - intros [r ->]. rewrite strip_prefix_app. reflexivity.
Qed.

Lemma app_assoc_str (a b c : string) : (a +:+ b) +:+ c = a +:+ (b +:+ c).
Proof. induction a as [|x a IH]; simpl; [reflexivity | f_equal; exact IH]. Qed.

Lemma length_app_str (a b : string) :
  String.length (a +:+ b) = (String.length a + String.length b)%nat.
Proof. induction a as [|x a IH]; simpl; [reflexivity | f_equal; exact IH]. Qed.

Lemma lower_app (a b : string) : lower (a +:+ b) = lower a +:+ lower b.
Proof. induction a as [|x a IH]; simpl; [reflexivity | f_equal; exact IH]. Qed.

Lemma lower_length (a : string) : String.length (lower a) = String.length a.
Proof. induction a as [|x a IH]; simpl; [reflexivity | f_equal; exact IH]. Qed.

Lemma startswith_contains (sub s : string) :
  startswith sub s = true -> contains sub s = true.
Proof. intros H. destruct s; simpl; rewrite H; reflexivity. Qed.

(** [sub in s] holds exactly when [s] splits around a copy of [sub]. *)
Lemma contains_true (sub s : string) :
  contains sub s = true <-> exists pre post, s = pre +:+ sub +:+ post.
Proof.
  split.
  - induction s as [|c s IH]; simpl; intros H.
    + rewrite orb_false_r in H. apply startswith_true in H as [r Hr].
      exists EmptyString, r. exact Hr.
    + apply orb_true_iff in H as [H|H].
      * apply startswith_true in H as [r Hr]. exists EmptyString, r. exact Hr.
      * destruct (IH H) as (pre & post & ->). exists (String c pre), post. reflexivity.
  - intros (pre & post & ->). induction pre as [|c pre IH]; simpl.
    + apply startswith_contains, startswith_true. eauto.
    + rewrite IH. apply orb_true_r.
Qed.

Lemma occurrences_zero (sub s : string) :
  occurrences sub s = 0%nat <-> contains sub s = false.
Proof.
  induction s as [|c s IH]; simpl.
  - destruct (startswith sub ""); simpl; split; (discriminate || reflexivity).
  - destruct (startswith sub (String c s)); simpl.
    + split; discriminate.
    + exact IH.
Qed.

Lemma occurrences_app_r (sub a b : string) :
  (occurrences sub b <= occurrences sub (a +:+ b))%nat.
Proof.
  induction a as [|c a IH]; simpl; [lia|].
  destruct (startswith sub (String c (a +:+ b))); lia.
Qed.

Lemma replace_from_cons (old new : string) (c : ascii) (s : string) :
  replace_from old new 0 (String c s) =
  if startswith old (String c s)
  then new +:+ replace_from old new (String.length old - 1) s
  else String c (replace_from old new 0 s).
Proof. reflexivity. Qed.

Lemma replace_from_skip (old new a b : string) :
  replace_from old new (String.length a) (a +:+ b) = replace_from old new 0 b.
Proof.
  induction a as [|c a IH]; simpl.
  - destruct b; reflexivity.
  - exact IH.
Qed.

(** At an occurrence the scan emits [new] and resumes behind it. *)
Lemma replace_from_hit (old new post : string) :
  old <> EmptyString ->
  replace_from old new 0 (old +:+ post) = new +:+ replace_from old new 0 post.
Proof.
  intros Hne.
  assert (Hs : startswith old (old +:+ post) = true)
    by (apply startswith_true; eauto).
  destruct old as [|a old']; [congruence|].
  simpl append in *. rewrite replace_from_cons, Hs.
  f_equal. simpl String.length. replace (S (String.length old') - 1)%nat with (String.length old') by lia.
  apply replace_from_skip.
Qed.

Lemma replace_from_absent (old new s : string) :
  contains old s = false -> replace_from old new 0 s = s.
Proof.
  induction s as [|c s IH]; [reflexivity|].
  intros H. simpl in H. apply orb_false_iff in H as [H1 H2].
  rewrite replace_from_cons, H1. f_equal. apply IH, H2.
Qed.

(** One occurrence: exactly that occurrence is replaced. *)
Lemma replace_from_once (old new s : string) :
  old <> EmptyString ->
  occurrences old s = 1%nat ->
  exists pre post,
    s = pre +:+ old +:+ post /\
    replace_from old new 0 s = pre +:+ new +:+ post.
Proof.
  intros Hne. induction s as [|c s IH]; intros Hocc.
  - simpl in Hocc. destruct old; [congruence | discriminate].
  - simpl in Hocc. destruct (startswith old (String c s)) eqn:Hs.
    + apply startswith_true in Hs as [post Hpost].
      exists EmptyString, post. split; [exact Hpost|].
      rewrite Hpost, replace_from_hit by exact Hne. simpl. f_equal.
      apply replace_from_absent, occurrences_zero.
      assert (Hle : (occurrences old post <= occurrences old s)%nat).
      { destruct old as [|a old']; [congruence|].
        simpl in Hpost. injection Hpost as _ ->. apply occurrences_app_r. }
      lia.
    + simpl in Hocc. destruct (IH Hocc) as (pre & post & Hsplit & Hrep).
      exists (String c pre), post. split.
      * simpl. f_equal. exact Hsplit.
      * rewrite replace_from_cons, Hs. simpl. f_equal. exact Hrep.
Qed.

(** Replacing by a longer string never shortens, and lengthens as soon
    as there is an occurrence. *)
Lemma replace_from_length (old new : string) (n : nat) (s : string) :
  (String.length s <= n)%nat ->
  old <> EmptyString ->
  (String.length old < String.length new)%nat ->
  (String.length s <= String.length (replace_from old new 0 s))%nat /\
  (contains old s = true ->
   (String.length s < String.length (replace_from old new 0 s))%nat).
Proof.
  revert s. induction n as [|n IH]; intros s Hn Hne Hlen.
  - destruct s; simpl in Hn; [|lia]. simpl. split; [lia|].
    rewrite orb_false_r. intros H. apply startswith_true in H as [r Hr].
    destruct old; [congruence | discriminate].
  - destruct s as [|c s]; [apply (IH EmptyString); simpl; auto; lia|].
    destruct (startswith old (String c s)) eqn:Hs.
    + pose proof Hs as Hs'. apply startswith_true in Hs' as [post Hpost].
      rewrite Hpost, replace_from_hit by exact Hne.
      rewrite !length_app_str.
      assert (Hp : (String.length post <= n)%nat).
      { apply (f_equal String.length) in Hpost. rewrite length_app_str in Hpost.
        simpl in Hpost, Hn. destruct old; [congruence|]. simpl in Hpost. lia. }
      destruct (IH post Hp Hne Hlen) as [Hle _]. split; [lia | intros _; lia].
    + rewrite replace_from_cons, Hs. simpl in Hn.
      destruct (IH s ltac:(lia) Hne Hlen) as [Hle Hlt]. simpl. split; [lia|].
      rewrite Hs. simpl. intros H. specialize (Hlt H). lia.
Qed.


Lemma replace_changes (old new s : string) :
  old <> EmptyString ->
  (String.length old < String.length new)%nat ->
  contains old s = true ->
  replace old new s <> s.
Proof.
  intros Hne Hlen Hc Heq.
  destruct (replace_from_length old new (String.length s) s (le_n _) Hne Hlen) as [_ Hlt].
  specialize (Hlt Hc).
  unfold replace in Heq. destruct old; [congruence|].
  rewrite Heq in Hlt. lia.
Qed.

End StringFacts.

(** ** The upload client *)

(** Unfolding the monad on a run. *)
Ltac unfold_monad :=
  unfold http_request, time_sleep, time_time, progress_update in *;
  unfold try_except, bind, ret, raise, eval, modify in *.

Lemma substituted_once_length (old new s t : string) :
  substituted_once old new s t ->
  (String.length t + String.length old = String.length s + String.length new)%nat.
Proof.
  intros (pre & post & -> & ->). rewrite !length_app_str. lia.
Qed.

(** C4, as stated, fails: when the landing URL holds "tmpfiles.org/" twice,
    both occurrences are rewritten, so the result is not the input with one
    substitution. *)
Lemma upload_url_twice_rewritten :
  PyStr.contains "tmpfiles.org/" Scenario.url_twice = true /\
  fst (upload_image_to_temporary_hosting
         (Scenario.world (Scenario.script [Scenario.upload_ok Scenario.url_twice])
            (Scenario.proc_script []) [])
         "/srv/base-image/a.png" (Scenario.start ∅))
  = Ret (Some "https://tmpfiles.org/dl/9/tmpfiles.org/dl/a.png") /\
  ~ substituted_once "tmpfiles.org/" "tmpfiles.org/dl/" Scenario.url_twice
      "https://tmpfiles.org/dl/9/tmpfiles.org/dl/a.png".
Proof.
  split; [reflexivity|]. split; [reflexivity|].
  intros H. apply substituted_once_length in H. vm_compute in H. lia.
Qed.

(** C4 (amended): when the upload host answers 200 with status "success" and
    a URL in which "tmpfiles.org/" occurs exactly once, the client returns
    that URL with "tmpfiles.org/dl/" substituted for the occurrence. *)
Theorem upload_url_substituted (env : Env) (image_path : string) (st : State)
    (r : response) (d dd : list (string * json)) (u : string) :
  http env (length (requests st)) = HttpResp r ->
  status_code r = 200 ->
  body_json r = Ret (JObj d) ->
  Py.assoc "status" d = Some (JStr "success") ->
  Py.assoc "data" d = Some (JObj dd) ->
  Py.assoc "url" dd = Some (JStr u) ->
  PyStr.occurrences "tmpfiles.org/" u = 1%nat ->
  exists url,
    upload_image_to_temporary_hosting env image_path st
    = (Ret (Some url), add_request (ReqUpload image_path) st) /\
    substituted_once "tmpfiles.org/" "tmpfiles.org/dl/" u url.
Proof.
  intros Hreply Hcode Hbody Hstatus Hdata Hurl Hocc.
  destruct (replace_from_once "tmpfiles.org/" "tmpfiles.org/dl/" u) as (pre & post & Hu & Hrep);
    [discriminate | exact Hocc |].
  exists (pre +:+ "tmpfiles.org/dl/" +:+ post). split.
  - unfold upload_image_to_temporary_hosting. unfold_monad.
    rewrite Hreply, Hcode, Hbody. simpl. unfold Py.dict_get. rewrite Hstatus. simpl.
    rewrite Hdata. simpl. rewrite Hurl. simpl. unfold PyStr.replace. rewrite Hrep. reflexivity.
  - exists pre, post. split; [exact Hu | reflexivity].
Qed.

Lemma upload_url_substituted_witness :
  exists url,
    upload_image_to_temporary_hosting
      (Scenario.world (Scenario.script [Scenario.upload_ok "https://tmpfiles.org/123/a.png"])
         (Scenario.proc_script []) [])
      "/srv/base-image/a.png" (Scenario.start ∅)
    = (Ret (Some url), add_request (ReqUpload "/srv/base-image/a.png") (Scenario.start ∅)) /\
    substituted_once "tmpfiles.org/" "tmpfiles.org/dl/" "https://tmpfiles.org/123/a.png" url.
Proof.
  eapply upload_url_substituted; reflexivity.
Defined.

(** ** Image discovery and the category of an image *)

Lemma lower_split (s a b : string) :
  PyStr.lower s = a +:+ b ->
  exists s1 s2, s = s1 +:+ s2 /\ PyStr.lower s1 = a /\ PyStr.lower s2 = b.
Proof.
  revert s. induction a as [|x a IH]; intros s H.
  - exists EmptyString, s. auto.
  - destruct s as [|c s]; [discriminate|].
    simpl in H. injection H as Hx Hrest.
    destruct (IH s Hrest) as (s1 & s2 & -> & H1 & H2).
    exists (String c s1), s2. simpl. rewrite Hx, H1. auto.
Qed.

(** The test the script runs, ["crying" in file.name.lower()], is the
    case-insensitive containment of the specification. *)
Lemma crying_test_correct (name : string) :
  PyStr.contains "crying" (PyStr.lower name) = true <->
  contains_ignoring_case "crying" name.
Proof.
  rewrite contains_true. split.
  - intros (pre & post & H).
    apply lower_split in H as (s1 & s23 & -> & H1 & H23).
    apply lower_split in H23 as (s2 & s3 & -> & H2 & H3).
    exists s1, s2, s3. auto.
  - intros (pre & mid & post & -> & Hmid).
    exists (PyStr.lower pre), (PyStr.lower post).
    rewrite !lower_app, Hmid. reflexivity.
Qed.

Lemma prompts_to_use_labels :
  map fst (prompts_to_use true) = ["crying"] /\
  map fst (prompts_to_use false) = ["surprised"; "sad"; "confused"; "romantic"].
Proof. split; reflexivity. Qed.

(** C6: every image that discovery returns comes from a file whose name
    alone decides its category: the image is a "crying" image exactly when
    the name contains "crying" case-insensitively.  A crying image gets 1
    prompt, and so 1 task; any other image gets the 5 - 1 = 4 other prompts. *)
Theorem category_from_filename (env : Env) (st st' : State)
    (images : list (string * bool * string))
    (image_path : string) (is_crying : bool) (image_basename : string) :
  find_all_input_images env st = (Ret images, st') ->
  In (image_path, is_crying, image_basename) images ->
  length PROMPTS = 5%nat /\
  length (prompts_to_use is_crying)
    = (if is_crying then 1 else length PROMPTS - 1)%nat /\
  exists name,
    image_path = Path.join (BASE_IMAGE_DIR env) name /\
    image_basename = Path.stem name /\
    is_crying = PyStr.contains "crying" (PyStr.lower name) /\
    (is_crying = true <-> contains_ignoring_case "crying" name).
Proof.
  intros Hfind Hin. split; [reflexivity|]. split; [destruct is_crying; reflexivity|].
  unfold find_all_input_images in Hfind.
  destruct (base_dir env) as [entries|]; [|discriminate].
  destruct (map (image_tuple env) (List.filter is_image entries)) as [|t ts] eqn:E;
    [discriminate|].
  unfold ret in Hfind. injection Hfind as <- _. rewrite <- E in Hin.
  apply in_map_iff in Hin as (file & Htuple & _).
  unfold image_tuple in Htuple. injection Htuple as <- <- <-.
  exists (entry_name file). repeat split; try reflexivity.
  - apply crying_test_correct.
  - apply crying_test_correct.
Qed.

Lemma category_from_filename_witness :
  length PROMPTS = 5%nat /\
  length (prompts_to_use true) = 1%nat /\
  exists name,
    "/srv/base-image/Anna-CRYing.PNG" = Path.join "/srv/base-image" name /\
    "Anna-CRYing" = Path.stem name /\
    true = PyStr.contains "crying" (PyStr.lower name) /\
    (true = true <-> contains_ignoring_case "crying" name).
Proof.
  exact (category_from_filename
           (Scenario.world (Scenario.script []) (Scenario.proc_script [])
              [Scenario.file "Anna-CRYing.PNG"; Scenario.file "bob.jpg";
               Scenario.file "notes.txt"])
           (Scenario.start ∅) (Scenario.start ∅)
           [("/srv/base-image/Anna-CRYing.PNG", true, "Anna-CRYing");
            ("/srv/base-image/bob.jpg", false, "bob")]
           "/srv/base-image/Anna-CRYing.PNG" true "Anna-CRYing"
           eq_refl (or_introl eq_refl)).
Defined.

(** ** The download client *)

(** C10: when the reply to a download does not have status 200, the client
    returns [None] and the only thing that changed is that the request was
    sent: no file was created or written, at the destination or elsewhere,
    and the progress bar did not move. *)
Theorem download_non_200 (env : Env) (url : json) (save_path : string)
    (progress_bar : bool) (st : State) (r : response) :
  http env (length (requests st)) = HttpResp r ->
  status_code r <> 200 ->
  download_kling_video env url save_path progress_bar st
  = (Ret None, add_request (ReqDownload url) st) /\
  fs (snd (download_kling_video env url save_path progress_bar st)) = fs st.
Proof.
  intros Hreply Hcode.
  assert (E : download_kling_video env url save_path progress_bar st
              = (Ret None, add_request (ReqDownload url) st)).
  { unfold download_kling_video. unfold_monad. rewrite Hreply.
    destruct (Z.eqb_spec (status_code r) 200) as [Heq|_]; [contradiction|].
    reflexivity. }
  rewrite E. split; reflexivity.
Qed.

Lemma download_non_200_witness :
  let env := Scenario.world (Scenario.script [Scenario.video_reply 404])
               (Scenario.proc_script []) [] in
  let st := Scenario.start {[ "/srv/output-videos/a-sad.mp4" := [Byte.x07] ]} in
  download_kling_video env (JStr "https://v/1.mp4") "/srv/output-videos/a-sad.mp4" true st
  = (Ret None, add_request (ReqDownload (JStr "https://v/1.mp4")) st) /\
  fs (snd (download_kling_video env (JStr "https://v/1.mp4")
             "/srv/output-videos/a-sad.mp4" true st)) = fs st.
Proof.
  intros env st.
  apply (download_non_200 env (JStr "https://v/1.mp4") "/srv/output-videos/a-sad.mp4"
           true st _ eq_refl).
  discriminate.
Defined.

(** A download that is answered with 200 does write the file. *)
Example download_200_writes :
  let env := Scenario.world (Scenario.script [Scenario.video_reply 200])
               (Scenario.proc_script []) [] in
  let run := download_kling_video env (JStr "https://v/1.mp4") "/out/a-sad.mp4" true
               (Scenario.start ∅) in
  fst run = Ret (Some "/out/a-sad.mp4") /\
  fs (snd run) !! "/out/a-sad.mp4" = Some [Byte.x01; Byte.x02; Byte.x03] /\
  overall (snd run) = 1.
Proof. vm_compute. auto. Qed.

(** ** The crop *)

Lemma check_ffmpeg_state (env : Env) (st : State) :
  snd (check_ffmpeg env st) = tick_proc st.
Proof.
  unfold check_ffmpeg, subprocess_run.
  destruct (proc_result (proc env (n_proc st))) as [code|e].
  - destruct (true && negb (code =? 0)); reflexivity.
  - destruct e; reflexivity.
Qed.

Lemma temp_cropped_differs (input_path : string) :
  PyStr.contains ".mp4" input_path = true ->
  temp_cropped input_path <> input_path.
Proof.
  intros H. apply replace_changes; [discriminate | simpl; lia | exact H].
Qed.

(** Removing the temporary file when it is there leaves it absent and
    touches nothing else. *)
Lemma remove_if_exists_spec (p : string) (st : State) :
  fst (remove_if_exists p st) = Ret tt /\
  fs (snd (remove_if_exists p st)) = delete p (fs st).
Proof.
  unfold remove_if_exists, os_path_exists, os_remove, bind, ret.
  destruct (fs st !! p) eqn:E; simpl; rewrite ?E; simpl; split; try reflexivity.
  symmetry. apply delete_id, E.
Qed.

Lemma bind_run {A B} (m : M A) (k : A -> M B) (st st1 : State) (r : res A) :
  m st = (r, st1) ->
  bind m k st = match r with Ret a => k a st1 | Raise e => (Raise e, st1) end.
Proof. intros H. unfold bind. rewrite H. reflexivity. Qed.

Lemma cleanup_returns (p : string) (st : State) :
  exists st', (remove_if_exists p ;;; ret false)%py st = (Ret false, st').
Proof.
  unfold bind. destruct (remove_if_exists_spec p st) as [Hr _].
  destruct (remove_if_exists p st) as [r s']. simpl in Hr. subst r.
  eexists. reflexivity.
Qed.

(** The clean-up both failure paths share, run after the tool may have
    written [out] to the temporary path. *)
Lemma cleaned_up (temp_output input_path : string) (st1 : State)
    (files : gmap string (list Byte.byte)) (out : option (list Byte.byte))
    (R : res bool * State) :
  temp_output <> input_path ->
  fs st1 = files ->
  R = (remove_if_exists temp_output ;;; ret false)%py
        match out with
        | Some b => set_fs (insert temp_output b) st1
        | None => st1
        end ->
  fst R = Ret false /\
  fs (snd R) !! input_path = files !! input_path /\
  fs (snd R) !! temp_output = None /\
  (forall p, p <> temp_output -> fs (snd R) !! p = files !! p).
Proof.
  intros Hne Hfiles ->. unfold bind.
  match goal with |- context [remove_if_exists temp_output ?s] =>
    destruct (remove_if_exists_spec temp_output s) as [Hr Hfs];
    destruct (remove_if_exists temp_output s) as [r s'] end.
  simpl in Hr, Hfs. subst r. unfold ret. simpl. rewrite Hfs. subst files.
  destruct out; simpl;
    (repeat split;
     [ rewrite lookup_delete_ne by congruence;
       rewrite ?lookup_insert_ne by congruence; reflexivity
     | apply lookup_delete_eq
     | intros p Hp; rewrite lookup_delete_ne by congruence;
       rewrite ?lookup_insert_ne by congruence; reflexivity ]).
Qed.

(** Every path the script saves a video at contains ".mp4". *)
Lemma output_path_has_mp4 (dir image_basename emotion : string) :
  PyStr.contains ".mp4"
    (Path.join dir (image_basename +:+ "-" +:+ emotion +:+ ".mp4")) = true.
Proof.
  apply contains_true. unfold Path.join.
  destruct (PyStr.startswith "/" _).
  - exists (image_basename +:+ "-" +:+ emotion), EmptyString.
    rewrite !app_assoc_str. reflexivity.
  - destruct (Path.ends_with_slash dir || negb (PyStr.truthy dir)).
    + exists (dir +:+ image_basename +:+ "-" +:+ emotion), EmptyString.
      rewrite !app_assoc_str. reflexivity.
    + exists (dir +:+ "/" +:+ image_basename +:+ "-" +:+ emotion), EmptyString.
      rewrite !app_assoc_str. reflexivity.
Qed.

(** C1, as stated for every input path, fails: a path without ".mp4" is its
    own temporary path, so when the tool exits with a non-zero code the
    clean-up removes the original. *)
Lemma crop_removes_original_without_mp4 :
  let env := Scenario.world (Scenario.script [])
               (Scenario.proc_script [Scenario.proc_exit 0 None; Scenario.proc_exit 1 None])
               [] in
  let st := Scenario.start {[ "/srv/output-videos/clip.mov" := [Byte.x01; Byte.x02] ]} in
  let run := crop_video_to_9_16 env "/srv/output-videos/clip.mov" st in
  fs st !! "/srv/output-videos/clip.mov" = Some [Byte.x01; Byte.x02] /\
  fst run = Ret false /\
  fs (snd run) !! "/srv/output-videos/clip.mov" = None.
Proof. vm_compute. auto. Qed.

(** C1 (amended): for an input path that contains ".mp4" the temporary path
    differs from it, and a crop never leaves a half-replaced original.
    When FFmpeg is not available nothing changes.  Otherwise, when the tool
    wrote its output and exits with code 0, the original holds that output
    and the temporary file is gone; when the tool exits with another code,
    or running it raises, the temporary file is gone and the original is as
    it was.  No other file changes in either case. *)
Theorem crop_replaces_or_preserves (env : Env) (input_path : string) (st : State) :
  PyStr.contains ".mp4" input_path = true ->
  let temp_output := temp_cropped input_path in
  let tool := proc env (S (n_proc st)) in
  let run := crop_video_to_9_16 env input_path st in
  temp_output <> input_path /\
  (fst (check_ffmpeg env st) <> Ret true ->
     fst run <> Ret true /\ fs (snd run) = fs st) /\
  (fst (check_ffmpeg env st) = Ret true ->
     (forall cropped,
        proc_result tool = Ret 0 -> proc_output tool = Some cropped ->
        fst run = Ret true /\
        fs (snd run) !! input_path = Some cropped /\
        fs (snd run) !! temp_output = None /\
        (forall p, p <> input_path -> p <> temp_output ->
                   fs (snd run) !! p = fs st !! p)) /\
     (proc_result tool <> Ret 0 ->
        fst run = Ret false /\
        fs (snd run) !! input_path = fs st !! input_path /\
        fs (snd run) !! temp_output = None /\
        (forall p, p <> temp_output -> fs (snd run) !! p = fs st !! p))).
Proof.
  intros Hmp4 temp_output tool run.
  assert (Hne : temp_output <> input_path) by (apply temp_cropped_differs, Hmp4).
  split; [exact Hne|].
  pose proof (check_ffmpeg_state env st) as Hst.
  subst run. unfold crop_video_to_9_16.
  destruct (check_ffmpeg env st) as [checked st1] eqn:Hcheck.
  simpl in Hst. subst st1. rewrite (bind_run _ _ _ _ _ Hcheck). simpl fst.
  destruct checked as [[|]|e]; cbn [negb]; cbv iota.
  - (* the tool is available *)
    split; [intros H; congruence|]. intros _.
    fold temp_output.
    match goal with |- context [try_except ?b ?h (tick_proc st)] =>
      remember (try_except b h (tick_proc st)) as R eqn:HR end.
    unfold try_except, subprocess_run in HR.
    unfold bind at 1 in HR. cbv beta in HR.
    simpl n_proc in HR. fold tool in HR.
    destruct (proc_result tool) as [code|e] eqn:Hres; simpl andb in HR; cbv iota in HR.
    + destruct (Z.eqb_spec code 0) as [->|Hcode].
      * (* exit code 0 *)
        split; [|intros H; congruence].
        intros cropped _ Hout. rewrite Hout in HR.
        unfold bind, shutil_move, ret in HR. simpl in HR.
        rewrite lookup_insert_eq in HR. subst R. simpl.
        repeat split.
        -- apply lookup_insert_eq.
        -- rewrite lookup_insert_ne by congruence. apply lookup_delete_eq.
        -- intros p Hp1 Hp2.
           rewrite lookup_insert_ne by congruence.
           rewrite lookup_delete_ne by congruence.
           rewrite lookup_insert_ne by congruence. reflexivity.
      * (* another exit code *)
        split; [intros cropped H; congruence|]. intros _.
        match type of HR with context [(remove_if_exists temp_output ;;; ret false)%py ?X] =>
          destruct (cleanup_returns temp_output X) as [s' Hs'] end.
        rewrite Hs' in HR. rewrite <- Hs' in HR.
        apply (cleaned_up temp_output input_path (tick_proc (tick_proc st))
                 (fs st) (proc_output tool) R);
          [exact Hne | reflexivity | exact HR].
    + (* running the tool raised *)
      split; [intros cropped H; congruence|]. intros _.
      apply (cleaned_up temp_output input_path (tick_proc (tick_proc st))
               (fs st) (proc_output tool) R);
        [exact Hne | reflexivity | exact HR].
  - split; [|intros H; congruence]. intros _. unfold ret. simpl.
    split; [congruence | reflexivity].
  - split; [|intros H; congruence]. intros _. simpl. split; [congruence | reflexivity].
Qed.

Lemma crop_replaces_or_preserves_witness :
  let st := Scenario.start {[ "/out/a-sad.mp4" := [Byte.x01; Byte.x02] ]} in
  let succeeding :=
    Scenario.world (Scenario.script [])
      (Scenario.proc_script
         [Scenario.proc_exit 0 None; Scenario.proc_exit 0 (Some [Byte.x09])]) [] in
  let failing :=
    Scenario.world (Scenario.script [])
      (Scenario.proc_script
         [Scenario.proc_exit 0 None; Scenario.proc_exit 1 (Some [Byte.x05])]) [] in
  (fst (crop_video_to_9_16 succeeding "/out/a-sad.mp4" st) = Ret true /\
   fs (snd (crop_video_to_9_16 succeeding "/out/a-sad.mp4" st)) !! "/out/a-sad.mp4"
     = Some [Byte.x09] /\
   fs (snd (crop_video_to_9_16 succeeding "/out/a-sad.mp4" st))
     !! "/out/a-sad_temp_cropped.mp4" = None) /\
  (fst (crop_video_to_9_16 failing "/out/a-sad.mp4" st) = Ret false /\
   fs (snd (crop_video_to_9_16 failing "/out/a-sad.mp4" st)) !! "/out/a-sad.mp4"
     = fs st !! "/out/a-sad.mp4" /\
   fs (snd (crop_video_to_9_16 failing "/out/a-sad.mp4" st))
     !! "/out/a-sad_temp_cropped.mp4" = None).
Proof.
  intros st succeeding failing. split.
  - destruct (crop_replaces_or_preserves succeeding "/out/a-sad.mp4" st eq_refl)
      as (_ & _ & Havailable).
    destruct (Havailable eq_refl) as [Hzero _].
    destruct (Hzero [Byte.x09] eq_refl eq_refl) as (Hret & Horiginal & Htemp & _).
    exact (conj Hret (conj Horiginal Htemp)).
  - destruct (crop_replaces_or_preserves failing "/out/a-sad.mp4" st eq_refl)
      as (_ & _ & Havailable).
    destruct (Havailable eq_refl) as [_ Hnonzero].
    destruct (Hnonzero ltac:(discriminate)) as (Hret & Horiginal & Htemp & _).
    exact (conj Hret (conj Horiginal Htemp)).
Defined.

(** ** The polling loop *)

Lemma get_obj (kv : list (string * json)) (k : string) (d : json) :
  Py.get (JObj kv) k d = Ret (Py.dict_get kv k d).
Proof. reflexivity. Qed.

(** One attempt, case by case: what the body of the [try] does on each kind
    of reply. *)
Lemma poll_try_cases (env : Env) (task_id : json) (api_token : jwt_token)
    (delay : Z) (st : State) :
  let st1 := add_request (ReqPoll task_id api_token) st in
  let v := verdict (http env (length (requests st))) in
  match poll_try env task_id api_token delay st with
  | (Ret (Some url), st') =>
      st' = st1 /\ (v = Succeeded url \/ (v = Failed /\ url = JNull))
  | (Ret None, st') => st' = add_sleep delay st1 /\ v = Pending
  | (Raise _, st') => st' = st1 /\ v = Pending
  end.
Proof.
  unfold poll_try, verdict, task_data_of. unfold_monad.
  destruct (http env (length (requests st))) as [e|resp]; [auto|].
  destruct (status_code resp =? 200); [|auto].
  destruct (body_json resp) as [data|e]; [|auto].
  destruct data as [| | | | |d]; try (cbn; auto; fail).
  rewrite !get_obj. cbv beta iota.
  destruct (Py.eq_int (Py.dict_get d "code" JNull) 0); [|auto].
  destruct (Py.dict_get d "data" (JObj [])) as [| | | | |td]; try (cbn; auto; fail).
  rewrite !get_obj. cbv beta iota.
  destruct (Py.eq_str (Py.dict_get td "task_status" JNull) "succeed").
  - destruct (Py.dict_get td "task_result" (JObj [])) as [| | | | |tr];
      try (cbn; auto; fail).
    rewrite !get_obj. cbv beta iota.
    destruct (Py.dict_get tr "videos" (JArr [])) as [|[|]|n|[|c s]|[|first l]|[|kv l]];
      try (cbn; auto; fail).
    + cbn. destruct (n =? 0); cbn; auto.
    + destruct first; cbn; auto.
  - destruct (Py.eq_str (Py.dict_get td "task_status" JNull) "failed"); cbn; auto.
Qed.

(** What one attempt does, by the meaning of the reply it gets. *)
Lemma poll_attempt_verdict (env : Env) (task_id : json) (api_token : jwt_token)
    (delay : Z) (st : State) :
  poll_attempt env task_id api_token delay st =
  let st1 := add_request (ReqPoll task_id api_token) st in
  match verdict (http env (length (requests st))) with
  | Succeeded url => (Ret (Some url), st1)
  | Failed => (Ret (Some JNull), st1)
  | Pending => (Ret None, add_sleep delay st1)
  end.
Proof.
  pose proof (poll_try_cases env task_id api_token delay st) as H.
  unfold poll_attempt, try_except. cbv zeta in *.
  destruct (poll_try env task_id api_token delay st) as [[[url|]|e] st'].
  - destruct H as [-> [->|[-> ->]]]; reflexivity.
  - destruct H as [-> ->]. reflexivity.
  - destruct H as [-> ->]. reflexivity.
Qed.

Lemma after_polls_none (task_id : json) (api_token : jwt_token) (delay : Z) (st : State) :
  after_polls task_id api_token delay 0 0 st = st.
Proof. destruct st. unfold after_polls. simpl. rewrite !app_nil_r. reflexivity. Qed.

Lemma after_polls_pending (task_id : json) (api_token : jwt_token) (delay : Z)
    (k s : nat) (st : State) :
  after_polls task_id api_token delay k s
    (add_sleep delay (add_request (ReqPoll task_id api_token) st))
  = after_polls task_id api_token delay (S k) (S s) st.
Proof. unfold after_polls. simpl. rewrite <- !app_assoc. reflexivity. Qed.

Lemma after_polls_last (task_id : json) (api_token : jwt_token) (delay : Z)
    (k s : nat) (st : State) :
  add_request (ReqPoll task_id api_token) (after_polls task_id api_token delay k s st)
  = after_polls task_id api_token delay (S k) s st.
Proof.
  unfold after_polls, add_request. simpl.
  rewrite <- !app_assoc, <- repeat_cons. reflexivity.
Qed.

Lemma after_polls_sent (task_id : json) (api_token : jwt_token) (delay : Z)
    (k s : nat) (st : State) :
  length (requests (after_polls task_id api_token delay k s st))
  = (length (requests st) + k)%nat.
Proof. simpl. rewrite length_app, repeat_length. reflexivity. Qed.

#[local] Arguments poll_loop : simpl never.

Lemma poll_loop_step (env : Env) (task_id : json) (api_token : jwt_token)
    (delay : Z) (n : nat) (st : State) :
  poll_loop env task_id api_token delay (S n) st =
  match poll_attempt env task_id api_token delay st with
  | (Ret (Some v), st') => (Ret v, st')
  | (Ret None, st') => poll_loop env task_id api_token delay n st'
  | (Raise e, st') => (Raise e, st')
  end.
Proof.
  unfold poll_loop at 1. fold poll_loop. unfold bind.
  destruct (poll_attempt env task_id api_token delay st) as [[[v|]|e] st']; reflexivity.
Qed.

(** While the replies leave the task pending, every attempt polls once and
    sleeps once. *)
Lemma poll_loop_pending (env : Env) (task_id : json) (api_token : jwt_token)
    (delay : Z) (k n : nat) (st : State) :
  (forall j, (j < k)%nat -> verdict (http env (length (requests st) + j)) = Pending) ->
  poll_loop env task_id api_token delay (k + n) st
  = poll_loop env task_id api_token delay n (after_polls task_id api_token delay k k st).
Proof.
  revert st. induction k as [|k IH]; intros st Hpending.
  - rewrite after_polls_none. reflexivity.
  - change (S k + n)%nat with (S (k + n)).
    rewrite poll_loop_step, poll_attempt_verdict. cbv zeta.
    specialize (Hpending 0%nat ltac:(lia)) as H0. rewrite Nat.add_0_r in H0. rewrite H0.
    rewrite IH.
    + rewrite after_polls_pending. reflexivity.
    + intros j Hj. simpl. rewrite length_app. simpl.
      replace (length (requests st) + 1 + j)%nat with (length (requests st) + S j)%nat by lia.
      apply Hpending. lia.
Qed.

(** The attempt that meets the first reply that is not pending ends the
    loop, without sleeping. *)
Lemma poll_loop_ends (env : Env) (task_id : json) (api_token : jwt_token)
    (delay : Z) (n : nat) (st : State) (result : json) :
  (verdict (http env (length (requests st))) = Succeeded result \/
   (verdict (http env (length (requests st))) = Failed /\ result = JNull)) ->
  poll_loop env task_id api_token delay (S n) st
  = (Ret result, add_request (ReqPoll task_id api_token) st).
Proof.
  intros H. rewrite poll_loop_step, poll_attempt_verdict. cbv zeta.
  destruct H as [->|[-> ->]]; reflexivity.
Qed.

(** The meaning of a reply, read off the fields of a well-formed answer
    (status 200, [code] 0, a [data] object). *)
Section Verdicts.

Variables (resp : response) (d td : list (string * json)).
Hypothesis Hstatus : status_code resp = 200.
Hypothesis Hbody : body_json resp = Ret (JObj d).
Hypothesis Hcode : Py.assoc "code" d = Some (JNum 0).
Hypothesis Hdata : Py.assoc "data" d = Some (JObj td).

Lemma task_data_of_envelope : task_data_of (HttpResp resp) = Some (JObj td).
Proof.
  unfold task_data_of, Py.dict_get. rewrite Hstatus, Hbody, Hcode, Hdata. reflexivity.
Qed.

Lemma verdict_failed :
  Py.assoc "task_status" td = Some (JStr "failed") ->
  verdict (HttpResp resp) = Failed.
Proof.
  intros H. unfold verdict. rewrite task_data_of_envelope.
  unfold Py.dict_get. rewrite H. reflexivity.
Qed.

Lemma verdict_succeed (tr v : list (string * json)) (others : list json) :
  Py.assoc "task_status" td = Some (JStr "succeed") ->
  Py.assoc "task_result" td = Some (JObj tr) ->
  Py.assoc "videos" tr = Some (JArr (JObj v :: others)) ->
  verdict (HttpResp resp) = Succeeded (Py.dict_get v "url" JNull).
Proof.
  intros H1 H2 H3. unfold verdict. rewrite task_data_of_envelope.
  unfold Py.dict_get at 1 2 3. rewrite H1, H2, H3. reflexivity.
Qed.

Lemma verdict_other_status (s : string) :
  Py.assoc "task_status" td = Some (JStr s) ->
  s <> "succeed" -> s <> "failed" ->
  verdict (HttpResp resp) = Pending.
Proof.
  intros H Hs Hf. unfold verdict. rewrite task_data_of_envelope.
  unfold Py.dict_get, Py.eq_str. rewrite H.
  apply String.eqb_neq in Hs, Hf. rewrite Hs, Hf. reflexivity.
Qed.

End Verdicts.

Lemma verdict_transport_error (e : exn) : verdict (HttpRaise e) = Pending.
Proof. reflexivity. Qed.

Lemma verdict_other_http_status (resp : response) :
  status_code resp <> 200 -> verdict (HttpResp resp) = Pending.
Proof.
  intros H. unfold verdict, task_data_of.
  destruct (Z.eqb_spec (status_code resp) 200); [contradiction | reflexivity].
Qed.

(** C3, as stated, fails on a "succeed" reply without videos: the loop
    neither ends nor returns a URL, it polls on to the last attempt. *)
Lemma succeed_without_videos_polls_on :
  let env := Scenario.world (fun _ => Scenario.poll_succeed []) (Scenario.proc_script []) [] in
  let api_token := {| jwt_alg := "HS256"; jwt_typ := "JWT"; jwt_iss := "ak";
                      jwt_exp := 2800; jwt_nbf := 995; jwt_key := "sk" |} in
  let run := wait_for_video_completion env (JStr "t1") api_token
               default_max_attempts default_delay (Scenario.start ∅) in
  task_status_of (http env 0) = Some (JStr "succeed") /\
  fst run = Ret JNull /\
  length (requests (snd run)) = 60%nat /\
  slept (snd run) = repeat 5 60.
Proof. vm_compute. auto. Qed.

(** C3 (amended): the polling ends at the first reply that is not pending:
    with [k] pending replies before it the loop has polled [k + 1] times and
    slept [k] times for 5 seconds, and it returns the video URL after a
    "succeed" reply that carries a video and [None] after a "failed" one.
    When all 60 replies are pending, it polls 60 times, sleeps 5 seconds
    after each poll and returns [None].  A "succeed" reply without a usable
    list of videos counts as pending. *)
Theorem poll_loop_outcomes (env : Env) (task_id : json) (api_token : jwt_token)
    (st : State) :
  let reply k := http env (length (requests st) + k) in
  let run := wait_for_video_completion env task_id api_token
               default_max_attempts default_delay st in
  let after := after_polls task_id api_token default_delay in
  (forall k,
     (k < 60)%nat ->
     (forall j, (j < k)%nat -> verdict (reply j) = Pending) ->
     (forall video_url,
        verdict (reply k) = Succeeded video_url ->
        run = (Ret video_url, after (S k) k st)) /\
     (verdict (reply k) = Failed -> run = (Ret JNull, after (S k) k st))) /\
  ((forall j, (j < 60)%nat -> verdict (reply j) = Pending) ->
   run = (Ret JNull, after 60%nat 60%nat st)).
Proof.
  intros reply run after. split.
  - intros k Hk Hpending.
    assert (Hrun : forall result,
               (verdict (reply k) = Succeeded result \/
                (verdict (reply k) = Failed /\ result = JNull)) ->
               run = (Ret result, after (S k) k st)).
    { intros result Hend. subst run. unfold wait_for_video_completion, default_max_attempts.
      replace 60%nat with (k + S (59 - k))%nat by lia.
      rewrite poll_loop_pending by exact Hpending.
      rewrite (poll_loop_ends _ _ _ _ _ _ result).
      - subst after. rewrite after_polls_last. reflexivity.
      - rewrite after_polls_sent. exact Hend. }
    split.
    + intros video_url H. apply Hrun. left. exact H.
    + intros H. apply Hrun. right. split; [exact H | reflexivity].
  - intros Hpending. subst run. unfold wait_for_video_completion, default_max_attempts.
    replace 60%nat with (60 + 0)%nat at 1 by lia.
    rewrite poll_loop_pending by exact Hpending. reflexivity.
Qed.

Lemma poll_loop_outcomes_witness :
  let api_token := {| jwt_alg := "HS256"; jwt_typ := "JWT"; jwt_iss := "ak";
                      jwt_exp := 2800; jwt_nbf := 995; jwt_key := "sk" |} in
  let slow :=
    Scenario.world
      (Scenario.script
         [Scenario.poll_status "submitted"; Scenario.poll_status "processing";
          Scenario.poll_status "processing"; Scenario.poll_done "https://v/1.mp4"])
      (Scenario.proc_script []) [] in
  let failing :=
    Scenario.world
      (Scenario.script [Scenario.poll_status "processing"; Scenario.poll_status "failed"])
      (Scenario.proc_script []) [] in
  let stuck :=
    Scenario.world (fun _ => Scenario.poll_status "processing") (Scenario.proc_script []) [] in
  let st := Scenario.start ∅ in
  wait_for_video_completion slow (JStr "t1") api_token default_max_attempts default_delay st
  = (Ret (JStr "https://v/1.mp4"),
     after_polls (JStr "t1") api_token default_delay 4 3 st) /\
  wait_for_video_completion failing (JStr "t1") api_token default_max_attempts default_delay st
  = (Ret JNull, after_polls (JStr "t1") api_token default_delay 2 1 st) /\
  wait_for_video_completion stuck (JStr "t1") api_token default_max_attempts default_delay st
  = (Ret JNull, after_polls (JStr "t1") api_token default_delay 60 60 st).
Proof.
  intros api_token slow failing stuck st. split; [|split].
  - destruct (poll_loop_outcomes slow (JStr "t1") api_token st) as [Hends _].
    destruct (Hends 3%nat ltac:(lia)) as [Hsucceed _].
    + intros j Hj. destruct j as [|[|[|j]]]; [reflexivity .. | lia].
    + exact (Hsucceed _ eq_refl).
  - destruct (poll_loop_outcomes failing (JStr "t1") api_token st) as [Hends _].
    destruct (Hends 1%nat ltac:(lia)) as [_ Hfailed].
    + intros j Hj. destruct j as [|j]; [reflexivity | lia].
    + exact (Hfailed eq_refl).
  - destruct (poll_loop_outcomes stuck (JStr "t1") api_token st) as [_ Hall].
    apply Hall. intros j _. reflexivity.
Defined.

(** The loop always returns: no error leaves it. *)
Lemma poll_loop_returns (env : Env) (task_id : json) (api_token : jwt_token)
    (delay : Z) (n : nat) (st : State) :
  exists result final,
    poll_loop env task_id api_token delay n st = (Ret result, final).
Proof.
  revert st. induction n as [|n IH]; intros st.
  - eexists _, _. reflexivity.
  - rewrite poll_loop_step, poll_attempt_verdict. cbv zeta.
    destruct (verdict _); [eexists _, _; reflexivity .. | apply IH].
Qed.

(** C8: when a polling attempt throws, the error is caught: the attempt ends
    like one that met a pending status (the reply counts as pending, the
    request was sent, the loop sleeps the 5 seconds), one attempt of the
    budget is used up, and the loop goes on and returns normally. *)
Theorem poll_error_counts_as_pending (env : Env) (task_id : json)
    (api_token : jwt_token) (n : nat) (st st' : State) (e : exn) :
  poll_try env task_id api_token default_delay st = (Raise e, st') ->
  let next := add_sleep 5 (add_request (ReqPoll task_id api_token) st) in
  verdict (http env (length (requests st))) = Pending /\
  poll_attempt env task_id api_token default_delay st = (Ret None, next) /\
  poll_loop env task_id api_token default_delay (S n) st
  = poll_loop env task_id api_token default_delay n next /\
  exists result final,
    poll_loop env task_id api_token default_delay (S n) st = (Ret result, final).
Proof.
  intros Htry next.
  pose proof (poll_try_cases env task_id api_token default_delay st) as H.
  rewrite Htry in H. cbv zeta in H. destruct H as [_ Hpending].
  assert (Hattempt : poll_attempt env task_id api_token default_delay st = (Ret None, next)).
  { rewrite poll_attempt_verdict, Hpending. reflexivity. }
  split; [exact Hpending|]. split; [exact Hattempt|]. split.
  - rewrite poll_loop_step, Hattempt. reflexivity.
  - apply poll_loop_returns.
Qed.

Lemma poll_error_counts_as_pending_witness :
  let api_token := {| jwt_alg := "HS256"; jwt_typ := "JWT"; jwt_iss := "ak";
                      jwt_exp := 2800; jwt_nbf := 995; jwt_key := "sk" |} in
  let env :=
    Scenario.world
      (Scenario.script [Scenario.connection_error; Scenario.poll_done "https://v/1.mp4"])
      (Scenario.proc_script []) [] in
  let st := Scenario.start ∅ in
  let next := add_sleep 5 (add_request (ReqPoll (JStr "t1") api_token) st) in
  verdict (http env (length (requests st))) = Pending /\
  poll_attempt env (JStr "t1") api_token default_delay st = (Ret None, next) /\
  poll_loop env (JStr "t1") api_token default_delay 60 st
  = poll_loop env (JStr "t1") api_token default_delay 59 next /\
  exists result final,
    poll_loop env (JStr "t1") api_token default_delay 60 st = (Ret result, final).
Proof.
  intros api_token env st.
  exact (poll_error_counts_as_pending env (JStr "t1") api_token 59 st
           (add_request (ReqPoll (JStr "t1") api_token) st)
           (OtherException "ConnectionError") eq_refl).
Defined.

(** Errors at other places of the attempt are caught in the same way: a
    body that is not JSON, and a "succeed" reply whose first video is not an
    object. *)
Example poll_errors_inside_the_body :
  let api_token := {| jwt_alg := "HS256"; jwt_typ := "JWT"; jwt_iss := "ak";
                      jwt_exp := 2800; jwt_nbf := 995; jwt_key := "sk" |} in
  let env :=
    Scenario.world
      (Scenario.script [Scenario.video_reply 200; Scenario.poll_succeed [JStr "x"];
                        Scenario.poll_done "https://v/1.mp4"])
      (Scenario.proc_script []) [] in
  let run := wait_for_video_completion env (JStr "t1") api_token
               default_max_attempts default_delay (Scenario.start ∅) in
  run = (Ret (JStr "https://v/1.mp4"),
         after_polls (JStr "t1") api_token default_delay 3 2 (Scenario.start ∅)).
Proof. vm_compute. reflexivity. Qed.

(** ** Tokens *)

(** However the polling goes, it only adds polls of the task, all with the
    token it was given, and sleeps. *)
Lemma poll_loop_trace (env : Env) (task_id : json) (api_token : jwt_token)
    (delay : Z) (n : nat) (st : State) :
  exists result polls sleeps,
    (polls <= n)%nat /\
    poll_loop env task_id api_token delay n st
    = (Ret result, after_polls task_id api_token delay polls sleeps st).
Proof.
  revert st. induction n as [|n IH]; intros st.
  - exists JNull, 0%nat, 0%nat. rewrite after_polls_none. split; [lia | reflexivity].
  - rewrite poll_loop_step, poll_attempt_verdict. cbv zeta.
    destruct (verdict _) as [url| |].
    + exists url, 1%nat, 0%nat. rewrite <- after_polls_last, after_polls_none.
      split; [lia | reflexivity].
    + exists JNull, 1%nat, 0%nat. rewrite <- after_polls_last, after_polls_none.
      split; [lia | reflexivity].
    + destruct (IH (add_sleep delay (add_request (ReqPoll task_id api_token) st)))
        as (result & polls & sleeps & Hle & ->).
      exists result, (S polls), (S sleeps). rewrite after_polls_pending.
      split; [lia | reflexivity].
Qed.

(** What a call of [send_to_kling] leaves behind: it read the clock twice for
    its token, sent the submission and then polls with that token, and
    slept; it always returns. *)
Lemma send_to_kling_state (env : Env) (prompt image_url : string) (st : State) :
  let token :=
    {| jwt_alg := "HS256"; jwt_typ := "JWT"; jwt_iss := KLING_ACCESS_KEY env;
       jwt_exp := clock env (n_clock st) + 1800;
       jwt_nbf := clock env (S (n_clock st)) - 5;
       jwt_key := KLING_SECRET_KEY env |} in
  exists result payload task_id polls sleeps,
    (polls <= 60)%nat /\
    send_to_kling env prompt image_url st
    = (Ret result,
       after_polls task_id token default_delay polls sleeps
         (add_request (ReqSubmit token payload) (tick_clock (tick_clock st)))).
Proof.
  intros token.
  unfold send_to_kling, encode_jwt_token. unfold_monad. simpl n_clock. fold token.
  set (payload := {| model_name := "kling-v2-1"; mode := "std"; duration := default_duration;
                     image := image_url; prompt := prompt;
                     cfg_scale := QArith_base.Qmake 1 2 |}).
  set (st2 := add_request (ReqSubmit token payload) (tick_clock (tick_clock st))).
  assert (Hnone : exists result payload0 task_id polls sleeps,
             (polls <= 60)%nat /\
             (Ret JNull, st2)
             = (Ret result,
                after_polls task_id token default_delay polls sleeps
                  (add_request (ReqSubmit token payload0) (tick_clock (tick_clock st))))).
  { exists JNull, payload, JNull, 0%nat, 0%nat. split; [lia|].
    rewrite after_polls_none. reflexivity. }
  simpl requests.
  destruct (http env (length (requests st))) as [e|resp]; [exact Hnone|].
  destruct (status_code resp =? 200); [|exact Hnone].
  destruct (body_json resp) as [data|e]; [|exact Hnone].
  destruct data as [| | | | |d]; try exact Hnone.
  rewrite !get_obj. cbv beta iota.
  destruct (Py.eq_int (Py.dict_get d "code" JNull) 0); [|exact Hnone].
  destruct (Py.dict_get d "data" (JObj [])) as [| | | | |td]; try exact Hnone.
  rewrite !get_obj. cbv beta iota.
  destruct (Py.truthy (Py.dict_get td "task_id" JNull)); [|exact Hnone].
  unfold wait_for_video_completion.
  destruct (poll_loop_trace env (Py.dict_get td "task_id" JNull) token default_delay
              default_max_attempts st2) as (result & polls & sleeps & Hle & Hrun).
  change (n_clock (tick_clock st)) with (S (n_clock st)). fold token. rewrite Hrun.
  exists result, payload, (Py.dict_get td "task_id" JNull), polls, sleeps.
  split; [exact Hle | reflexivity].
Qed.

(** C5, as stated, fails: the polls of a task carry the token that was made
    for its submission.  Here three requests go out with one token, and the
    clock was read for one token only. *)
Lemma polls_reuse_submit_token :
  let env :=
    Scenario.world
      (Scenario.script [Scenario.submit_ok "t1"; Scenario.poll_status "processing";
                        Scenario.poll_done "https://v/1.mp4"])
      (Scenario.proc_script []) [] in
  let run := send_to_kling env "a prompt" "https://tmpfiles.org/dl/1/a.png"
               (Scenario.start ∅) in
  let token := {| jwt_alg := "HS256"; jwt_typ := "JWT"; jwt_iss := "ak";
                  jwt_exp := 2800; jwt_nbf := 996; jwt_key := "sk" |} in
  fst run = Ret (JStr "https://v/1.mp4") /\
  (exists payload,
     requests (snd run)
     = [ReqSubmit token payload; ReqPoll (JStr "t1") token; ReqPoll (JStr "t1") token]) /\
  n_clock (snd run) = 2%nat /\
  slept (snd run) = [5].
Proof. vm_compute. split; [reflexivity|]. split; [eexists; reflexivity | auto]. Qed.

(** C5 (amended): each call of [send_to_kling], that is each task, makes one
    token: its expiry is the clock's reading plus 1800 seconds and its
    not-before time the clock's next reading minus 5 seconds.  The
    submission and every poll of that task carry this one token, and the
    clock is not read again during the call. *)
Theorem one_token_per_task (env : Env) (prompt image_url : string) (st : State) :
  let run := send_to_kling env prompt image_url st in
  let token :=
    {| jwt_alg := "HS256"; jwt_typ := "JWT"; jwt_iss := KLING_ACCESS_KEY env;
       jwt_exp := clock env (n_clock st) + 1800;
       jwt_nbf := clock env (S (n_clock st)) - 5;
       jwt_key := KLING_SECRET_KEY env |} in
  exists payload task_id polls,
    (polls <= 60)%nat /\
    requests (snd run)
    = (requests st ++ ReqSubmit token payload :: repeat (ReqPoll task_id token) polls)%list /\
    n_clock (snd run) = S (S (n_clock st)).
Proof.
  intros run token. subst run.
  destruct (send_to_kling_state env prompt image_url st)
    as (result & payload & task_id & polls & sleeps & Hle & Hrun).
  fold token in Hrun. rewrite Hrun.
  exists payload, task_id, polls.
  split; [exact Hle|]. split; [|reflexivity].
  simpl. rewrite <- app_assoc. reflexivity.
Qed.

(** ** Processing one image *)

(** A [try] whose handler returns always returns. *)
Lemma try_except_returns {A} (m : M A) (h : exn -> M A) (st : State) :
  (forall e st1, exists a st2, h e st1 = (Ret a, st2)) ->
  exists a st2, try_except m h st = (Ret a, st2).
Proof.
  intros Hh. unfold try_except. destruct (m st) as [[a|e] st1].
  - eexists _, _. reflexivity.
  - apply Hh.
Qed.

Lemma upload_returns (env : Env) (image_path : string) (st : State) :
  exists uploaded st1,
    upload_image_to_temporary_hosting env image_path st = (Ret uploaded, st1).
Proof.
  apply try_except_returns. intros e st1. eexists _, _. reflexivity.
Qed.

(** One round of the loop over the prompts returns, and counts its task
    once: as a success with its video path, or as a failure. *)
Lemma variant_step_counts (env : Env) (image_basename image_url : string)
    (variant : string * string) (successful failed : Z) (paths : list string)
    (st : State) :
  exists st' output_path,
    variant_step env image_basename image_url variant (successful, failed, paths) st
    = (Ret (successful + 1, failed, (paths ++ [output_path])%list), st') \/
    variant_step env image_basename image_url variant (successful, failed, paths) st
    = (Ret (successful, failed + 1, paths), st').
Proof.
  destruct variant as [emotion prompt]. unfold variant_step. unfold_monad.
  destruct (send_to_kling env prompt image_url st) as [[video_url|e] st1].
  - destruct (Py.truthy video_url).
    + match goal with |- context [download_kling_video ?e ?u ?p ?b ?s] =>
        destruct (download_kling_video e u p b s) as [[[saved|]|e'] st2] end.
      * destruct (PyStr.truthy saved).
        -- eexists _, _. left. reflexivity.
        -- eexists _, EmptyString. right. reflexivity.
      * eexists _, EmptyString. right. reflexivity.
      * eexists _, EmptyString. right. reflexivity.
    + eexists _, EmptyString. right. reflexivity.
  - eexists _, EmptyString. right. reflexivity.
Qed.

(** The loop over the prompts returns; the counters grow by one per prompt
    and the list of paths by one per success. *)
Lemma variants_loop_counts (env : Env) (image_basename image_url : string)
    (variants : list (string * string)) (successful failed : Z)
    (paths : list string) (st : State) :
  exists st' successful' failed' paths',
    variants_loop env image_basename image_url variants (successful, failed, paths) st
    = (Ret (successful', failed', paths'), st') /\
    successful' + failed' = successful + failed + Z.of_nat (length variants) /\
    successful <= successful' /\ failed <= failed' /\
    Z.of_nat (length paths') - successful' = Z.of_nat (length paths) - successful.
Proof.
  revert successful failed paths st.
  induction variants as [|variant rest IH]; intros successful failed paths st.
  - exists st, successful, failed, paths. split; [reflexivity | simpl length; lia].
  - simpl variants_loop. unfold bind.
    destruct (variant_step_counts env image_basename image_url variant
                successful failed paths st) as (st1 & output_path & [Hstep|Hstep]);
      rewrite Hstep.
    + destruct (IH (successful + 1) failed (paths ++ [output_path])%list st1)
        as (st' & s' & f' & p' & Hloop & Hsum & Hs & Hf & Hlen).
      exists st', s', f', p'. rewrite Hloop. rewrite length_app in Hlen. simpl in Hlen.
      split; [reflexivity|]. simpl length. lia.
    + destruct (IH successful (failed + 1) paths st1)
        as (st' & s' & f' & p' & Hloop & Hsum & Hs & Hf & Hlen).
      exists st', s', f', p'. rewrite Hloop.
      split; [reflexivity|]. simpl length. lia.
Qed.

Lemma prompts_to_use_length (is_crying_image : bool) :
  Z.of_nat (length (prompts_to_use is_crying_image)) = videos_per_image is_crying_image.
Proof. destruct is_crying_image; reflexivity. Qed.

(** C9: when the upload of an image succeeds, processing it returns, and the
    successful and failed counts it returns add up to the number of prompts
    selected for the image (1 for a crying image, 4 for any other); the list
    of video paths has one entry per success. *)
Theorem per_image_counts_add_up (env : Env) (image_path : string)
    (is_crying_image : bool) (image_basename image_url : string) (st st1 : State) :
  upload_image_to_temporary_hosting env image_path st = (Ret (Some image_url), st1) ->
  PyStr.truthy image_url = true ->
  exists successful failed paths st',
    process_single_image env image_path is_crying_image image_basename st
    = (Ret (successful, failed, paths), st') /\
    successful + failed = Z.of_nat (length (prompts_to_use is_crying_image)) /\
    successful + failed = (if is_crying_image then 1 else 4) /\
    0 <= successful /\ 0 <= failed /\
    Z.of_nat (length paths) = successful.
Proof.
  intros Hupload Htruthy.
  unfold process_single_image. rewrite (bind_run _ _ _ _ _ Hupload), Htruthy.
  unfold bind at 1, progress_update, modify.
  destruct (variants_loop_counts env image_basename image_url
              (prompts_to_use is_crying_image) 0 0 []
              (set_overall (fun k => k + 1) st1))
    as (st' & s' & f' & p' & Hloop & Hsum & Hs & Hf & Hlen).
  exists s', f', p', st'. rewrite Hloop. simpl in Hlen.
  pose proof (prompts_to_use_length is_crying_image) as Hn.
  unfold videos_per_image in Hn.
  split; [reflexivity|]. destruct is_crying_image; lia.
Qed.

Lemma per_image_counts_add_up_witness :
  let env :=
    Scenario.world
      (Scenario.script
         [Scenario.upload_ok "https://tmpfiles.org/1/a.png";
          Scenario.submit_ok "t1"; Scenario.poll_done "https://v/1.mp4";
          Scenario.video_reply 200;
          Scenario.submit_ok "t2"; Scenario.poll_status "failed"])
      (Scenario.proc_script []) [Scenario.file "a.png"] in
  exists successful failed paths st',
    process_single_image env "/srv/base-image/a.png" false "a" (Scenario.start ∅)
    = (Ret (successful, failed, paths), st') /\
    successful + failed = Z.of_nat (length (prompts_to_use false)) /\
    successful + failed = 4 /\
    0 <= successful /\ 0 <= failed /\
    Z.of_nat (length paths) = successful.
Proof.
  intros env.
  exact (per_image_counts_add_up env "/srv/base-image/a.png" false "a"
           "https://tmpfiles.org/dl/1/a.png" (Scenario.start ∅)
           (add_request (ReqUpload "/srv/base-image/a.png") (Scenario.start ∅))
           eq_refl eq_refl).
Defined.

(** The same image, run: one video, three failures. *)
Example per_image_counts_run :
  let env :=
    Scenario.world
      (Scenario.script
         [Scenario.upload_ok "https://tmpfiles.org/1/a.png";
          Scenario.submit_ok "t1"; Scenario.poll_done "https://v/1.mp4";
          Scenario.video_reply 200;
          Scenario.submit_ok "t2"; Scenario.poll_status "failed"])
      (Scenario.proc_script []) [Scenario.file "a.png"] in
  fst (process_single_image env "/srv/base-image/a.png" false "a" (Scenario.start ∅))
  = Ret (1, 3, ["/srv/output-videos/a-surprised.mp4"]).
Proof. vm_compute. reflexivity. Qed.

(** ** The run over all images *)

Lemma image_step_returns (env : Env) (img : string * bool * string)
    (totals : Z * Z * list string) (st : State) :
  exists totals' st', image_step env img totals st = (Ret totals', st').
Proof.
  destruct img as [[image_path is_crying_image] image_basename].
  destruct totals as [[successful failed] paths].
  unfold image_step. apply try_except_returns.
  intros e st1. eexists _, _. reflexivity.
Qed.

Lemma images_loop_cons (env : Env) (img : string * bool * string)
    (rest : list (string * bool * string)) (totals : Z * Z * list string) (st : State) :
  images_loop env (img :: rest) totals st =
  match image_step env img totals st with
  | (Ret totals', st') => images_loop env rest totals' st'
  | (Raise e, st') => (Raise e, st')
  end.
Proof. reflexivity. Qed.

(** No image can stop the run: the loop over the images always returns. *)
Lemma images_loop_returns (env : Env) (images : list (string * bool * string))
    (totals : Z * Z * list string) (st : State) :
  exists totals' st', images_loop env images totals st = (Ret totals', st').
Proof.
  revert totals st. induction images as [|img rest IH]; intros totals st.
  - eexists _, _. reflexivity.
  - rewrite images_loop_cons.
    destruct (image_step_returns env img totals st) as (totals1 & st1 & ->).
    apply IH.
Qed.

(** C7: when the upload of an image fails (it returns [None], or an empty
    URL), the round for that image counts all its [N] tasks as failed and
    none as successful, where [N] is the number of prompts selected for the
    image (1 for a crying image, 4 for any other), lets the progress bar
    skip the image's steps, and the loop goes on with the next image from
    there; the loop as a whole returns. *)
Theorem upload_failure_fails_one_image (env : Env) (image_path : string)
    (is_crying_image : bool) (image_basename : string)
    (rest : list (string * bool * string))
    (successful failed : Z) (paths : list string)
    (uploaded : option string) (st st1 : State) :
  upload_image_to_temporary_hosting env image_path st = (Ret uploaded, st1) ->
  uploaded = None \/ uploaded = Some EmptyString ->
  let N := if is_crying_image then 1 else 4 in
  let img := (image_path, is_crying_image, image_basename) in
  let st2 := set_overall (fun k => k + (1 + N * 2)) st1 in
  N = Z.of_nat (length (prompts_to_use is_crying_image)) /\
  image_step env img (successful, failed, paths) st
  = (Ret (successful, failed + N, paths), st2) /\
  images_loop env (img :: rest) (successful, failed, paths) st
  = images_loop env rest (successful, failed + N, paths) st2 /\
  exists totals final,
    images_loop env (img :: rest) (successful, failed, paths) st = (Ret totals, final).
Proof.
  intros Hupload Hfalsy N img st2. subst img.
  assert (Hstep : image_step env (image_path, is_crying_image, image_basename)
                    (successful, failed, paths) st
                  = (Ret (successful, failed + N, paths), st2)).
  { assert (Hraise : exists e,
               process_single_image env image_path is_crying_image image_basename st
               = (Raise e, st1)).
    { unfold process_single_image. rewrite (bind_run _ _ _ _ _ Hupload).
      destruct Hfalsy as [-> | ->]; eexists; reflexivity. }
    destruct Hraise as [e Hraise].
    unfold image_step, try_except.
    rewrite (bind_run _ _ _ _ _ Hraise). reflexivity. }
  split; [destruct is_crying_image; reflexivity|].
  split; [exact Hstep|]. split.
  - rewrite images_loop_cons, Hstep. reflexivity.
  - apply images_loop_returns.
Qed.

Lemma upload_failure_fails_one_image_witness :
  let env :=
    Scenario.world
      (Scenario.script
         [Scenario.json_reply 500 JNull;
          Scenario.upload_ok "https://tmpfiles.org/2/b-crying.png";
          Scenario.submit_ok "t1"; Scenario.poll_done "https://v/1.mp4";
          Scenario.video_reply 200])
      (Scenario.proc_script [])
      [Scenario.file "a.png"; Scenario.file "b-crying.png"] in
  let st := Scenario.start ∅ in
  let img := ("/srv/base-image/a.png", false, "a") in
  let rest := [("/srv/base-image/b-crying.png", true, "b-crying")] in
  let st2 := set_overall (fun k => k + (1 + 4 * 2))
               (add_request (ReqUpload "/srv/base-image/a.png") st) in
  4 = Z.of_nat (length (prompts_to_use false)) /\
  image_step env img (0, 0, []) st = (Ret (0, 0 + 4, []), st2) /\
  images_loop env (img :: rest) (0, 0, []) st
  = images_loop env rest (0, 0 + 4, []) st2 /\
  exists totals final,
    images_loop env (img :: rest) (0, 0, []) st = (Ret totals, final).
Proof.
  intros env st img rest st2.
  exact (upload_failure_fails_one_image env "/srv/base-image/a.png" false "a" rest
           0 0 [] None st (add_request (ReqUpload "/srv/base-image/a.png") st)
           eq_refl (or_introl eq_refl)).
Defined.

(** The run of that scenario: the first image's four tasks are failed, the
    second image's video is made, and the progress bar reaches its total. *)
Example upload_failure_run :
  let env :=
    Scenario.world
      (Scenario.script
         [Scenario.json_reply 500 JNull;
          Scenario.upload_ok "https://tmpfiles.org/2/b-crying.png";
          Scenario.submit_ok "t1"; Scenario.poll_done "https://v/1.mp4";
          Scenario.video_reply 200])
      (Scenario.proc_script [])
      [Scenario.file "a.png"; Scenario.file "b-crying.png"] in
  let run := generate_all_videos env (Scenario.start ∅) in
  fst run
  = Ret (Some {| total_video_steps := 12; total_successful := 1; total_failed := 4;
                 all_successful_video_paths := ["/srv/output-videos/b-crying-crying.mp4"];
                 cropping := None |}) /\
  overall (snd run) = 12.
Proof. vm_compute. auto. Qed.

(** Two standard images and a crying one, everything going well and no
    FFmpeg: 4 + 4 + 1 = 9 videos, and the progress bar reaches its 21 steps. *)
Example run_all_succeed :
  let env :=
    Scenario.world
      (Scenario.script
         (Scenario.image_ok 4 ++ Scenario.image_ok 4 ++ Scenario.image_ok 1))
      (Scenario.proc_script [])
      [Scenario.file "a.png"; Scenario.file "b.JPG"; Scenario.file "c-Crying.webp";
       Scenario.file "notes.txt"] in
  let run := generate_all_videos env (Scenario.start ∅) in
  (exists report,
     fst run = Ret (Some report) /\
     total_video_steps report = 21 /\
     total_successful report = 9 /\
     total_failed report = 0 /\
     length (all_successful_video_paths report) = 9%nat /\
     cropping report = None) /\
  overall (snd run) = 21.
Proof. vm_compute. split; [eexists; repeat split | reflexivity]. Qed.

(** A crying image with FFmpeg at hand: the video is made and then replaced
    by its cropped version. *)
Example run_with_crop :
  let env :=
    Scenario.world
      (Scenario.script (Scenario.image_ok 1))
      (Scenario.proc_script
         [Scenario.proc_exit 0 None; Scenario.proc_exit 0 None;
          Scenario.proc_exit 0 None; Scenario.proc_exit 0 (Some [Byte.x09])])
      [Scenario.file "c-crying.png"] in
  let run := generate_all_videos env (Scenario.start ∅) in
  (exists report,
     fst run = Ret (Some report) /\
     total_successful report = 1 /\
     all_successful_video_paths report = ["/srv/output-videos/c-crying-crying.mp4"] /\
     cropping report = Some (1, 0)) /\
  map_to_list (fs (snd run)) = [("/srv/output-videos/c-crying-crying.mp4", [Byte.x09])].
Proof. vm_compute. split; [eexists; repeat split | reflexivity]. Qed.

(** ** The progress bar *)

(** C2 fails on the code when a download fails: the download step of that
    task is never counted.  One image with four tasks has 9 steps; with the
    first download answered by status 404 the bar stops at 8. *)
Theorem failed_download_is_not_counted :
  let env :=
    Scenario.world
      (Scenario.script
         [Scenario.upload_ok "https://tmpfiles.org/1/a.png";
          Scenario.submit_ok "t1"; Scenario.poll_done "https://v/1.mp4";
          Scenario.video_reply 404;
          Scenario.submit_ok "t2"; Scenario.poll_done "https://v/2.mp4";
          Scenario.video_reply 200;
          Scenario.submit_ok "t3"; Scenario.poll_done "https://v/3.mp4";
          Scenario.video_reply 200;
          Scenario.submit_ok "t4"; Scenario.poll_done "https://v/4.mp4";
          Scenario.video_reply 200])
      (Scenario.proc_script []) [Scenario.file "a.png"] in
  let run := generate_all_videos env (Scenario.start ∅) in
  (exists report,
     fst run = Ret (Some report) /\
     total_video_steps report = 9 /\
     total_successful report = 3 /\
     total_failed report = 1) /\
  overall (snd run) = 8.
Proof. vm_compute. split; [eexists; repeat split | reflexivity]. Qed.

(** The other ways a task can fail are counted: with the first task refused
    at submission the bar reaches all 9 steps. *)
Example failed_submit_is_counted :
  let env :=
    Scenario.world
      (Scenario.script
         [Scenario.upload_ok "https://tmpfiles.org/1/a.png";
          Scenario.json_reply 200 (JObj [("code", JNum 1201)]);
          Scenario.submit_ok "t2"; Scenario.poll_done "https://v/2.mp4";
          Scenario.video_reply 200;
          Scenario.submit_ok "t3"; Scenario.poll_done "https://v/3.mp4";
          Scenario.video_reply 200;
          Scenario.submit_ok "t4"; Scenario.poll_done "https://v/4.mp4";
          Scenario.video_reply 200])
      (Scenario.proc_script []) [Scenario.file "a.png"] in
  let run := generate_all_videos env (Scenario.start ∅) in
  (exists report,
     fst run = Ret (Some report) /\
     total_video_steps report = 9 /\
     total_successful report = 3 /\
     total_failed report = 1) /\
  overall (snd run) = 9.
Proof. vm_compute. split; [eexists; repeat split | reflexivity]. Qed.

(** ** How far the progress bar gets *)

Lemma downloads_sent_app (a b : list request) :
  downloads_sent (a ++ b) = downloads_sent a + downloads_sent b.
Proof.
  induction a as [|r a IH]; simpl; [reflexivity|].
  destruct r; rewrite IH; lia.
Qed.

Lemma downloads_sent_polls (task_id : json) (api_token : jwt_token) (n : nat) :
  downloads_sent (repeat (ReqPoll task_id api_token) n) = 0.
Proof. induction n as [|n IH]; simpl; [reflexivity | exact IH]. Qed.

Lemma quiet_ret {A} (a : A) : quiet (ret a).
Proof. intros st. split; reflexivity. Qed.

Lemma quiet_bind {A B} (m : M A) (k : A -> M B) :
  quiet m -> (forall a, quiet (k a)) -> quiet (bind m k).
Proof.
  intros Hm Hk st. unfold bind. specialize (Hm st).
  destruct (m st) as [[a|e] st1]; simpl in Hm.
  - destruct (Hk a st1) as [H1 H2]. rewrite H1, H2. exact Hm.
  - exact Hm.
Qed.

Lemma quiet_try_except {A} (m : M A) (h : exn -> M A) :
  quiet m -> (forall e, quiet (h e)) -> quiet (try_except m h).
Proof.
  intros Hm Hh st. unfold try_except. specialize (Hm st).
  destruct (m st) as [[a|e] st1]; simpl in Hm.
  - exact Hm.
  - destruct (Hh e st1) as [H1 H2]. rewrite H1, H2. exact Hm.
Qed.

Lemma quiet_subprocess_run (env : Env) (cmd : list string) (check : bool)
    (output_file : option string) :
  quiet (subprocess_run env cmd check output_file).
Proof.
  intros st. unfold subprocess_run.
  destruct (proc_result (proc env (n_proc st))) as [code|e];
    [destruct (check && negb (code =? 0))|];
    destruct output_file, (proc_output (proc env (n_proc st))); split; reflexivity.
Qed.

Lemma quiet_check_ffmpeg (env : Env) : quiet (check_ffmpeg env).
Proof. intros st. rewrite check_ffmpeg_state. split; reflexivity. Qed.

Lemma quiet_remove_if_exists (p : string) : quiet (remove_if_exists p).
Proof.
  intros st. unfold remove_if_exists, os_path_exists, os_remove, bind, ret.
  destruct (fs st !! p) eqn:E; simpl; rewrite ?E; split; reflexivity.
Qed.

Lemma quiet_shutil_move (src dst : string) : quiet (shutil_move src dst).
Proof.
  intros st. unfold shutil_move. destruct (fs st !! src); split; reflexivity.
Qed.

Lemma quiet_crop (env : Env) (input_path : string) :
  quiet (crop_video_to_9_16 env input_path).
Proof.
  unfold crop_video_to_9_16.
  apply quiet_bind; [apply quiet_check_ffmpeg|]. intros available.
  destruct (negb available); [apply quiet_ret|].
  apply quiet_try_except.
  - apply quiet_bind; [apply quiet_subprocess_run|]. intros code.
    destruct (code =? 0).
    + apply quiet_bind; [apply quiet_shutil_move | intros; apply quiet_ret].
    + apply quiet_bind; [apply quiet_remove_if_exists | intros; apply quiet_ret].
  - intros e. apply quiet_bind; [apply quiet_remove_if_exists | intros; apply quiet_ret].
Qed.

Lemma quiet_crop_each (env : Env) (videos : list string) (counts : Z * Z) :
  quiet (crop_each env videos counts).
Proof.
  revert counts. induction videos as [|v rest IH]; intros [c f]; simpl.
  - apply quiet_ret.
  - apply quiet_bind; [apply quiet_crop | intros ok; apply IH].
Qed.

Lemma quiet_crop_all (env : Env) (videos : list string) :
  quiet (crop_all_generated_videos env videos).
Proof.
  unfold crop_all_generated_videos. destruct videos as [|v rest]; [apply quiet_ret|].
  apply quiet_bind; [apply quiet_check_ffmpeg|]. intros available.
  destruct (negb available); [apply quiet_ret | apply quiet_crop_each].
Qed.

(** A call of [send_to_kling] returns, sends no download and leaves the
    progress bar alone. *)
Lemma send_to_kling_progress (env : Env) (prompt image_url : string) (st : State) :
  exists result st',
    send_to_kling env prompt image_url st = (Ret result, st') /\
    overall st' = overall st /\
    downloads_sent (requests st') = downloads_sent (requests st).
Proof.
  destruct (send_to_kling_state env prompt image_url st)
    as (result & payload & task_id & polls & sleeps & _ & Hrun).
  eexists _, _. split; [exact Hrun|]. split; [reflexivity|].
  simpl. rewrite !downloads_sent_app, downloads_sent_polls. simpl. lia.
Qed.

Lemma write_chunks_run (save_path : string) (chunks : list (list Byte.byte)) (st : State) :
  exists f, write_chunks save_path chunks st = (Ret tt, set_fs f st).
Proof.
  revert st. induction chunks as [|chunk rest IH]; intros st; simpl.
  - exists (fun files => files). destruct st. reflexivity.
  - unfold bind, file_write, modify.
    destruct (IH (set_fs (fun f => <[save_path := (default [] (f !! save_path) ++ chunk)%list]> f) st))
      as [f Hf].
    rewrite Hf. eexists (fun files => f (_ files)). reflexivity.
Qed.

(** A download returns and sends one download request; the progress bar
    advances by one when the download succeeds and not at all when it
    fails. *)
Lemma download_progress (env : Env) (url : json) (save_path : string) (st : State) :
  exists saved st',
    download_kling_video env url save_path true st = (Ret saved, st') /\
    (saved = None \/ saved = Some save_path) /\
    downloads_sent (requests st') = downloads_sent (requests st) + 1 /\
    overall st' = overall st + (match saved with Some _ => 1 | None => 0 end).
Proof.
  unfold download_kling_video, open_wb. unfold_monad.
  assert (Hsent : downloads_sent (requests (add_request (ReqDownload url) st))
                  = downloads_sent (requests st) + 1).
  { simpl. rewrite downloads_sent_app. simpl. lia. }
  assert (Hfail : exists saved st',
             (Ret (@None string), add_request (ReqDownload url) st) = (Ret saved, st') /\
             (saved = None \/ saved = Some save_path) /\
             downloads_sent (requests st') = downloads_sent (requests st) + 1 /\
             overall st' = overall st + (match saved with Some _ => 1 | None => 0 end)).
  { eexists _, _. split; [reflexivity|]. split; [left; reflexivity|].
    split; [exact Hsent | simpl; lia]. }
  destruct (http env (length (requests st))) as [e|r]; [exact Hfail|].
  destruct (status_code r =? 200); [|exact Hfail].
  destruct (content_length r) as [total_size|e]; [|exact Hfail].
  match goal with |- context [write_chunks save_path (body_chunks r) ?s] =>
    destruct (write_chunks_run save_path (body_chunks r) s) as [f Hf]; rewrite Hf end.
  destruct (stream_error r) as [e|].
  - eexists _, _. split; [reflexivity|]. split; [left; reflexivity|].
    split; [exact Hsent | simpl; lia].
  - eexists _, _. split; [reflexivity|]. split; [right; reflexivity|].
    split; [exact Hsent | reflexivity].
Qed.

(** The path a video is saved at is never the empty string. *)
Lemma output_path_truthy (dir image_basename emotion : string) :
  PyStr.truthy (Path.join dir (image_basename +:+ "-" +:+ emotion +:+ ".mp4")) = true.
Proof.
  assert (Hname : forall a b, PyStr.truthy (a +:+ "-" +:+ b) = true)
    by (intros [|c a] b; reflexivity).
  assert (Happ : forall a b, PyStr.truthy b = true -> PyStr.truthy (a +:+ b) = true)
    by (intros [|c a] b H; [exact H | reflexivity]).
  unfold Path.join.
  destruct (PyStr.startswith "/" _); [apply Hname|].
  destruct (Path.ends_with_slash dir || negb (PyStr.truthy dir)).
  - apply Happ, Hname.
  - apply Happ. reflexivity.
Qed.

(** An upload returns and only sends its request. *)
Lemma upload_state (env : Env) (image_path : string) (st : State) :
  exists uploaded,
    upload_image_to_temporary_hosting env image_path st
    = (Ret uploaded, add_request (ReqUpload image_path) st).
Proof.
  unfold upload_image_to_temporary_hosting. unfold_monad.
  destruct (http env (length (requests st))) as [e|resp]; [eexists; reflexivity|].
  destruct (status_code resp =? 200); [|eexists; reflexivity].
  destruct (body_json resp) as [data|e]; [|eexists; reflexivity].
  destruct data as [| | | | |d]; try (eexists; reflexivity).
  rewrite get_obj. cbv beta iota.
  destruct (Py.eq_str (Py.dict_get d "status" JNull) "success"); [|eexists; reflexivity].
  unfold Py.getitem at 1.
  destruct (Py.assoc "data" d) as [inner|]; [|eexists; reflexivity].
  unfold Py.getitem.
  destruct inner as [| | | | |dd]; try (eexists; reflexivity).
  destruct (Py.assoc "url" dd) as [u|]; [|eexists; reflexivity].
  destruct u; eexists; reflexivity.
Qed.

(** One round of the loop over the prompts accounts for two steps, between
    the progress bar and the downloads that did not succeed. *)
Lemma variant_step_progress (env : Env) (image_basename image_url : string)
    (variant : string * string) (successful failed : Z) (paths : list string)
    (st : State) :
  exists successful' failed' paths' st',
    variant_step env image_basename image_url variant (successful, failed, paths) st
    = (Ret (successful', failed', paths'), st') /\
    overall st' + downloads_sent (requests st') - successful'
    = overall st + downloads_sent (requests st) - successful + 2.
Proof.
  destruct variant as [emotion prompt]. unfold variant_step. unfold_monad.
  destruct (send_to_kling_progress env prompt image_url st)
    as (video_url & st1 & Hsend & Ho1 & Hd1).
  rewrite Hsend. destruct (Py.truthy video_url).
  - match goal with |- context [download_kling_video env video_url ?p true ?s] =>
      destruct (download_progress env video_url p s)
        as (saved & st2 & Hdl & Hsaved & Hd2 & Ho2);
      rewrite Hdl end.
    simpl in Hd2, Ho2.
    destruct Hsaved as [-> | ->]; rewrite ?output_path_truthy;
      eexists _, _, _, _; (split; [reflexivity | lia]).
  - eexists _, _, _, _. split; [reflexivity | simpl; lia].
Qed.

Lemma variants_loop_progress (env : Env) (image_basename image_url : string)
    (variants : list (string * string)) (successful failed : Z)
    (paths : list string) (st : State) :
  exists successful' failed' paths' st',
    variants_loop env image_basename image_url variants (successful, failed, paths) st
    = (Ret (successful', failed', paths'), st') /\
    overall st' + downloads_sent (requests st') - successful'
    = overall st + downloads_sent (requests st) - successful
      + 2 * Z.of_nat (length variants).
Proof.
  revert successful failed paths st.
  induction variants as [|variant rest IH]; intros successful failed paths st.
  - eexists _, _, _, _. split; [reflexivity | simpl; lia].
  - simpl variants_loop. unfold bind.
    destruct (variant_step_progress env image_basename image_url variant
                successful failed paths st) as (s1 & f1 & p1 & st1 & Hstep & H1).
    rewrite Hstep.
    destruct (IH s1 f1 p1 st1) as (s2 & f2 & p2 & st2 & Hloop & H2).
    rewrite Hloop. eexists _, _, _, _. split; [reflexivity|].
    simpl length. lia.
Qed.

(** One round of the loop over the images accounts for all the steps of its
    image. *)
Lemma image_step_progress (env : Env) (image_path : string) (is_crying_image : bool)
    (image_basename : string) (successful failed : Z) (paths : list string)
    (st : State) :
  exists successful' failed' paths' st',
    image_step env (image_path, is_crying_image, image_basename)
      (successful, failed, paths) st
    = (Ret (successful', failed', paths'), st') /\
    overall st' + downloads_sent (requests st') - successful'
    = overall st + downloads_sent (requests st) - successful
      + (1 + videos_per_image is_crying_image * 2).
Proof.
  unfold image_step, process_single_image, try_except.
  destruct (upload_state env image_path st) as [uploaded Hupload].
  assert (Hsame : downloads_sent (requests (add_request (ReqUpload image_path) st))
                  = downloads_sent (requests st)).
  { simpl. rewrite downloads_sent_app. simpl. lia. }
  unfold bind at 1. unfold bind at 1. rewrite Hupload.
  assert (Hfailed : exists successful' failed' paths' st',
             (Ret (successful, failed + videos_per_image is_crying_image, paths),
              set_overall (fun k => k + (1 + videos_per_image is_crying_image * 2))
                (add_request (ReqUpload image_path) st))
             = (Ret (successful', failed', paths'), st') /\
             overall st' + downloads_sent (requests st') - successful'
             = overall st + downloads_sent (requests st) - successful
               + (1 + videos_per_image is_crying_image * 2)).
  { eexists _, _, _, _. split; [reflexivity|]. simpl in *. lia. }
  destruct uploaded as [image_url|]; [|exact Hfailed].
  destruct (PyStr.truthy image_url); [|exact Hfailed].
  unfold bind, progress_update, modify.
  destruct (variants_loop_progress env image_basename image_url
              (prompts_to_use is_crying_image) 0 0 []
              (set_overall (fun k => k + 1) (add_request (ReqUpload image_path) st)))
    as (s' & f' & p' & st' & Hloop & H).
  rewrite Hloop. eexists _, _, _, _. split; [reflexivity|].
  rewrite prompts_to_use_length in H. simpl in *. lia.
Qed.

Lemma count_steps_from (images : list (string * bool * string)) (start : Z) :
  fold_left
    (fun total img => total + (1 + videos_per_image (snd (fst img)) * 2))
    images start
  = start + count_steps images.
Proof.
  unfold count_steps. revert start.
  induction images as [|img rest IH]; intros start; simpl; [lia|].
  rewrite IH, (IH (0 + _)). lia.
Qed.

Lemma images_loop_progress (env : Env) (images : list (string * bool * string))
    (successful failed : Z) (paths : list string) (st : State) :
  exists successful' failed' paths' st',
    images_loop env images (successful, failed, paths) st
    = (Ret (successful', failed', paths'), st') /\
    overall st' + downloads_sent (requests st') - successful'
    = overall st + downloads_sent (requests st) - successful + count_steps images.
Proof.
  revert successful failed paths st.
  induction images as [|[[image_path is_crying_image] image_basename] rest IH];
    intros successful failed paths st.
  - eexists _, _, _, _. split; [reflexivity | unfold count_steps; simpl; lia].
  - rewrite images_loop_cons.
    destruct (image_step_progress env image_path is_crying_image image_basename
                successful failed paths st) as (s1 & f1 & p1 & st1 & Hstep & H1).
    rewrite Hstep.
    destruct (IH s1 f1 p1 st1) as (s2 & f2 & p2 & st2 & Hloop & H2).
    rewrite Hloop. eexists _, _, _, _. split; [reflexivity|].
    unfold count_steps at 1. simpl fold_left. rewrite count_steps_from.
    simpl snd. simpl fst. lia.
Qed.

(** X14: at the end of a run that reports, the progress bar is short of its
    total by exactly the number of downloads that failed: the downloads
    sent minus the videos made.  Every other step, failed or not, is
    counted. *)
Lemma progress_short_by_failed_downloads (env : Env) (st st' : State)
    (report : summary) :
  generate_all_videos env st = (Ret (Some report), st') ->
  overall st'
  = total_video_steps report
    - (downloads_sent (requests st') - downloads_sent (requests st)
       - total_successful report).
Proof.
  unfold generate_all_videos, try_except. unfold bind at 1.
  destruct (find_all_input_images env st) as [[all_images|e] st0] eqn:Hfind;
    [|discriminate].
  assert (Hst0 : st0 = st).
  { unfold find_all_input_images in Hfind. destruct (base_dir env) as [entries|].
    - destruct (map _ _) in Hfind; inversion Hfind; reflexivity.
    - inversion Hfind. }
  subst st0. unfold bind at 1. unfold modify at 1. unfold bind at 1.
  destruct (images_loop_progress env all_images 0 0 [] (set_overall (fun _ => 0) st))
    as (s' & f' & p' & st1 & Hloop & H).
  rewrite Hloop. simpl in H.
  destruct p' as [|p ps].
  - unfold ret. intros Hrun. inversion Hrun; subst. simpl. lia.
  - unfold bind at 1.
    pose proof (quiet_check_ffmpeg env st1) as [Hq1 Hq2].
    destruct (check_ffmpeg env st1) as [[available|e] st2]; [|discriminate].
    simpl in Hq1, Hq2. destruct available.
    + unfold bind at 1.
      pose proof (quiet_crop_all env (p :: ps) st2) as [Hc1 Hc2].
      destruct (crop_all_generated_videos env (p :: ps) st2) as [[counts|e] st3];
        [|discriminate].
      simpl in Hc1, Hc2. unfold ret. intros Hrun. inversion Hrun; subst. simpl.
      rewrite Hc1, Hc2, Hq1, Hq2. lia.
    + unfold bind at 1.
      pose proof (quiet_check_ffmpeg env st2) as [Hr1 Hr2].
      destruct (check_ffmpeg env st2) as [[again|e] st3]; [|discriminate].
      simpl in Hr1, Hr2. unfold ret. intros Hrun. inversion Hrun; subst. simpl.
      rewrite Hr1, Hr2, Hq1, Hq2. lia.
Qed.

(** * Further properties, function by function *)

(** ** [check_ffmpeg], [crop_video_to_9_16], [crop_all_generated_videos] *)

Lemma touches_only_ret {A} (paths : list string) (a : A) : touches_only paths (ret a).
Proof. intros st p _. reflexivity. Qed.

Lemma touches_only_bind {A B} (paths : list string) (m : M A) (k : A -> M B) :
  touches_only paths m -> (forall a, touches_only paths (k a)) ->
  touches_only paths (bind m k).
Proof.
  intros Hm Hk st p Hp. unfold bind. specialize (Hm st p Hp).
  destruct (m st) as [[a|e] st1]; simpl in Hm; [|exact Hm].
  rewrite (Hk a st1 p Hp). exact Hm.
Qed.

Lemma touches_only_try_except {A} (paths : list string) (m : M A) (h : exn -> M A) :
  touches_only paths m -> (forall e, touches_only paths (h e)) ->
  touches_only paths (try_except m h).
Proof.
  intros Hm Hh st p Hp. unfold try_except. specialize (Hm st p Hp).
  destruct (m st) as [[a|e] st1]; simpl in Hm; [exact Hm|].
  rewrite (Hh e st1 p Hp). exact Hm.
Qed.

Lemma touches_only_more {A} (paths paths' : list string) (m : M A) :
  (forall p, In p paths -> In p paths') ->
  touches_only paths m -> touches_only paths' m.
Proof. intros Hsub Hm st p Hp. apply Hm. intros Hin. apply Hp, Hsub, Hin. Qed.

Lemma touches_only_check_ffmpeg (env : Env) (paths : list string) :
  touches_only paths (check_ffmpeg env).
Proof. intros st p _. rewrite check_ffmpeg_state. reflexivity. Qed.

Lemma touches_only_subprocess_run (env : Env) (cmd : list string) (check : bool)
    (out : string) :
  touches_only [out] (subprocess_run env cmd check (Some out)).
Proof.
  intros st p Hp. unfold subprocess_run.
  assert (Hne : out <> p) by (intros ->; apply Hp; left; reflexivity).
  destruct (proc_result (proc env (n_proc st))) as [code|e];
    [destruct (check && negb (code =? 0))|];
    destruct (proc_output (proc env (n_proc st))); simpl;
    rewrite ?lookup_insert_ne by exact Hne; reflexivity.
Qed.

Lemma touches_only_remove_if_exists (p0 : string) :
  touches_only [p0] (remove_if_exists p0).
Proof.
  intros st p Hp. rewrite (proj2 (remove_if_exists_spec p0 st)).
  apply lookup_delete_ne. intros ->. apply Hp. left. reflexivity.
Qed.

Lemma touches_only_shutil_move (src dst : string) :
  touches_only [dst; src] (shutil_move src dst).
Proof.
  intros st p Hp. unfold shutil_move.
  destruct (fs st !! src); simpl; [|reflexivity].
  rewrite lookup_insert_ne by (intros ->; apply Hp; left; reflexivity).
  apply lookup_delete_ne. intros ->. apply Hp. right. left. reflexivity.
Qed.

Lemma touches_only_crop (env : Env) (input_path : string) :
  touches_only [input_path; temp_cropped input_path] (crop_video_to_9_16 env input_path).
Proof.
  unfold crop_video_to_9_16.
  apply touches_only_bind; [apply touches_only_check_ffmpeg|]. intros available.
  destruct (negb available); [apply touches_only_ret|].
  assert (Hclean : touches_only [input_path; temp_cropped input_path]
                     (remove_if_exists (temp_cropped input_path) ;;; ret false)%py).
  { apply touches_only_bind; [|intros; apply touches_only_ret].
    apply (touches_only_more [temp_cropped input_path]);
      [|apply touches_only_remove_if_exists].
    intros p [<-|[]]. right. left. reflexivity. }
  apply touches_only_try_except; [|intros e; exact Hclean].
  apply touches_only_bind.
  - apply (touches_only_more [temp_cropped input_path]);
      [|apply touches_only_subprocess_run].
    intros p [<-|[]]. right. left. reflexivity.
  - intros code. destruct (code =? 0); [|exact Hclean].
    apply touches_only_bind; [apply touches_only_shutil_move | intros; apply touches_only_ret].
Qed.

(** X1: a crop, however it ends, can only change two files, the video and
    its temporary sibling; it sends no request and leaves the overall
    progress bar alone. *)
Theorem crop_changes_only_its_two_files (env : Env) (input_path : string) (st : State) :
  let run := crop_video_to_9_16 env input_path st in
  (forall p, p <> input_path -> p <> temp_cropped input_path ->
             fs (snd run) !! p = fs st !! p) /\
  overall (snd run) = overall st /\
  requests (snd run) = requests st.
Proof.
  intros run. split; [|split].
  - intros p H1 H2. apply (touches_only_crop env input_path st p).
    intros [H|[H|[]]]; congruence.
  - apply quiet_crop.
  - apply quiet_crop.
Qed.

(** The check returns, or passes on an error it does not handle. *)
Lemma check_ffmpeg_result (env : Env) (st : State) :
  match fst (check_ffmpeg env st) with
  | Ret _ => True
  | Raise e => unhandled env e
  end.
Proof.
  unfold check_ffmpeg, subprocess_run.
  destruct (proc_result (proc env (n_proc st))) as [code|e] eqn:E.
  - destruct (true && negb (code =? 0)); exact I.
  - destruct e; simpl; try exact I;
      (split; [discriminate | split; [discriminate | exists (n_proc st); exact E]]).
Qed.

(** A crop returns, or passes on an error of its check. *)
Lemma crop_result (env : Env) (input_path : string) (st : State) :
  match fst (crop_video_to_9_16 env input_path st) with
  | Ret _ => True
  | Raise e => unhandled env e
  end.
Proof.
  unfold crop_video_to_9_16. unfold bind at 1.
  pose proof (check_ffmpeg_result env st) as Hcheck.
  destruct (check_ffmpeg env st) as [[available|e] st1]; [|exact Hcheck].
  destruct (negb available); [exact I|].
  unfold try_except.
  match goal with |- context [bind ?m ?k st1] => destruct (bind m k st1) as [[r|e] st2] end;
    [exact I|].
  destruct (cleanup_returns (temp_cropped input_path) st2) as [st3 ->]. exact I.
Qed.

Lemma crop_each_counts (env : Env) (videos : list string) (cropped failed : Z)
    (st : State) :
  match fst (crop_each env videos (cropped, failed) st) with
  | Ret (cropped', failed') =>
      cropped' + failed' = cropped + failed + Z.of_nat (length videos) /\
      cropped <= cropped' /\ failed <= failed'
  | Raise e => unhandled env e
  end.
Proof.
  revert cropped failed st.
  induction videos as [|v rest IH]; intros cropped failed st.
  - simpl. lia.
  - simpl crop_each. unfold bind.
    pose proof (crop_result env v st) as Hcrop.
    destruct (crop_video_to_9_16 env v st) as [[ok|e] st1]; [|exact Hcrop].
    destruct ok.
    + specialize (IH (cropped + 1) failed st1).
      destruct (fst (crop_each env rest (cropped + 1, failed) st1)) as [[c' f']|e];
        [|exact IH].
      simpl length. lia.
    + specialize (IH cropped (failed + 1) st1).
      destruct (fst (crop_each env rest (cropped, failed + 1) st1)) as [[c' f']|e];
        [|exact IH].
      simpl length. lia.
Qed.

Lemma crop_all_counts (env : Env) (videos : list string) (st : State) :
  match fst (crop_all_generated_videos env videos st) with
  | Ret (cropped, failed) =>
      cropped + failed = Z.of_nat (length videos) /\ 0 <= cropped /\ 0 <= failed
  | Raise e => unhandled env e
  end.
Proof.
  unfold crop_all_generated_videos. destruct videos as [|v rest]; [simpl; lia|].
  unfold bind. pose proof (check_ffmpeg_result env st) as Hcheck.
  destruct (check_ffmpeg env st) as [[available|e] st1]; [|exact Hcheck].
  destruct (negb available); [unfold ret; cbn [fst]; lia|].
  pose proof (crop_each_counts env (v :: rest) 0 0 st1) as H.
  destruct (fst (crop_each env (v :: rest) (0, 0) st1)) as [[c f]|e]; [lia | exact H].
Qed.

(** X2: cropping a list of videos counts every video once, as cropped or as
    failed; the only way it does not return its two counts is an error of an
    FFmpeg check that is neither "not found" nor a non-zero exit.  An empty
    list gives (0, 0) without running anything; when FFmpeg is not available
    every video counts as failed and no file changes. *)
Theorem crop_all_counts_every_video (env : Env) (successful_videos : list string)
    (st : State) :
  let run := crop_all_generated_videos env successful_videos st in
  match fst run with
  | Ret (cropped, failed) =>
      cropped + failed = Z.of_nat (length successful_videos) /\
      0 <= cropped /\ 0 <= failed
  | Raise e => unhandled env e
  end /\
  (successful_videos = [] -> run = (Ret (0, 0), st)) /\
  (fst (check_ffmpeg env st) = Ret false ->
   fst run = Ret (0, Z.of_nat (length successful_videos)) /\ fs (snd run) = fs st).
Proof.
  intros run. split; [apply crop_all_counts|]. split.
  - intros ->. reflexivity.
  - intros Hcheck. subst run. unfold crop_all_generated_videos.
    destruct successful_videos as [|v rest]; [split; reflexivity|].
    pose proof (check_ffmpeg_state env st) as Hst.
    unfold bind. destruct (check_ffmpeg env st) as [r st1].
    simpl in Hcheck, Hst. subst r st1. split; reflexivity.
Qed.

(** Two videos with FFmpeg at hand, the second crop failing. *)
Example crop_all_run :
  let env :=
    Scenario.world (Scenario.script [])
      (Scenario.proc_script
         [Scenario.proc_exit 0 None;
          Scenario.proc_exit 0 None; Scenario.proc_exit 0 (Some [Byte.x09]);
          Scenario.proc_exit 0 None; Scenario.proc_exit 1 (Some [Byte.x05])]) [] in
  let st := Scenario.start {[ "/out/a-sad.mp4" := [Byte.x01];
                              "/out/b-sad.mp4" := [Byte.x02] ]} in
  let run := crop_all_generated_videos env ["/out/a-sad.mp4"; "/out/b-sad.mp4"] st in
  fst run = Ret (1, 1) /\
  fs (snd run) !! "/out/a-sad.mp4" = Some [Byte.x09] /\
  fs (snd run) !! "/out/b-sad.mp4" = Some [Byte.x02] /\
  fs (snd run) !! "/out/b-sad_temp_cropped.mp4" = None.
Proof. vm_compute. auto. Qed.

(** X3: cropping a list of videos can only change those videos and their
    temporary siblings, sends no request and leaves the overall progress bar
    alone. *)
Theorem crop_all_changes_only_the_videos (env : Env) (successful_videos : list string)
    (st : State) :
  let run := crop_all_generated_videos env successful_videos st in
  (forall p, ~ In p successful_videos ->
             ~ In p (map temp_cropped successful_videos) ->
             fs (snd run) !! p = fs st !! p) /\
  overall (snd run) = overall st /\
  requests (snd run) = requests st.
Proof.
  intros run. split; [|apply quiet_crop_all].
  assert (Heach : forall videos counts,
             touches_only (videos ++ map temp_cropped videos) (crop_each env videos counts)).
  { induction videos as [|v rest IH]; intros [c f]; simpl crop_each.
    - apply touches_only_ret.
    - apply touches_only_bind.
      + apply (touches_only_more [v; temp_cropped v]); [|apply touches_only_crop].
        intros p [<-|[<-|[]]]; [left; reflexivity|].
        apply in_or_app. right. left. reflexivity.
      + intros ok. apply (touches_only_more (rest ++ map temp_cropped rest)); [|apply IH].
        intros p Hin. apply in_app_or in Hin as [Hin|Hin].
        * right. apply in_or_app. left. exact Hin.
        * apply in_or_app. right. right. exact Hin. }
  intros p H1 H2. subst run. unfold crop_all_generated_videos.
  destruct successful_videos as [|v rest]; [reflexivity|].
  assert (Hall : touches_only ((v :: rest) ++ map temp_cropped (v :: rest))
                   (available <- check_ffmpeg env ;;
                    if negb available then ret (0, Z.of_nat (length (v :: rest)))
                    else crop_each env (v :: rest) (0, 0))%py).
  { apply touches_only_bind; [apply touches_only_check_ffmpeg|]. intros available.
    destruct (negb available); [apply touches_only_ret | apply Heach]. }
  apply Hall. intros Hin. apply in_app_or in Hin as [Hin|Hin]; contradiction.
Qed.

(** ** [download_kling_video] *)

(** Writing chunks to an open file appends their concatenation. *)
Lemma write_chunks_content (save_path : string) (chunks : list (list Byte.byte))
    (written : list Byte.byte) (st : State) :
  fs st !! save_path = Some written ->
  write_chunks save_path chunks st
  = (Ret tt, set_fs (insert save_path (written ++ concat chunks)%list) st).
Proof.
  revert written st. induction chunks as [|chunk rest IH]; intros written st Hfile.
  - simpl. unfold ret. f_equal. destruct st. unfold set_fs. simpl in *.
    rewrite app_nil_r, insert_id by exact Hfile. reflexivity.
  - simpl write_chunks. unfold bind, file_write, modify.
    rewrite (IH (written ++ chunk)%list).
    + f_equal. unfold set_fs. simpl. rewrite Hfile. simpl.
      rewrite insert_insert_eq, <- app_assoc. reflexivity.
    + simpl. rewrite Hfile. simpl. apply lookup_insert_eq.
Qed.

(** A download with a body to read: the file is opened and holds whatever
    the stream delivered. *)
Lemma download_streams (env : Env) (url : json) (save_path : string)
    (progress_bar : bool) (st : State) (r : response) (total_size : Z) :
  http env (length (requests st)) = HttpResp r ->
  status_code r = 200 ->
  content_length r = Ret total_size ->
  let st2 := set_fs (insert save_path (concat (body_chunks r)))
               (add_request (ReqDownload url) st) in
  download_kling_video env url save_path progress_bar st
  = match stream_error r with
    | Some _ => (Ret None, st2)
    | None =>
        (Ret (Some save_path),
         if progress_bar then set_overall (fun k => k + 1) st2 else st2)
    end.
Proof.
  intros Hreply Hcode Hlen st2.
  unfold download_kling_video, open_wb. unfold_monad.
  rewrite Hreply, Hcode, Hlen. change (200 =? 200) with true. cbv iota beta.
  rewrite (write_chunks_content save_path (body_chunks r) []);
    [|simpl; apply lookup_insert_eq].
  assert (Hst2 : set_fs (insert save_path ([] ++ concat (body_chunks r))%list)
                   (set_fs (insert save_path [])
                      (add_request (ReqDownload url) st)) = st2).
  { subst st2. unfold set_fs. simpl. rewrite insert_insert_eq. reflexivity. }
  rewrite Hst2. destruct (stream_error r); [reflexivity|].
  destruct progress_bar; reflexivity.
Qed.

(** A download without a body to read: nothing but the request. *)
Lemma download_refused (env : Env) (url : json) (save_path : string)
    (progress_bar : bool) (st : State) :
  match http env (length (requests st)) with
  | HttpRaise _ => True
  | HttpResp r =>
      status_code r <> 200 \/ exists e, content_length r = Raise e
  end ->
  download_kling_video env url save_path progress_bar st
  = (Ret None, add_request (ReqDownload url) st).
Proof.
  intros H. unfold download_kling_video. unfold_monad.
  destruct (http env (length (requests st))) as [e|r]; [reflexivity|].
  destruct (Z.eqb_spec (status_code r) 200) as [Hcode|Hcode]; [|reflexivity].
  destruct H as [H|[e He]]; [contradiction|]. rewrite He. reflexivity.
Qed.

(** X4: a download answered with status 200 whose stream ends normally
    leaves exactly the concatenated chunks at the destination, replacing what
    was there, returns the destination path and advances the progress bar by
    one when it was given one. *)
Theorem download_saves_the_body (env : Env) (url : json) (save_path : string)
    (progress_bar : bool) (st : State) (r : response) (total_size : Z) :
  http env (length (requests st)) = HttpResp r ->
  status_code r = 200 ->
  content_length r = Ret total_size ->
  stream_error r = None ->
  let run := download_kling_video env url save_path progress_bar st in
  fst run = Ret (Some save_path) /\
  fs (snd run) = <[save_path := concat (body_chunks r)]> (fs st) /\
  overall (snd run) = overall st + (if progress_bar then 1 else 0) /\
  requests (snd run) = (requests st ++ [ReqDownload url])%list.
Proof.
  intros Hreply Hcode Hlen Hstream run. subst run.
  rewrite (download_streams env url save_path progress_bar st r total_size Hreply Hcode Hlen).
  rewrite Hstream. destruct progress_bar; simpl; repeat split; lia.
Qed.

Lemma download_saves_the_body_witness :
  let env := Scenario.world (Scenario.script [Scenario.video_reply 200])
               (Scenario.proc_script []) [] in
  let st := Scenario.start {[ "/out/a-sad.mp4" := [Byte.x07; Byte.x07; Byte.x07; Byte.x07] ]} in
  let run := download_kling_video env (JStr "https://v/1.mp4") "/out/a-sad.mp4" true st in
  fst run = Ret (Some "/out/a-sad.mp4") /\
  fs (snd run) = <["/out/a-sad.mp4" := [Byte.x01; Byte.x02; Byte.x03]]> (fs st) /\
  overall (snd run) = overall st + 1 /\
  requests (snd run) = (requests st ++ [ReqDownload (JStr "https://v/1.mp4")])%list.
Proof.
  intros env st.
  exact (download_saves_the_body env (JStr "https://v/1.mp4") "/out/a-sad.mp4" true st
           _ 3 eq_refl eq_refl eq_refl eq_refl).
Defined.

(** X5: when a download answered with status 200 breaks in mid-stream, the
    client returns [None] and does not advance the progress bar, but the
    destination has been overwritten: it holds the chunks received before
    the error. *)
Theorem broken_download_leaves_partial_file (env : Env) (url : json)
    (save_path : string) (progress_bar : bool) (st : State) (r : response)
    (total_size : Z) (e : exn) :
  http env (length (requests st)) = HttpResp r ->
  status_code r = 200 ->
  content_length r = Ret total_size ->
  stream_error r = Some e ->
  let run := download_kling_video env url save_path progress_bar st in
  fst run = Ret None /\
  fs (snd run) !! save_path = Some (concat (body_chunks r)) /\
  overall (snd run) = overall st.
Proof.
  intros Hreply Hcode Hlen Hstream run. subst run.
  rewrite (download_streams env url save_path progress_bar st r total_size Hreply Hcode Hlen).
  rewrite Hstream. simpl. split; [reflexivity|]. split; [apply lookup_insert_eq | reflexivity].
Qed.

Lemma broken_download_leaves_partial_file_witness :
  let broken :=
    HttpResp {| status_code := 200; body_json := Raise ValueError;
                content_length := Ret 1000;
                body_chunks := [[Byte.x01; Byte.x02]];
                stream_error := Some (OtherException "ChunkedEncodingError") |} in
  let env := Scenario.world (Scenario.script [broken]) (Scenario.proc_script []) [] in
  let st := Scenario.start {[ "/out/a-sad.mp4" := [Byte.x07; Byte.x07; Byte.x07; Byte.x07] ]} in
  let run := download_kling_video env (JStr "https://v/1.mp4") "/out/a-sad.mp4" true st in
  fst run = Ret None /\
  fs (snd run) !! "/out/a-sad.mp4" = Some [Byte.x01; Byte.x02] /\
  overall (snd run) = overall st.
Proof.
  intros broken env st.
  exact (broken_download_leaves_partial_file env (JStr "https://v/1.mp4") "/out/a-sad.mp4"
           true st _ 1000 (OtherException "ChunkedEncodingError")
           eq_refl eq_refl eq_refl eq_refl).
Defined.

(** X6: a download never raises, whatever the reply: it returns the
    destination path or [None], has sent exactly one request, and no file
    other than the destination has changed.  A reply whose content length
    cannot be read is refused before the destination is opened. *)
Theorem download_always_returns (env : Env) (url : json) (save_path : string)
    (progress_bar : bool) (st : State) :
  let run := download_kling_video env url save_path progress_bar st in
  (fst run = Ret None \/ fst run = Ret (Some save_path)) /\
  requests (snd run) = (requests st ++ [ReqDownload url])%list /\
  (forall p, p <> save_path -> fs (snd run) !! p = fs st !! p) /\
  (forall r e, http env (length (requests st)) = HttpResp r ->
               content_length r = Raise e ->
               fst run = Ret None /\ fs (snd run) = fs st).
Proof.
  intros run. subst run.
  assert (Hrefused : download_kling_video env url save_path progress_bar st
                     = (Ret None, add_request (ReqDownload url) st) ->
                     (fst (download_kling_video env url save_path progress_bar st) = Ret None \/
                      fst (download_kling_video env url save_path progress_bar st)
                      = Ret (Some save_path)) /\
                     requests (snd (download_kling_video env url save_path progress_bar st))
                     = (requests st ++ [ReqDownload url])%list /\
                     (forall p, p <> save_path ->
                        fs (snd (download_kling_video env url save_path progress_bar st)) !! p
                        = fs st !! p)).
  { intros ->. split; [left; reflexivity|]. split; [reflexivity|]. intros p _. reflexivity. }
  assert (Hmain : (fst (download_kling_video env url save_path progress_bar st) = Ret None \/
                   fst (download_kling_video env url save_path progress_bar st)
                   = Ret (Some save_path)) /\
                  requests (snd (download_kling_video env url save_path progress_bar st))
                  = (requests st ++ [ReqDownload url])%list /\
                  (forall p, p <> save_path ->
                     fs (snd (download_kling_video env url save_path progress_bar st)) !! p
                     = fs st !! p)).
  { destruct (http env (length (requests st))) as [e|r] eqn:Hreply.
    - apply Hrefused, download_refused. rewrite Hreply. exact I.
    - destruct (Z.eq_dec (status_code r) 200) as [Hcode|Hcode].
      + destruct (content_length r) as [total_size|e] eqn:Hlen.
        * rewrite (download_streams env url save_path progress_bar st r total_size
                     Hreply Hcode Hlen).
          destruct (stream_error r); [|destruct progress_bar]; simpl;
            (split; [auto|]); (split; [reflexivity|]);
            intros p Hp; apply lookup_insert_ne; congruence.
        * apply Hrefused, download_refused. rewrite Hreply. right. eauto.
      + apply Hrefused, download_refused. rewrite Hreply. left. exact Hcode. }
  destruct Hmain as (H1 & H2 & H3). split; [exact H1|]. split; [exact H2|].
  split; [exact H3|].
  intros r e Hreply Hlen.
  rewrite download_refused; [split; reflexivity|].
  rewrite Hreply. right. eauto.
Qed.

(** ** [upload_image_to_temporary_hosting] *)

(** X7: the upload client never raises and only sends its one request.  It
    returns a URL exactly when the reply has status 200, parses as a JSON
    object whose [status] is "success" and holds a string at
    [data.url]; the URL is that string with "tmpfiles.org/" rewritten.  On
    every other reply, and on every error, it returns [None]. *)
Theorem upload_returns_url_only_on_success (env : Env) (image_path : string)
    (st : State) :
  let run := upload_image_to_temporary_hosting env image_path st in
  snd run = add_request (ReqUpload image_path) st /\
  (fst run = Ret None \/ exists url, fst run = Ret (Some url)) /\
  (forall url,
     fst run = Ret (Some url) <->
     exists r d dd u,
       http env (length (requests st)) = HttpResp r /\
       status_code r = 200 /\
       body_json r = Ret (JObj d) /\
       Py.assoc "status" d = Some (JStr "success") /\
       Py.assoc "data" d = Some (JObj dd) /\
       Py.assoc "url" dd = Some (JStr u) /\
       url = PyStr.replace "tmpfiles.org/" "tmpfiles.org/dl/" u).
Proof.
  intros run. subst run.
  destruct (upload_state env image_path st) as [uploaded Hrun].
  rewrite Hrun. simpl fst. simpl snd.
  split; [reflexivity|].
  split; [destruct uploaded; [right; eexists|left]; reflexivity|].
  intros url. revert Hrun.
  unfold upload_image_to_temporary_hosting. unfold_monad.
  assert (Hno : uploaded = None ->
                (forall r d dd u,
                   http env (length (requests st)) = HttpResp r ->
                   status_code r = 200 ->
                   body_json r = Ret (JObj d) ->
                   Py.assoc "status" d = Some (JStr "success") ->
                   Py.assoc "data" d = Some (JObj dd) ->
                   Py.assoc "url" dd = Some (JStr u) -> False) ->
                Ret uploaded = Ret (Some url) <->
                exists r d dd u,
                  http env (length (requests st)) = HttpResp r /\
                  status_code r = 200 /\
                  body_json r = Ret (JObj d) /\
                  Py.assoc "status" d = Some (JStr "success") /\
                  Py.assoc "data" d = Some (JObj dd) /\
                  Py.assoc "url" dd = Some (JStr u) /\
                  url = PyStr.replace "tmpfiles.org/" "tmpfiles.org/dl/" u).
  { intros -> Hnot. split; [discriminate|].
    intros (r & d & dd & u & H1 & H2 & H3 & H4 & H5 & H6 & _). exfalso. eauto. }
  destruct (http env (length (requests st))) as [e|resp] eqn:Hreply.
  { intros H. apply Hno; [congruence|]. intros; discriminate. }
  destruct (Z.eqb_spec (status_code resp) 200) as [Hcode|Hcode].
  2:{ intros H. apply Hno; [congruence|]. intros r d dd u Hr. congruence. }
  destruct (body_json resp) as [data|e] eqn:Hbody.
  2:{ intros H. apply Hno; [congruence|]. intros r d dd u Hr _ Hb. congruence. }
  destruct data as [| | | | |d];
    try (intros H; apply Hno; [simpl in H; congruence|];
         intros r d dd u Hr _ Hb; congruence).
  rewrite get_obj. cbv beta iota. unfold Py.dict_get, Py.eq_str.
  destruct (Py.assoc "status" d) as [status|] eqn:Hstatus.
  2:{ intros H. apply Hno; [simpl in H; congruence|].
      intros r d0 dd u Hr _ Hb Hs. congruence. }
  assert (Hbad : status <> JStr "success" ->
                 forall r d0 dd u,
                   HttpResp resp = HttpResp r -> status_code r = 200 ->
                   body_json r = Ret (JObj d0) ->
                   Py.assoc "status" d0 = Some (JStr "success") ->
                   Py.assoc "data" d0 = Some (JObj dd) ->
                   Py.assoc "url" dd = Some (JStr u) -> False).
  { intros Hne r d0 dd u Hr _ Hb Hs. inversion Hr; subst r.
    rewrite Hbody in Hb. inversion Hb; subst d0. congruence. }
  destruct status as [| | |s| |];
    try (intros H; apply Hno; [simpl in H; congruence | apply Hbad; discriminate]).
  destruct (String.eqb_spec s "success") as [->|Hs].
  2:{ intros H. apply Hno; [congruence | apply Hbad; congruence]. }
  unfold Py.getitem at 1.
  destruct (Py.assoc "data" d) as [inner|] eqn:Hdata.
  2:{ intros H. apply Hno; [congruence|].
      intros r d0 dd u Hr _ Hb _ Hd. inversion Hr; subst r.
      rewrite Hbody in Hb. inversion Hb; subst d0. congruence. }
  unfold Py.getitem.
  assert (Hbad2 : (forall dd, inner = JObj dd -> Py.assoc "url" dd = None \/
                                exists v, Py.assoc "url" dd = Some v /\
                                          forall u, v <> JStr u) ->
                  forall r d0 dd u,
                    HttpResp resp = HttpResp r -> status_code r = 200 ->
                    body_json r = Ret (JObj d0) ->
                    Py.assoc "status" d0 = Some (JStr "success") ->
                    Py.assoc "data" d0 = Some (JObj dd) ->
                    Py.assoc "url" dd = Some (JStr u) -> False).
  { intros Hinner r d0 dd u Hr _ Hb _ Hd Hu. inversion Hr; subst r.
    rewrite Hbody in Hb. inversion Hb; subst d0.
    rewrite Hdata in Hd. inversion Hd; subst inner.
    destruct (Hinner dd eq_refl) as [Hn|(v & Hv & Hne)]; [congruence|].
    rewrite Hu in Hv. inversion Hv; subst v. apply (Hne u). reflexivity. }
  destruct inner as [| | | | |dd];
    try (intros H; apply Hno; [simpl in H; congruence | apply Hbad2; discriminate]).
  destruct (Py.assoc "url" dd) as [v|] eqn:Hurl.
  2:{ intros H. apply Hno; [congruence|]. apply Hbad2.
      intros dd0 Hdd. inversion Hdd; subst dd0. left. exact Hurl. }
  destruct v as [| | |u| |];
    try (intros H; apply Hno; [simpl in H; congruence|]; apply Hbad2;
         intros dd0 Hdd; inversion Hdd; subst dd0; right; eexists; split;
         [exact Hurl | discriminate]).
  simpl. intros H. inversion H; subst uploaded. split.
  - intros Heq. inversion Heq; subst url. exists resp, d, dd, u. auto 10.
  - intros (r & d0 & dd0 & u0 & Hr & _ & Hb & _ & Hd & Hu & ->).
    inversion Hr; subst r. rewrite Hbody in Hb. inversion Hb; subst d0.
    rewrite Hdata in Hd. inversion Hd; subst dd0.
    rewrite Hurl in Hu. inversion Hu; subst u0. reflexivity.
Qed.

(** ** [send_to_kling] and [wait_for_video_completion] *)

(** A call of [send_to_kling], unfolded: the submission, and the polling
    when the submission was accepted. *)
Lemma send_to_kling_unfold (env : Env) (prompt image_url : string) (st : State) :
  let token := token_at env (n_clock st) in
  let st2 := add_request (ReqSubmit token (kling_payload prompt image_url))
               (tick_clock (tick_clock st)) in
  send_to_kling env prompt image_url st =
  match accepted_task_id (http env (length (requests st))) with
  | Some task_id =>
      wait_for_video_completion env task_id token default_max_attempts default_delay st2
  | None => (Ret JNull, st2)
  end.
Proof.
  intros token st2.
  unfold send_to_kling, encode_jwt_token, accepted_task_id. unfold_monad.
  change (n_clock (tick_clock st)) with (S (n_clock st)).
  change (length (requests (tick_clock (tick_clock st)))) with (length (requests st)).
  destruct (http env (length (requests st))) as [e|resp]; [reflexivity|].
  destruct (status_code resp =? 200); [|reflexivity].
  destruct (body_json resp) as [data|e]; [|reflexivity].
  destruct data as [| | | | |d]; try reflexivity.
  rewrite !get_obj. cbv beta iota.
  destruct (Py.eq_int (Py.dict_get d "code" JNull) 0); [|reflexivity].
  destruct (Py.dict_get d "data" (JObj [])) as [| | | | |td]; try reflexivity.
  rewrite !get_obj. cbv beta iota.
  destruct (Py.truthy (Py.dict_get td "task_id" JNull)); [|reflexivity].
  unfold wait_for_video_completion.
  subst st2 token. unfold token_at, kling_payload, default_duration.
  match goal with |- _ = poll_loop ?e ?t ?k ?d ?n ?s =>
    destruct (poll_loop_returns e t k d n s) as (result & final & Hrun) end.
  rewrite Hrun. reflexivity.
Qed.

(** X8: [send_to_kling] never raises.  It reads the clock twice for its
    token and sends one submission with the fixed payload; when the reply
    does not accept the task (an error, a status other than 200, a body
    that is not JSON, a [code] other than 0, no task id) it returns [None]
    without polling, and when the reply accepts the task its result is the
    polling's, with the default 60 attempts and 5 seconds. *)
Theorem submission_decides_polling (env : Env) (prompt image_url : string)
    (st : State) :
  let token := token_at env (n_clock st) in
  let st2 := add_request (ReqSubmit token (kling_payload prompt image_url))
               (tick_clock (tick_clock st)) in
  let run := send_to_kling env prompt image_url st in
  (exists result, fst run = Ret result) /\
  (accepted_task_id (http env (length (requests st))) = None ->
   run = (Ret JNull, st2)) /\
  (forall task_id,
     accepted_task_id (http env (length (requests st))) = Some task_id ->
     run = wait_for_video_completion env task_id token 60 5 st2).
Proof.
  intros token st2 run. subst run.
  rewrite send_to_kling_unfold. fold token. fold st2.
  destruct (accepted_task_id (http env (length (requests st)))) as [task_id|].
  - split; [|split; [discriminate|]].
    + unfold wait_for_video_completion.
      destruct (poll_loop_returns env task_id token default_delay default_max_attempts st2)
        as (result & final & ->). eexists. reflexivity.
    + intros t Ht. inversion Ht; subst t. reflexivity.
  - split; [eexists; reflexivity|]. split; [reflexivity | discriminate].
Qed.

(** Replies that refuse a submission, and one that accepts it. *)
Example accepted_task_id_examples :
  accepted_task_id Scenario.connection_error = None /\
  accepted_task_id (Scenario.json_reply 429 (JObj [("code", JNum 0)])) = None /\
  accepted_task_id (Scenario.json_reply 200 (JObj [("code", JNum 1201)])) = None /\
  accepted_task_id (Scenario.json_reply 200 (JObj [("code", JNum 0)])) = None /\
  accepted_task_id
    (Scenario.json_reply 200 (JObj [("code", JNum 0);
                                    ("data", JObj [("task_id", JStr "")])])) = None /\
  accepted_task_id (Scenario.json_reply 200 (JArr [])) = None /\
  accepted_task_id (Scenario.submit_ok "t1") = Some (JStr "t1").
Proof. repeat split. Qed.



(** ** [find_all_input_images] *)

Lemma is_image_true (file : dir_entry) :
  is_image file = true <->
  entry_is_file file = true /\
  In (PyStr.lower (Path.suffix (entry_name file))) image_extensions.
Proof.
  unfold is_image. rewrite andb_true_iff, existsb_exists. split.
  - intros [Hfile (ext & Hin & Heq)]. apply String.eqb_eq in Heq. subst ext. auto.
  - intros [Hfile Hin]. split; [exact Hfile|]. eexists. split; [exact Hin|].
    apply String.eqb_refl.
Qed.

Lemma filter_sublist {A} (f : A -> bool) (l : list A) : List.filter f l `sublist_of` l.
Proof.
  induction l as [|x l IH]; simpl; [constructor|].
  destruct (f x); constructor; exact IH.
Qed.

Lemma map_sublist {A B} (f : A -> B) (l k : list A) :
  l `sublist_of` k -> map f l `sublist_of` map f k.
Proof. induction 1; simpl; constructor; assumption. Qed.

(** X10: discovery changes nothing and either raises [FileNotFoundError],
    exactly when the directory is missing or holds no image file, or returns
    a non-empty list that has, in the order of the listing, one entry for
    every regular file whose suffix is .png, .jpg, .jpeg, .webp or .bmp in
    any mix of cases, and no entry for anything else. *)
Theorem discovery_returns_the_image_files (env : Env) (st : State) :
  match find_all_input_images env st with
  | (Ret images, st') =>
      st' = st /\ images <> [] /\
      exists entries,
        base_dir env = Some entries /\
        map (fun t => fst (fst t)) images
          `sublist_of` map (fun file => Path.join (BASE_IMAGE_DIR env) (entry_name file))
                         entries /\
        forall t,
          In t images <->
          exists file,
            In file entries /\
            entry_is_file file = true /\
            In (PyStr.lower (Path.suffix (entry_name file))) image_extensions /\
            t = (Path.join (BASE_IMAGE_DIR env) (entry_name file),
                 PyStr.contains "crying" (PyStr.lower (entry_name file)),
                 Path.stem (entry_name file))
  | (Raise e, st') =>
      st' = st /\ e = FileNotFoundError /\
      (base_dir env = None \/
       exists entries,
         base_dir env = Some entries /\
         forall file, In file entries ->
           ~ (entry_is_file file = true /\
              In (PyStr.lower (Path.suffix (entry_name file))) image_extensions))
  end.
Proof.
  unfold find_all_input_images.
  destruct (base_dir env) as [entries|]; [|simpl; auto].
  destruct (map (image_tuple env) (List.filter is_image entries)) as [|t0 ts] eqn:Himages.
  - simpl. split; [reflexivity|]. split; [reflexivity|]. right. exists entries.
    split; [reflexivity|]. intros file Hin Himage. apply is_image_true in Himage.
    assert (Hf : In (image_tuple env file)
                   (map (image_tuple env) (List.filter is_image entries))).
    { apply in_map, filter_In. auto. }
    rewrite Himages in Hf. exact Hf.
  - unfold ret. split; [reflexivity|]. split; [discriminate|]. exists entries.
    split; [reflexivity|]. rewrite <- Himages. split.
    + rewrite map_map. simpl.
      apply (map_sublist (fun file => Path.join (BASE_IMAGE_DIR env) (entry_name file))),
        filter_sublist.
    + intros t. rewrite in_map_iff. split.
      * intros (file & <- & Hin). apply filter_In in Hin as [Hin Himage].
        apply is_image_true in Himage as [Hfile Hext]. exists file. auto.
      * intros (file & Hin & Hfile & Hext & ->). exists file. split; [reflexivity|].
        apply filter_In. split; [exact Hin|]. apply is_image_true. auto.
Qed.

(** A directory with images, other files and a sub-directory. *)
Example discovery_run :
  let env :=
    Scenario.world (Scenario.script []) (Scenario.proc_script [])
      [Scenario.file "b.JPeG"; Scenario.file "notes.txt"; Scenario.file ".png";
       {| entry_name := "old.png"; entry_is_file := false |};
       Scenario.file "a.crying.webp"; Scenario.file "archive.png.zip"] in
  fst (find_all_input_images env (Scenario.start ∅))
  = Ret [("/srv/base-image/b.JPeG", false, "b");
         ("/srv/base-image/a.crying.webp", true, "a.crying")].
Proof. reflexivity. Qed.

(** ** [process_single_image] *)

Lemma submissions_app (a b : list request) :
  submissions (a ++ b) = (submissions a ++ submissions b)%list.
Proof.
  induction a as [|r a IH]; simpl; [reflexivity|].
  destruct r; rewrite IH; reflexivity.
Qed.

Lemma submissions_polls (task_id : json) (api_token : jwt_token) (n : nat) :
  submissions (repeat (ReqPoll task_id api_token) n) = [].
Proof. induction n as [|n IH]; simpl; [reflexivity | exact IH]. Qed.

(** A call of [send_to_kling] returns and adds one submission, with the
    payload for its prompt and image. *)
Lemma send_to_kling_submits (env : Env) (prompt image_url : string) (st : State) :
  exists result st',
    send_to_kling env prompt image_url st = (Ret result, st') /\
    submissions (requests st')
    = (submissions (requests st) ++ [kling_payload prompt image_url])%list.
Proof.
  rewrite send_to_kling_unfold.
  destruct (accepted_task_id (http env (length (requests st)))) as [task_id|].
  - unfold wait_for_video_completion.
    match goal with |- context [poll_loop ?e ?t ?k ?d ?n ?s] =>
      destruct (poll_loop_trace e t k d n s) as (result & polls & sleeps & _ & ->) end.
    eexists _, _. split; [reflexivity|]. simpl.
    rewrite !submissions_app, submissions_polls. simpl. rewrite app_nil_r. reflexivity.
  - eexists _, _. split; [reflexivity|]. simpl. rewrite submissions_app. reflexivity.
Qed.

(** A download returns and adds no submission. *)
Lemma download_submits_nothing (env : Env) (url : json) (save_path : string)
    (progress_bar : bool) (st : State) :
  exists saved st',
    download_kling_video env url save_path progress_bar st = (Ret saved, st') /\
    submissions (requests st') = submissions (requests st).
Proof.
  assert (Hone : submissions (requests (add_request (ReqDownload url) st))
                 = submissions (requests st)).
  { simpl. rewrite submissions_app. simpl. apply app_nil_r. }
  destruct (http env (length (requests st))) as [e|r] eqn:Hreply.
  - rewrite download_refused by (rewrite Hreply; exact I). eauto.
  - destruct (Z.eq_dec (status_code r) 200) as [Hcode|Hcode].
    + destruct (content_length r) as [total_size|e] eqn:Hlen.
      * rewrite (download_streams env url save_path progress_bar st r total_size
                   Hreply Hcode Hlen).
        destruct (stream_error r); [|destruct progress_bar]; eauto.
      * rewrite download_refused by (rewrite Hreply; right; eauto). eauto.
    + rewrite download_refused by (rewrite Hreply; left; exact Hcode). eauto.
Qed.

(** One round of the loop over the prompts returns; it adds one submission,
    and the path of its variant to the list of paths or nothing. *)
Lemma variant_step_trace (env : Env) (image_basename image_url : string)
    (emotion prompt : string) (successful failed : Z) (paths : list string)
    (st : State) :
  exists successful' failed' paths' st',
    variant_step env image_basename image_url (emotion, prompt)
      (successful, failed, paths) st
    = (Ret (successful', failed', paths'), st') /\
    submissions (requests st')
    = (submissions (requests st) ++ [kling_payload prompt image_url])%list /\
    (paths' = paths \/ paths' = (paths ++ [output_path env image_basename emotion])%list).
Proof.
  unfold variant_step. unfold_monad.
  destruct (send_to_kling_submits env prompt image_url st)
    as (video_url & st1 & Hsend & Hsub).
  rewrite Hsend. destruct (Py.truthy video_url).
  - match goal with |- context [download_kling_video env video_url ?p true ?s] =>
      destruct (download_submits_nothing env video_url p true s)
        as (saved & st2 & Hdl & Hsub2);
      rewrite Hdl end.
    simpl in Hsub2. rewrite <- Hsub, <- Hsub2.
    destruct (match saved with Some s => PyStr.truthy s | None => false end);
      eexists _, _, _, _; (split; [reflexivity|]); (split; [reflexivity|]); auto.
  - eexists _, _, _, _. split; [reflexivity|]. split; [exact Hsub | auto].
Qed.

Lemma variants_loop_cons (env : Env) (image_basename image_url : string)
    (variant : string * string) (rest : list (string * string))
    (counts : Z * Z * list string) (st : State) :
  variants_loop env image_basename image_url (variant :: rest) counts st =
  match variant_step env image_basename image_url variant counts st with
  | (Ret counts', st') => variants_loop env image_basename image_url rest counts' st'
  | (Raise e, st') => (Raise e, st')
  end.
Proof. reflexivity. Qed.

Lemma variants_loop_trace (env : Env) (image_basename image_url : string)
    (variants : list (string * string)) (successful failed : Z)
    (paths : list string) (st : State) :
  exists successful' failed' added st',
    variants_loop env image_basename image_url variants (successful, failed, paths) st
    = (Ret (successful', failed', (paths ++ added)%list), st') /\
    submissions (requests st')
    = (submissions (requests st)
       ++ map (fun variant => kling_payload (snd variant) image_url) variants)%list /\
    added `sublist_of`
      map (fun variant => output_path env image_basename (fst variant)) variants.
Proof.
  revert successful failed paths st.
  induction variants as [|[emotion prompt] rest IH]; intros successful failed paths st.
  - exists successful, failed, [], st. rewrite !app_nil_r.
    split; [reflexivity|]. split; [reflexivity | constructor].
  - rewrite variants_loop_cons.
    destruct (variant_step_trace env image_basename image_url emotion prompt
                successful failed paths st)
      as (s1 & f1 & p1 & st1 & Hstep & Hsub1 & Hpaths).
    rewrite Hstep.
    destruct (IH s1 f1 p1 st1) as (s2 & f2 & added & st2 & Hloop & Hsub2 & Hadded).
    rewrite Hloop.
    assert (Hsub : submissions (requests st2)
                   = (submissions (requests st)
                      ++ map (fun variant => kling_payload (snd variant) image_url)
                           ((emotion, prompt) :: rest))%list).
    { rewrite Hsub2, Hsub1. simpl map. rewrite <- app_assoc. reflexivity. }
    destruct Hpaths as [-> | ->].
    + exists s2, f2, added, st2. split; [reflexivity|]. split; [exact Hsub|].
      simpl map. constructor. exact Hadded.
    + exists s2, f2, (output_path env image_basename emotion :: added), st2.
      rewrite <- app_assoc. simpl app.
      split; [reflexivity|]. split; [exact Hsub|]. simpl map. constructor. exact Hadded.
Qed.

(** X11: an image whose upload succeeds gets exactly one submission per
    selected prompt, in the order of the prompt table, each with the fixed
    payload, the uploaded image's URL and the text of its prompt; a failed
    poll or download of one variant does not keep the later ones from being
    submitted. *)
Theorem one_submission_per_prompt (env : Env) (image_path : string)
    (is_crying_image : bool) (image_basename image_url : string) (st st1 : State) :
  upload_image_to_temporary_hosting env image_path st = (Ret (Some image_url), st1) ->
  PyStr.truthy image_url = true ->
  let run := process_single_image env image_path is_crying_image image_basename st in
  submissions (requests (snd run))
  = (submissions (requests st)
     ++ map (fun variant => kling_payload (snd variant) image_url)
          (prompts_to_use is_crying_image))%list.
Proof.
  intros Hupload Htruthy run. subst run.
  destruct (upload_state env image_path st) as [uploaded Hstate].
  rewrite Hupload in Hstate. inversion Hstate; subst st1.
  unfold process_single_image. rewrite (bind_run _ _ _ _ _ Hupload), Htruthy.
  unfold bind at 1, progress_update, modify.
  destruct (variants_loop_trace env image_basename image_url
              (prompts_to_use is_crying_image) 0 0 []
              (set_overall (fun k => k + 1) (add_request (ReqUpload image_path) st)))
    as (s' & f' & added & st' & Hloop & Hsub & _).
  rewrite Hloop. simpl snd. rewrite Hsub. simpl. rewrite submissions_app. simpl.
  rewrite app_nil_r. reflexivity.
Qed.

Lemma one_submission_per_prompt_witness :
  let env :=
    Scenario.world
      (Scenario.script
         [Scenario.upload_ok "https://tmpfiles.org/1/a.png";
          Scenario.submit_ok "t1"; Scenario.poll_status "failed";
          Scenario.connection_error;
          Scenario.submit_ok "t3"; Scenario.poll_done "https://v/3.mp4";
          Scenario.video_reply 404])
      (Scenario.proc_script []) [Scenario.file "a.png"] in
  let run := process_single_image env "/srv/base-image/a.png" false "a" (Scenario.start ∅) in
  submissions (requests (snd run))
  = (submissions (requests (Scenario.start ∅))
     ++ map (fun variant => kling_payload (snd variant) "https://tmpfiles.org/dl/1/a.png")
          (prompts_to_use false))%list.
Proof.
  intros env.
  exact (one_submission_per_prompt env "/srv/base-image/a.png" false "a"
           "https://tmpfiles.org/dl/1/a.png" (Scenario.start ∅)
           (add_request (ReqUpload "/srv/base-image/a.png") (Scenario.start ∅))
           eq_refl eq_refl).
Defined.

Lemma str_app_inv_head (a x y : string) : a +:+ x = a +:+ y -> x = y.
Proof.
  induction a as [|c a IH]; simpl; intros H; [exact H|].
  apply IH. congruence.
Qed.

Lemma str_app_inv_tail (a x y : string) : x +:+ a = y +:+ a -> x = y.
Proof.
  revert y. induction x as [|c x IH]; intros [|d y] H; simpl in H.
  - reflexivity.
  - apply (f_equal String.length) in H. simpl in H. rewrite length_app_str in H. lia.
  - apply (f_equal String.length) in H. simpl in H. rewrite length_app_str in H. lia.
  - injection H as -> H. f_equal. apply IH, H.
Qed.

(** For one image, different variants are saved at different paths. *)
Lemma output_path_inj (env : Env) (image_basename e1 e2 : string) :
  output_path env image_basename e1 = output_path env image_basename e2 -> e1 = e2.
Proof.
  unfold output_path, Path.join.
  assert (Hsame : PyStr.startswith "/" (image_basename +:+ "-" +:+ e1 +:+ ".mp4")
                  = PyStr.startswith "/" (image_basename +:+ "-" +:+ e2 +:+ ".mp4"))
    by (destruct image_basename as [|c b]; [reflexivity|];
        unfold PyStr.startswith; cbn [String.append PyStr.strip_prefix];
        destruct (Ascii.eqb "/" c); reflexivity).
  rewrite Hsame.
  assert (Hname : image_basename +:+ "-" +:+ e1 +:+ ".mp4"
                  = image_basename +:+ "-" +:+ e2 +:+ ".mp4" -> e1 = e2).
  { intros H. apply str_app_inv_head in H. simpl in H. injection H as H.
    apply (str_app_inv_tail ".mp4"), H. }
  clear Hsame.
  destruct (PyStr.startswith "/" (image_basename +:+ "-" +:+ e2 +:+ ".mp4"));
    [exact Hname|].
  destruct (Path.ends_with_slash (OUTPUT_VIDEOS_DIR env)
            || negb (PyStr.truthy (OUTPUT_VIDEOS_DIR env))); intros H.
  - apply Hname. apply (str_app_inv_head _ _ _ H).
  - apply str_app_inv_head in H. simpl in H. injection H as H. apply Hname, H.
Qed.

Lemma output_paths_distinct (env : Env) (image_basename : string)
    (is_crying_image : bool) :
  NoDup (map (fun variant => output_path env image_basename (fst variant))
           (prompts_to_use is_crying_image)).
Proof.
  destruct is_crying_image; simpl.
  - apply NoDup_singleton.
  - repeat (apply NoDup_cons; split;
            [rewrite ?elem_of_cons, elem_of_nil; intros H;
             repeat (destruct H as [H|H]; [apply output_path_inj in H; discriminate|]);
             exact H|]).
    apply NoDup_nil_2.
Qed.

(** X12: the video paths an image's processing returns are pairwise
    distinct, so no variant's video overwrites another's; they are the paths
    [{image_basename}-{label}.mp4] under the output directory of some of the
    selected labels, in the order of the prompt table. *)
Theorem video_paths_are_distinct (env : Env) (image_path : string)
    (is_crying_image : bool) (image_basename : string) (st st' : State)
    (successful failed : Z) (paths : list string) :
  process_single_image env image_path is_crying_image image_basename st
  = (Ret (successful, failed, paths), st') ->
  paths `sublist_of`
    map (fun variant => output_path env image_basename (fst variant))
      (prompts_to_use is_crying_image) /\
  NoDup paths.
Proof.
  intros Hrun.
  assert (Hsub : paths `sublist_of`
                   map (fun variant => output_path env image_basename (fst variant))
                     (prompts_to_use is_crying_image)).
  { revert Hrun. unfold process_single_image.
    destruct (upload_state env image_path st) as [uploaded Hupload].
    rewrite (bind_run _ _ _ _ _ Hupload).
    destruct uploaded as [image_url|]; [|discriminate].
    destruct (PyStr.truthy image_url); [|discriminate].
    unfold bind at 1, progress_update, modify.
    destruct (variants_loop_trace env image_basename image_url
                (prompts_to_use is_crying_image) 0 0 []
                (set_overall (fun k => k + 1) (add_request (ReqUpload image_path) st)))
      as (s' & f' & added & st2 & Hloop & _ & Hadded).
    rewrite Hloop. simpl. intros H. inversion H; subst. exact Hadded. }
  split; [exact Hsub|].
  apply (sublist_NoDup _ _ (output_paths_distinct env image_basename is_crying_image) Hsub).
Qed.

Lemma video_paths_are_distinct_witness :
  let env :=
    Scenario.world
      (Scenario.script
         [Scenario.upload_ok "https://tmpfiles.org/1/a.png";
          Scenario.submit_ok "t1"; Scenario.poll_status "failed";
          Scenario.submit_ok "t2"; Scenario.poll_done "https://v/2.mp4";
          Scenario.video_reply 200;
          Scenario.connection_error;
          Scenario.submit_ok "t4"; Scenario.poll_done "https://v/4.mp4";
          Scenario.video_reply 200])
      (Scenario.proc_script []) [Scenario.file "a.png"] in
  ["/srv/output-videos/a-sad.mp4"; "/srv/output-videos/a-romantic.mp4"]
    `sublist_of`
    map (fun variant => output_path env "a" (fst variant)) (prompts_to_use false) /\
  NoDup ["/srv/output-videos/a-sad.mp4"; "/srv/output-videos/a-romantic.mp4"].
Proof.
  intros env.
  apply (video_paths_are_distinct env "/srv/base-image/a.png" false "a"
           (Scenario.start ∅)
           (snd (process_single_image env "/srv/base-image/a.png" false "a"
                   (Scenario.start ∅)))
           2 2).
  vm_compute. reflexivity.
Defined.

(** ** [generate_all_videos] *)

Lemma download_no_process (env : Env) (url : json) (save_path : string)
    (progress_bar : bool) (st : State) :
  exists saved st',
    download_kling_video env url save_path progress_bar st = (Ret saved, st') /\
    n_proc st' = n_proc st.
Proof.
  destruct (http env (length (requests st))) as [e|r] eqn:Hreply.
  - rewrite download_refused by (rewrite Hreply; exact I). eauto.
  - destruct (Z.eq_dec (status_code r) 200) as [Hcode|Hcode].
    + destruct (content_length r) as [total_size|e] eqn:Hlen.
      * rewrite (download_streams env url save_path progress_bar st r total_size
                   Hreply Hcode Hlen).
        destruct (stream_error r); [|destruct progress_bar]; eauto.
      * rewrite download_refused by (rewrite Hreply; right; eauto). eauto.
    + rewrite download_refused by (rewrite Hreply; left; exact Hcode). eauto.
Qed.

(** One round of the loop over the prompts: it returns, counts its task
    once and runs no sub-process. *)
Lemma variant_step_summary (env : Env) (image_basename image_url : string)
    (variant : string * string) (successful failed : Z) (paths : list string)
    (st : State) :
  exists successful' failed' paths' st',
    variant_step env image_basename image_url variant (successful, failed, paths) st
    = (Ret (successful', failed', paths'), st') /\
    successful' + failed' = successful + failed + 1 /\
    successful <= successful' /\ failed <= failed' /\
    Z.of_nat (length paths') - successful' = Z.of_nat (length paths) - successful /\
    n_proc st' = n_proc st.
Proof.
  destruct variant as [emotion prompt]. unfold variant_step. unfold_monad.
  destruct (send_to_kling_state env prompt image_url st)
    as (video_url & payload & task_id & polls & sleeps & _ & Hsend).
  rewrite Hsend. destruct (Py.truthy video_url).
  - match goal with |- context [download_kling_video env video_url ?p true ?s] =>
      destruct (download_no_process env video_url p true s) as (saved & st2 & Hdl & Hn);
      rewrite Hdl end.
    simpl in Hn.
    destruct (match saved with Some s => PyStr.truthy s | None => false end);
      eexists _, _, _, _; (split; [reflexivity|]);
      rewrite ?length_app; simpl; lia.
  - eexists _, _, _, _. split; [reflexivity|]. simpl. lia.
Qed.

Lemma variants_loop_summary (env : Env) (image_basename image_url : string)
    (variants : list (string * string)) (successful failed : Z)
    (paths : list string) (st : State) :
  exists successful' failed' paths' st',
    variants_loop env image_basename image_url variants (successful, failed, paths) st
    = (Ret (successful', failed', paths'), st') /\
    successful' + failed' = successful + failed + Z.of_nat (length variants) /\
    successful <= successful' /\ failed <= failed' /\
    Z.of_nat (length paths') - successful' = Z.of_nat (length paths) - successful /\
    n_proc st' = n_proc st.
Proof.
  revert successful failed paths st.
  induction variants as [|variant rest IH]; intros successful failed paths st.
  - eexists _, _, _, _. split; [reflexivity|]. simpl. lia.
  - rewrite variants_loop_cons.
    destruct (variant_step_summary env image_basename image_url variant
                successful failed paths st)
      as (s1 & f1 & p1 & st1 & Hstep & H1).
    rewrite Hstep.
    destruct (IH s1 f1 p1 st1) as (s2 & f2 & p2 & st2 & Hloop & H2).
    rewrite Hloop. eexists _, _, _, _. split; [reflexivity|]. simpl length. lia.
Qed.

(** One round of the loop over the images: it returns, counts every task of
    its image once and runs no sub-process. *)
Lemma image_step_summary (env : Env) (image_path : string) (is_crying_image : bool)
    (image_basename : string) (successful failed : Z) (paths : list string)
    (st : State) :
  exists successful' failed' paths' st',
    image_step env (image_path, is_crying_image, image_basename)
      (successful, failed, paths) st
    = (Ret (successful', failed', paths'), st') /\
    successful' + failed' = successful + failed + videos_per_image is_crying_image /\
    successful <= successful' /\ failed <= failed' /\
    Z.of_nat (length paths') - successful' = Z.of_nat (length paths) - successful /\
    n_proc st' = n_proc st.
Proof.
  unfold image_step, process_single_image, try_except.
  destruct (upload_state env image_path st) as [uploaded Hupload].
  unfold bind at 1. unfold bind at 1. rewrite Hupload.
  assert (Hpos : 0 <= videos_per_image is_crying_image)
    by (destruct is_crying_image; simpl; lia).
  assert (Hfailed : exists successful' failed' paths' st',
             (Ret (successful, failed + videos_per_image is_crying_image, paths),
              set_overall (fun k => k + (1 + videos_per_image is_crying_image * 2))
                (add_request (ReqUpload image_path) st))
             = (Ret (successful', failed', paths'), st') /\
             successful' + failed'
             = successful + failed + videos_per_image is_crying_image /\
             successful <= successful' /\ failed <= failed' /\
             Z.of_nat (length paths') - successful' = Z.of_nat (length paths) - successful /\
             n_proc st' = n_proc st).
  { eexists _, _, _, _. split; [reflexivity|]. simpl. lia. }
  destruct uploaded as [image_url|]; [|exact Hfailed].
  destruct (PyStr.truthy image_url); [|exact Hfailed].
  unfold bind, progress_update, modify.
  destruct (variants_loop_summary env image_basename image_url
              (prompts_to_use is_crying_image) 0 0 []
              (set_overall (fun k => k + 1) (add_request (ReqUpload image_path) st)))
    as (s' & f' & p' & st' & Hloop & H).
  rewrite Hloop. eexists _, _, _, _. split; [reflexivity|].
  rewrite prompts_to_use_length in H. rewrite length_app. simpl in *. lia.
Qed.

Lemma images_loop_summary (env : Env) (images : list (string * bool * string))
    (successful failed : Z) (paths : list string) (st : State) :
  exists successful' failed' paths' st',
    images_loop env images (successful, failed, paths) st
    = (Ret (successful', failed', paths'), st') /\
    successful' + failed' = successful + failed + count_tasks images /\
    successful <= successful' /\ failed <= failed' /\
    Z.of_nat (length paths') - successful' = Z.of_nat (length paths) - successful /\
    n_proc st' = n_proc st.
Proof.
  revert successful failed paths st.
  induction images as [|[[image_path is_crying_image] image_basename] rest IH];
    intros successful failed paths st.
  - eexists _, _, _, _. split; [reflexivity|]. simpl. lia.
  - rewrite images_loop_cons.
    destruct (image_step_summary env image_path is_crying_image image_basename
                successful failed paths st) as (s1 & f1 & p1 & st1 & Hstep & H1).
    rewrite Hstep.
    destruct (IH s1 f1 p1 st1) as (s2 & f2 & p2 & st2 & Hloop & H2).
    rewrite Hloop. eexists _, _, _, _. split; [reflexivity|]. simpl. lia.
Qed.

Lemma count_steps_tasks (images : list (string * bool * string)) :
  count_steps images = Z.of_nat (length images) + 2 * count_tasks images.
Proof.
  induction images as [|img rest IH]; [reflexivity|].
  unfold count_steps. simpl fold_left. rewrite count_steps_from, IH.
  simpl count_tasks. simpl length. lia.
Qed.

(** A run that reports: what it found, and what the loop over the images
    made of it. *)
Lemma generate_report (env : Env) (st st' : State) (report : summary) :
  generate_all_videos env st = (Ret (Some report), st') ->
  exists images st1,
    find_all_input_images env st = (Ret images, st) /\
    images_loop env images (0, 0, []) (set_overall (fun _ => 0) st)
    = (Ret (total_successful report, total_failed report,
            all_successful_video_paths report), st1) /\
    total_video_steps report = count_steps images /\
    match all_successful_video_paths report with
    | [] => cropping report = None /\ st' = st1
    | _ =>
        match cropping report with
        | Some counts =>
            exists st2 st3,
              check_ffmpeg env st1 = (Ret true, st2) /\
              crop_all_generated_videos env (all_successful_video_paths report) st2
              = (Ret counts, st3)
        | None => True
        end
    end.
Proof.
  unfold generate_all_videos, try_except. unfold bind at 1.
  destruct (find_all_input_images env st) as [[all_images|e] st0] eqn:Hfind;
    [|discriminate].
  assert (Hst0 : st0 = st).
  { unfold find_all_input_images in Hfind. destruct (base_dir env) as [entries|].
    - destruct (map _ _) in Hfind; inversion Hfind; reflexivity.
    - inversion Hfind. }
  subst st0. unfold bind at 1. unfold modify at 1. unfold bind at 1.
  destruct (images_loop_summary env all_images 0 0 [] (set_overall (fun _ => 0) st))
    as (s' & f' & p' & st1 & Hloop & _).
  rewrite Hloop. intros Hrun. exists all_images, st1.
  destruct p' as [|p ps].
  - unfold ret in Hrun. inversion Hrun; subst. simpl. auto.
  - unfold bind at 1 in Hrun.
    destruct (check_ffmpeg env st1) as [[available|e] st2] eqn:Hcheck; [|discriminate].
    destruct available.
    + unfold bind at 1 in Hrun.
      destruct (crop_all_generated_videos env (p :: ps) st2) as [[counts|e] st3] eqn:Hcrop;
        [|discriminate].
      unfold ret in Hrun. inversion Hrun; subst. simpl.
      split; [reflexivity|]. split; [exact Hloop|]. split; [reflexivity|]. eauto.
    + unfold bind at 1 in Hrun.
      destruct (check_ffmpeg env st2) as [[again|e] st3]; [|discriminate].
      unfold ret in Hrun. inversion Hrun; subst. simpl. auto.
Qed.

(** X13: in a run that ends with its report, every task of every discovered
    image is counted exactly once, as successful or as failed: the two
    totals add up to 1 task per crying image plus 4 per other image, the list
    of video paths has one entry per success, and the total of the progress
    bar is one step per image plus two per task. *)
Theorem run_counts_every_task (env : Env) (st st' : State) (report : summary) :
  generate_all_videos env st = (Ret (Some report), st') ->
  exists images,
    find_all_input_images env st = (Ret images, st) /\
    total_successful report + total_failed report = count_tasks images /\
    0 <= total_successful report /\ 0 <= total_failed report /\
    Z.of_nat (length (all_successful_video_paths report)) = total_successful report /\
    total_video_steps report = Z.of_nat (length images) + 2 * count_tasks images.
Proof.
  intros Hrun.
  destruct (generate_report env st st' report Hrun)
    as (images & st1 & Hfind & Hloop & Hsteps & _).
  exists images. split; [exact Hfind|].
  destruct (images_loop_summary env images 0 0 [] (set_overall (fun _ => 0) st))
    as (s' & f' & p' & st2 & Hloop' & H).
  rewrite Hloop in Hloop'. inversion Hloop'; subst.
  rewrite Hsteps, count_steps_tasks. simpl in H. lia.
Qed.

Lemma run_counts_every_task_witness :
  let env :=
    Scenario.world
      (Scenario.script
         (Scenario.json_reply 500 JNull
          :: Scenario.upload_ok "https://tmpfiles.org/2/b-crying.png"
          :: Scenario.task_ok))
      (Scenario.proc_script [])
      [Scenario.file "a.png"; Scenario.file "b-crying.png"] in
  let report :=
    {| total_video_steps := 12; total_successful := 1; total_failed := 4;
       all_successful_video_paths := ["/srv/output-videos/b-crying-crying.mp4"];
       cropping := None |} in
  exists images,
    find_all_input_images env (Scenario.start ∅) = (Ret images, Scenario.start ∅) /\
    total_successful report + total_failed report = count_tasks images /\
    0 <= total_successful report /\ 0 <= total_failed report /\
    Z.of_nat (length (all_successful_video_paths report)) = total_successful report /\
    total_video_steps report = Z.of_nat (length images) + 2 * count_tasks images.
Proof.
  intros env report.
  apply (run_counts_every_task env (Scenario.start ∅)
           (snd (generate_all_videos env (Scenario.start ∅))) report).
  vm_compute. reflexivity.
Defined.

Lemma progress_short_by_failed_downloads_witness :
  let env :=
    Scenario.world
      (Scenario.script
         ([Scenario.upload_ok "https://tmpfiles.org/1/a-crying.png";
           Scenario.submit_ok "t1"; Scenario.poll_done "https://v/1.mp4";
           Scenario.video_reply 404]
          ++ Scenario.image_ok 1))
      (Scenario.proc_script [])
      [Scenario.file "a-crying.png"; Scenario.file "b-crying.png"] in
  let report :=
    {| total_video_steps := 6; total_successful := 1; total_failed := 1;
       all_successful_video_paths := ["/srv/output-videos/b-crying-crying.mp4"];
       cropping := None |} in
  let st' := snd (generate_all_videos env (Scenario.start ∅)) in
  overall st'
  = total_video_steps report
    - (downloads_sent (requests st') - downloads_sent (requests (Scenario.start ∅))
       - total_successful report).
Proof.
  intros env report st'.
  apply (progress_short_by_failed_downloads env (Scenario.start ∅) st' report).
  vm_compute. reflexivity.
Defined.

(** X15: when the input directory is missing, or holds no image file, the
    run stops there: it reports the error instead of a summary, and has sent
    no request, run no sub-process and touched neither a file nor the
    progress bar. *)
Theorem no_images_no_run (env : Env) (st : State) :
  match base_dir env with
  | None => True
  | Some entries => forall file, In file entries -> is_image file = false
  end ->
  generate_all_videos env st = (Ret None, st).
Proof.
  intros Hnone. unfold generate_all_videos, try_except, find_all_input_images.
  unfold bind at 1.
  destruct (base_dir env) as [entries|]; [|reflexivity].
  assert (Hfilter : List.filter is_image entries = []).
  { induction entries as [|file rest IH]; [reflexivity|]. simpl.
    rewrite (Hnone file) by (left; reflexivity).
    apply IH. intros f Hf. apply Hnone. right. exact Hf. }
  rewrite Hfilter. reflexivity.
Qed.

Lemma no_images_no_run_witness :
  let env :=
    Scenario.world (Scenario.script [Scenario.upload_ok "https://tmpfiles.org/1/a.png"])
      (Scenario.proc_script [Scenario.proc_exit 0 None])
      [Scenario.file "notes.txt"; {| entry_name := "old.png"; entry_is_file := false |}] in
  generate_all_videos env (Scenario.start ∅) = (Ret None, Scenario.start ∅).
Proof.
  intros env. apply (no_images_no_run env (Scenario.start ∅)).
  intros file [<-|[<-|[]]]; reflexivity.
Defined.

(** X16: when the report of a run carries cropping counts, at least one
    video was made and every successful video is counted once, as cropped or
    as failed to crop.  When no video was made nothing is cropped and the
    whole run has not started a single sub-process: FFmpeg is not even
    checked for. *)
Theorem cropping_counts_every_video (env : Env) (st st' : State) (report : summary) :
  generate_all_videos env st = (Ret (Some report), st') ->
  match cropping report with
  | Some (cropped, crop_failed) =>
      cropped + crop_failed = total_successful report /\
      0 <= cropped /\ 0 <= crop_failed /\ 0 < total_successful report
  | None => True
  end /\
  (total_successful report = 0 -> cropping report = None /\ n_proc st' = n_proc st).
Proof.
  intros Hrun.
  destruct (generate_report env st st' report Hrun)
    as (images & st1 & Hfind & Hloop & Hsteps & Hcrop).
  destruct (images_loop_summary env images 0 0 [] (set_overall (fun _ => 0) st))
    as (s' & f' & p' & st2 & Hloop' & Hsum & Hs & Hf & Hlen & Hproc).
  rewrite Hloop in Hloop'. inversion Hloop'; subst s' f' p' st2. clear Hloop'.
  simpl in Hlen, Hproc.
  destruct (all_successful_video_paths report) as [|p ps] eqn:Hpaths.
  - destruct Hcrop as [-> ->]. split; [exact I|]. intros _. split; [reflexivity | exact Hproc].
  - simpl length in Hlen. split.
    + destruct (cropping report) as [[cropped crop_failed]|]; [|exact I].
      destruct Hcrop as (st2 & st3 & _ & Hcropall).
      pose proof (crop_all_counts env (p :: ps) st2) as Hcounts.
      rewrite Hcropall in Hcounts. simpl in Hcounts. simpl length in Hcounts. lia.
    + intros Hzero. lia.
Qed.

Lemma cropping_counts_every_video_witness :
  let env :=
    Scenario.world
      (Scenario.script (Scenario.image_ok 1))
      (Scenario.proc_script
         [Scenario.proc_exit 0 None; Scenario.proc_exit 0 None;
          Scenario.proc_exit 0 None; Scenario.proc_exit 0 (Some [Byte.x09])])
      [Scenario.file "c-crying.png"] in
  let report :=
    {| total_video_steps := 3; total_successful := 1; total_failed := 0;
       all_successful_video_paths := ["/srv/output-videos/c-crying-crying.mp4"];
       cropping := Some (1, 0) |} in
  (1 + 0 = total_successful report /\ 0 <= 1 /\ 0 <= 0 /\ 0 < total_successful report) /\
  (total_successful report = 0 ->
   cropping report = None /\
   n_proc (snd (generate_all_videos env (Scenario.start ∅))) = n_proc (Scenario.start ∅)).
Proof.
  intros env report.
  apply (cropping_counts_every_video env (Scenario.start ∅)
           (snd (generate_all_videos env (Scenario.start ∅))) report).
  vm_compute. reflexivity.
Defined.
